(** * Multi-agent website cloning: the workflow orchestrator and the
      generation service

    A shallow embedding of
      - [multi_agent/workflow/models.py]        (AgentState, WorkflowState, AgentConfig)
      - [multi_agent/agents/base_agent.py]      (BaseAgent.__init__)
      - [multi_agent/workflow/agent_factory.py] (AgentFactory)
      - [multi_agent/workflow/orchestrator.py]  (WorkflowOrchestrator)
      - [multi_agent/service.py]                (tasks, observers and notifications of
                                                 WebsiteGenerationService)
      - [multi_agent/agents/validation_agent.py] (ValidationAgent)

    Python dictionaries keyed by strings are [gmap string _]; the ordered
    dictionary of agents held by the orchestrator is an association list,
    because the order of its keys decides the edges of the graph.  A stage's
    [process_sync] and the wall clock are the environment: they are functions
    of the number of calls made so far, so quantifying over them quantifies
    over every sequence of stage outcomes and of clock readings. *)

From Stdlib Require Import QArith Ascii.
Close Scope Q_scope.
From stdpp Require Import gmap strings list fin_maps pretty.
From stdpp Require Import sorting.

Local Open Scope string_scope.
Local Open Scope list_scope.
Local Open Scope nat_scope.

(** ** Python values *)

(** The [Any] of the artifacts.  A float is a rational here: the
    orchestrator stores and copies scores and timestamps, it never computes
    with them. *)
#[local] Set Warnings "-register-all".
Inductive value : Type :=
| VNone
| VBool (b : bool)
| VInt (z : Z)
| VFloat (q : Q)
| VStr (s : string)
| VList (l : list value)
| VDict (d : list (string * value)).

(** Python truthiness, as used by [if result.get("passed", False)]. *)
Definition truthy (v : value) : bool :=
  match v with
  | VNone => false
  | VBool b => b
  | VInt z => negb (z =? 0)%Z
  | VFloat q => negb (Qnum q =? 0)%Z
  | VStr s => negb (String.eqb s "")
  | VList l => match l with [] => false | _ :: _ => true end
  | VDict d => match d with [] => false | _ :: _ => true end
  end.

(** [Dict[str, Any]]: what a stage consumes and produces. *)
Abbreviation Artifact := (gmap string value).

(** [d.get(k, dflt)] *)
Definition dict_get (d : Artifact) (k : string) (dflt : value) : value :=
  default dflt (d !! k).

(** [acc.update(d)]: the keys of [d] win. *)
Definition dict_update (acc d : Artifact) : Artifact := d ∪ acc.

(** A call that returns or raises; an exception is kept as its [str(e)]. *)
Inductive res (A : Type) : Type :=
| Ok (a : A)
| Raise (e : string).
Arguments Ok {A} a.
Arguments Raise {A} e.

(** ** models.py *)

(** A run state is created with the keys [agent_id], [name], [status],
    [start_time] and [retry_count]; the keys [end_time], [result] and
    [error] are absent until they are assigned. *)
Record AgentState : Type := mkAgentState {
  a_agent_id : string;
  a_name : value;
  a_status : string;
  a_start_time : Q;
  a_end_time : option Q;
  a_result : option Artifact;
  a_error : option string;
  a_retry_count : nat
}.

Record ErrorEntry : Type := mkErrorEntry {
  e_agent_id : string;
  e_agent_name : value;
  e_error : string;
  e_time : Q
}.

Record WorkflowState : Type := mkWorkflowState {
  url : string;
  current_agent_id : option string;
  agents : gmap string AgentState;
  results : gmap string Artifact;
  errors : list ErrorEntry;
  quality_score : value;
  status : string;
  output_path : value
}.

Record AgentConfig : Type := mkAgentConfig {
  agent_type : string;
  c_name : string;
  c_debug : bool;
  c_max_retries : nat;
  c_timeout : nat;
  config : Artifact
}.

(** Assignments to one key of the state dictionary. *)
Definition set_current_agent_id (x : option string) (s : WorkflowState) : WorkflowState :=
  mkWorkflowState (url s) x (agents s) (results s) (errors s)
                  (quality_score s) (status s) (output_path s).
Definition set_agents (x : gmap string AgentState) (s : WorkflowState) : WorkflowState :=
  mkWorkflowState (url s) (current_agent_id s) x (results s) (errors s)
                  (quality_score s) (status s) (output_path s).
Definition set_results (x : gmap string Artifact) (s : WorkflowState) : WorkflowState :=
  mkWorkflowState (url s) (current_agent_id s) (agents s) x (errors s)
                  (quality_score s) (status s) (output_path s).
Definition set_errors (x : list ErrorEntry) (s : WorkflowState) : WorkflowState :=
  mkWorkflowState (url s) (current_agent_id s) (agents s) (results s) x
                  (quality_score s) (status s) (output_path s).
Definition set_quality_score (x : value) (s : WorkflowState) : WorkflowState :=
  mkWorkflowState (url s) (current_agent_id s) (agents s) (results s) (errors s)
                  x (status s) (output_path s).
Definition set_status (x : string) (s : WorkflowState) : WorkflowState :=
  mkWorkflowState (url s) (current_agent_id s) (agents s) (results s) (errors s)
                  (quality_score s) x (output_path s).
Definition set_output_path (x : value) (s : WorkflowState) : WorkflowState :=
  mkWorkflowState (url s) (current_agent_id s) (agents s) (results s) (errors s)
                  (quality_score s) (status s) x.

(** ** base_agent.py *)

(** The attributes [BaseAgent.__init__] sets, each read from the keyword
    arguments with its default. *)
Record BaseAgent : Type := mkBaseAgent {
  debug : value;
  timeout : value;
  max_retries : value;
  id : value
}.

Definition BaseAgent__init__ (class_name : string) (kwargs : Artifact) : BaseAgent :=
  {| debug := dict_get kwargs "debug" (VBool false);
     timeout := dict_get kwargs "timeout" (VInt 60);
     max_retries := dict_get kwargs "max_retries" (VInt 3);
     id := dict_get kwargs "id" (VStr class_name) |}.

(** ** agent_factory.py *)

Definition _agent_classes (ty : string) : option string :=
  if decide (ty = "scraper") then Some "ScraperAgent"
  else if decide (ty = "semantic_parser") then Some "SemanticParserAgent"
  else if decide (ty = "style_transfer") then Some "StyleTransferAgent"
  else if decide (ty = "layout_generator") then Some "LayoutGeneratorAgent"
  else if decide (ty = "component_synthesizer") then Some "ComponentSynthesizerAgent"
  else if decide (ty = "validation") then Some "ValidationAgent"
  else None.

(** The four keywords [create_agent] writes out in the call. *)
Definition explicit_kwargs (cfg : AgentConfig) : Artifact :=
  <["name" := VStr (c_name cfg)]>
  (<["debug" := VBool (c_debug cfg)]>
  (<["timeout" := VInt (Z.of_nat (c_timeout cfg))]>
  (<["retry_limit" := VInt (Z.of_nat (c_max_retries cfg))]> ∅))).

(** [agent_class(name=.., debug=.., timeout=.., retry_limit=.., **config.config)]:
    a key of [config.config] that repeats a written keyword is a TypeError;
    every agent class hands its keyword arguments on to [BaseAgent.__init__]. *)
Definition create_agent (cfg : AgentConfig) : res BaseAgent :=
  match _agent_classes (agent_type cfg) with
  | None => Raise ("Invalid agent type: " +:+ agent_type cfg)
  | Some cls =>
      if bool_decide (map_Forall (λ k _, explicit_kwargs cfg !! k = None) (config cfg))
      then Ok (BaseAgent__init__ cls (config cfg ∪ explicit_kwargs cfg))
      else Raise "got multiple values for keyword argument"
  end.

(** [agents[f"{config.agent_type}_{i+1}"] = agent], for [i] counted from
    [start]; the dictionary keeps the order of insertion. *)
Definition dict_set {A} (k : string) (v : A) (d : list (string * A)) : list (string * A) :=
  if bool_decide (k ∈ d.*1)
  then (λ kv, if bool_decide (kv.1 = k) then (k, v) else kv) <$> d
  else d ++ [(k, v)].

Fixpoint create_agents_from (start : nat) (agent_configs : list AgentConfig)
    (acc : list (string * BaseAgent)) : res (list (string * BaseAgent)) :=
  match agent_configs with
  | [] => Ok acc
  | cfg :: rest =>
      match create_agent cfg with
      | Raise e => Raise e
      | Ok agent =>
          create_agents_from (S start) rest
            (dict_set (agent_type cfg +:+ "_" +:+ pretty (S start)) agent acc)
      end
  end.

Definition create_agents_from_config (agent_configs : list AgentConfig)
    : res (list (string * BaseAgent)) :=
  create_agents_from 0 agent_configs [].

(** [create_default_workflow_agents]: the six configurations of the complete
    workflow.  The directories and keys come from the keyword arguments or the
    process environment, the four thresholds from the environment; all are
    arguments here.  [max_retries] and [timeout] are left at the defaults of
    [AgentConfig], 3 and 60. *)
Definition create_default_workflow_agents (debug : bool)
    (output_dir screenshots_dir firecrawl_api_key openai_api_key : string)
    (performance accessibility seo best_practices : Z) : list AgentConfig :=
  [ mkAgentConfig "scraper" "ScrapeWebsite" debug 3 60
      (<["api_key" := VStr firecrawl_api_key]>
      (<["stealth_mode" := VBool true]>
      (<["proxy_rotation" := VBool true]>
      (<["screenshots_dir" := VStr screenshots_dir]> ∅))));
    mkAgentConfig "semantic_parser" "ParseStructure" debug 3 60
      (<["analyze_text_semantics" := VBool true]>
      (<["analyze_component_patterns" := VBool true]>
      (<["analyze_heading_structure" := VBool true]> ∅)));
    mkAgentConfig "style_transfer" "GenerateDesignSystem" debug 3 60
      (<["api_key" := VStr openai_api_key]>
      (<["color_extraction_mode" := VStr "pixel"]>
      (<["min_colors" := VInt 5]>
      (<["max_colors" := VInt 10]> ∅))));
    mkAgentConfig "layout_generator" "GenerateLayout" debug 3 60
      (<["column_counts" :=
           VDict [("mobile", VInt 4); ("tablet", VInt 8); ("desktop", VInt 12)]]>
      (<["breakpoints" :=
           VDict [("mobile", VStr "0px"); ("tablet", VStr "768px");
                  ("desktop", VStr "1200px")]]> ∅));
    mkAgentConfig "component_synthesizer" "GenerateComponents" debug 3 60
      (<["component_dir" := VStr "components"]>
      (<["output_dir" := VStr output_dir]>
      (<["typescript" := VBool true]>
      (<["react_version" := VStr "18"]> ∅))));
    mkAgentConfig "validation" "ValidateWebsite" debug 3 60
      (<["performance_threshold" := VInt performance]>
      (<["accessibility_threshold" := VInt accessibility]>
      (<["seo_threshold" := VInt seo]>
      (<["best_practices_threshold" := VInt best_practices]> ∅)))) ].

(** ** orchestrator.py *)

(** [self] of [WorkflowOrchestrator]: the ordered dictionary of agents, the
    base output directory, and whether a status callback is installed. *)
Record WorkflowOrchestrator : Type := mkWorkflowOrchestrator {
  self_agents : list (string * BaseAgent);
  self_output_dir : string;
  self_status_callback : bool
}.

(** One call [self.status_callback(state, event, agent_id)], with the state
    as it is at the moment of the call. *)
Record Emitted : Type := mkEmitted {
  ev_event : string;
  ev_agent_id : option string;
  ev_state : WorkflowState
}.

(** The run in progress: the state dictionary, how many times the clock and
    the stages were called, and the callback calls made so far. *)
Record Machine : Type := mkMachine {
  st : WorkflowState;
  clock : nat;
  calls : nat;
  emitted : list Emitted
}.

Definition with_st (f : WorkflowState → WorkflowState) (m : Machine) : Machine :=
  mkMachine (f (st m)) (clock m) (calls m) (emitted m).

(** What a node body or a traversal did: it returned, or it raised. *)
Inductive signal : Type :=
| Returned
| Raised (e : string).

(** *** _get_agent_input *)

(** Every state the orchestrator builds has all eight keys, so the test
    ["output_path" in state] of the last conditional always holds. *)
Definition _get_agent_input (agent_id : string) (state : WorkflowState) : Artifact :=
  let has k := bool_decide (is_Some (results state !! k)) in
  let upd k (input_data : Artifact) := dict_update input_data (results state !!! k) in
  let input_data : Artifact := {[ "url" := VStr (url state) ]} in
  let input_data :=
    if bool_decide (agent_id = "semantic_parser_2") && has "scraper_1" then
      upd "scraper_1" input_data
    else if bool_decide (agent_id = "style_transfer_3") then
      let input_data := if has "scraper_1" then upd "scraper_1" input_data else input_data in
      if has "semantic_parser_2" then upd "semantic_parser_2" input_data else input_data
    else if bool_decide (agent_id = "layout_generator_4") then
      let input_data :=
        if has "semantic_parser_2" then upd "semantic_parser_2" input_data else input_data in
      if has "style_transfer_3" then upd "style_transfer_3" input_data else input_data
    else if bool_decide (agent_id = "component_synthesizer_5") then
      foldl (λ input_data prev_agent_id,
               if has prev_agent_id then upd prev_agent_id input_data else input_data)
            input_data
            ["scraper_1"; "semantic_parser_2"; "style_transfer_3"; "layout_generator_4"]
    else if bool_decide (agent_id = "validation_6") && has "component_synthesizer_5" then
      upd "component_synthesizer_5" input_data
    else input_data in
  if bool_decide (agent_id ∈ ["component_synthesizer_5"; "validation_6"])
  then <["output_path" := output_path state]> input_data
  else input_data.

(** *** _create_agent_handler *)

Section Orchestrator.

(** The environment: [time.time()] at its [n]-th call, and
    [agent.process_sync(input_data)] of the stage registered under
    [agent_id], at the [n]-th stage call of the run. *)
Variable time_time : nat → Q.
Variable process_sync : nat → string → Artifact → res Artifact.

Variable self : WorkflowOrchestrator.

(** [time.time()] *)
Definition read_clock (m : Machine) : Q * Machine :=
  (time_time (clock m), mkMachine (st m) (S (clock m)) (calls m) (emitted m)).

(** [if self.status_callback: asyncio.create_task(self.status_callback(state, event, agent_id))] *)
Definition emit (event : string) (agent_id : option string) (m : Machine) : Machine :=
  if self_status_callback self
  then mkMachine (st m) (clock m) (calls m)
                 (emitted m ++ [mkEmitted event agent_id (st m)])
  else m.

(** Lines 122-139: the state of the agent is created, or reset to running
    with its retry count incremented. *)
Definition enter_agent (agent_id : string) (agent : BaseAgent) (now : Q)
    (state : WorkflowState) : WorkflowState :=
  let state := set_current_agent_id (Some agent_id) state in
  match agents state !! agent_id with
  | None =>
      set_agents (<[agent_id := mkAgentState agent_id (id agent) "running" now
                                             None None None 0]> (agents state)) state
  | Some a =>
      set_agents (<[agent_id := mkAgentState (a_agent_id a) (a_name a) "running" now
                                             (a_end_time a) (a_result a) (a_error a)
                                             (S (a_retry_count a))]> (agents state)) state
  end.

(** [state["agents"][agent_id][...] = ...] on an entry that exists. *)
Definition update_agent (agent_id : string) (f : AgentState → AgentState)
    (state : WorkflowState) : WorkflowState :=
  set_agents (alter f agent_id (agents state)) state.

(** Lines 160-179: the stage returned [result]. *)
Definition agent_succeeded (agent_id : string) (result : Artifact) (now : Q)
    (state : WorkflowState) : WorkflowState :=
  let state :=
    update_agent agent_id
      (λ a, mkAgentState (a_agent_id a) (a_name a) "completed" (a_start_time a)
                         (Some now) (Some result) (a_error a) (a_retry_count a)) state in
  let state := set_results (<[agent_id := result]> (results state)) state in
  let state :=
    if bool_decide (agent_id = "validation_6")
    then set_quality_score (dict_get result "quality_score" (VFloat 1)) state
    else state in
  let state :=
    if bool_decide (agent_id = "component_synthesizer_5")
    then set_output_path (dict_get result "output_path" (output_path state)) state
    else state in
  if bool_decide (agent_id = "validation_6")
     && truthy (dict_get result "passed" (VBool false))
  then set_status "completed" state
  else state.

(** [state["agents"][agent_id].get("retry_count", 0)] *)
Definition retry_count_of (agent_id : string) (state : WorkflowState) : nat :=
  from_option a_retry_count 0 (agents state !! agent_id).

(** Lines 192-209: the stage raised [e]; [now] and [now'] are the two
    clock readings. *)
Definition agent_failed (agent_id : string) (agent : BaseAgent) (e : string) (now now' : Q)
    (state : WorkflowState) : WorkflowState :=
  let state :=
    update_agent agent_id
      (λ a, mkAgentState (a_agent_id a) (a_name a) "failed" (a_start_time a)
                         (Some now) (a_result a) (Some e) (a_retry_count a)) state in
  let state :=
    set_errors (errors state ++ [mkErrorEntry agent_id (id agent) e now']) state in
  if bool_decide (3 ≤ retry_count_of agent_id state)%nat
  then set_status "failed" state
  else state.

(** The node body of an agent.  It mutates the state it is given and
    either returns it or re-raises the exception of the stage. *)
Definition handler (agent_id : string) (agent : BaseAgent) (m : Machine)
    : signal * Machine :=
  let '(now, m) := read_clock m in
  let m := with_st (enter_agent agent_id agent now) m in
  let m := emit "agent_started" (Some agent_id) m in
  let input_data := _get_agent_input agent_id (st m) in
  let outcome := process_sync (calls m) agent_id input_data in
  let m := mkMachine (st m) (clock m) (S (calls m)) (emitted m) in
  match outcome with
  | Ok result =>
      let '(now, m) := read_clock m in
      let m := with_st (agent_succeeded agent_id result now) m in
      let m := emit "agent_completed" (Some agent_id) m in
      (Returned, m)
  | Raise e =>
      let '(now, m) := read_clock m in
      let '(now', m) := read_clock m in
      let m := with_st (agent_failed agent_id agent e now now') m in
      let m := emit "agent_failed" (Some agent_id) m in
      (Raised e, m)
  end.

(** The input the handler of [agent_id] hands to its stage when it is
    entered in [m], and the outcome of that stage call. *)
Definition stage_input (agent_id : string) (agent : BaseAgent) (m : Machine) : Artifact :=
  _get_agent_input agent_id (enter_agent agent_id agent (time_time (clock m)) (st m)).

Definition stage_outcome (agent_id : string) (agent : BaseAgent) (m : Machine)
    : res Artifact :=
  process_sync (calls m) agent_id (stage_input agent_id agent m).

(** *** _validation_router *)

(** The route, or the KeyError of [state["agents"]["component_synthesizer_5"]],
    together with the state as the router leaves it. *)
Definition _validation_router (state : WorkflowState) : res string * WorkflowState :=
  let validation_result := agents state !! "validation_6" in
  let failed_or_absent :=
    match validation_result with
    | None => true
    | Some a => bool_decide (a_status a = "failed")
    end in
  if failed_or_absent then
    match validation_result with
    | Some a =>
        if bool_decide (a_retry_count a < 3)%nat then (Ok "retry", state)
        else (Ok "success", set_status "failed" state)
    | None => (Ok "success", set_status "failed" state)
    end
  else
    match validation_result with
    | Some (mkAgentState _ _ _ _ _ (Some result) _ _) =>
        if truthy (dict_get result "passed" (VBool false))
        then (Ok "success", set_status "completed" state)
        else
          match agents state !! "component_synthesizer_5" with
          | None => (Raise "'component_synthesizer_5'", state)
          | Some synth =>
              if bool_decide (a_retry_count synth < 3)%nat then (Ok "retry", state)
              else (Ok "success", set_status "failed" state)
          end
    | _ => (Ok "success", state)
    end.

(** *** _create_end_handler *)

Definition end_handler (m : Machine) : signal * Machine :=
  (Returned,
   emit (if bool_decide (status (st m) = "completed")
         then "workflow_completed" else "workflow_failed") None m).

(** *** _build_workflow_graph *)

(** The graph handed to the graph library: named node bodies, the plain
    edges, the conditional edges (source node and the table from the
    router's answer to the target node; the router is always
    [_validation_router]) and the entry point. *)
Inductive NodeBody : Type :=
| AgentHandler (agent_id : string) (agent : BaseAgent)
| EndHandler.

Record StateGraph : Type := mkStateGraph {
  nodes : list (string * NodeBody);
  edges : list (string * string);
  conditional_edges : list (string * list (string * string));
  entry_point : option string
}.

(** [d.get(k)] on a dictionary kept as an association list. *)
Fixpoint assoc {A} (k : string) (d : list (string * A)) : option A :=
  match d with
  | [] => None
  | (k', v) :: d' => if bool_decide (k' = k) then Some v else assoc k d'
  end.

(** [(workflow_nodes[i], workflow_nodes[i + 1])] for [i] in
    [range(len(workflow_nodes) - 1)] *)
Fixpoint consecutive (workflow_nodes : list string) : list (string * string) :=
  match workflow_nodes with
  | from_node :: (to_node :: _) as rest => (from_node, to_node) :: consecutive rest
  | _ => []
  end.

Definition _build_workflow_graph : StateGraph :=
  let workflow_nodes := (self_agents self).*1 in
  {| nodes :=
       ((λ kv, (kv.1, AgentHandler kv.1 kv.2)) <$> self_agents self)
       ++ [("end", EndHandler)];
     edges := consecutive workflow_nodes;
     conditional_edges :=
       if bool_decide ("validation_6" ∈ workflow_nodes)
          && bool_decide ("component_synthesizer_5" ∈ workflow_nodes)
       then [("validation_6",
              [("success", "end"); ("retry", "component_synthesizer_5")])]
       else [];
     entry_point := head workflow_nodes |}.

(** *** The graph runner

    [compiled_graph.invoke(initial_state)] belongs to the graph library,
    not to this repository.  Starting at the entry point, the body of the
    current node runs on the state of the run, and the dictionary it
    returns (the one it mutated) is the state from then on.  The router of
    a conditional edge is called on a dictionary of its own: the route it
    returns is followed, what it assigns to [state["status"]] is not kept.
    An exception of a body or of the router ends the traversal at once and
    reaches the caller.  The targets of a node are the plain edges leaving
    it, followed by the target the router picks when the node has a
    conditional edge.  No target ends the traversal, one target is visited
    next.  Several targets at once (a gate that is not the last stage)
    would be run side by side by the library; the model gives no result for
    them, nor when [fuel] node visits do not suffice. *)
Definition run_node (body : NodeBody) (m : Machine) : signal * Machine :=
  match body with
  | AgentHandler agent_id agent => handler agent_id agent m
  | EndHandler => end_handler m
  end.

Definition plain_targets (g : StateGraph) (node : string) : list string :=
  (filter (λ e, e.1 = node) (edges g)).*2.

Fixpoint invoke_from (fuel : nat) (g : StateGraph) (node : string) (m : Machine)
    : option (signal * Machine) :=
  match fuel with
  | O => None
  | S fuel =>
      match assoc node (nodes g) with
      | None => None
      | Some body =>
          match run_node body m with
          | (Raised e, m) => Some (Raised e, m)
          | (Returned, m) =>
              let follow targets m :=
                match targets with
                | [] => Some (Returned, m)
                | [target] => invoke_from fuel g target m
                | _ => None
                end in
              match assoc node (conditional_edges g) with
              | None => follow (plain_targets g node) m
              | Some table =>
                  match _validation_router (st m) with
                  | (Raise e, _) => Some (Raised e, m)
                  | (Ok route, _) =>
                      match assoc route table with
                      | None => Some (Raised route, m)
                      | Some target =>
                          follow (plain_targets g node ++ [target])%list m
                      end
                  end
              end
          end
      end
  end.

(** *** run_workflow *)

(** [os.path.join(a, b)] for a relative [b]. *)
Fixpoint ends_with_slash (a : string) : bool :=
  match a with
  | EmptyString => false
  | String c EmptyString => Ascii.eqb c "/"%char
  | String _ a' => ends_with_slash a'
  end.

Definition os_path_join (a b : string) : string :=
  if bool_decide (a = "") then b
  else if ends_with_slash a then a +:+ b
  else a +:+ "/" +:+ b.

Definition initial_state (url : string) (output_dir : string) : WorkflowState :=
  {| url := url;
     status := "running";
     output_path := VStr output_dir;
     current_agent_id := None;
     agents := ∅;
     results := ∅;
     errors := [];
     quality_score := VFloat 0 |}.

(** Lines 335-340: the status is derived when it is still "running". *)
Definition any_agent_failed (state : WorkflowState) : bool :=
  bool_decide (map_Exists (λ _ a, a_status a = "failed") (agents state)).

Definition derive_status (final_state : WorkflowState) : WorkflowState :=
  if bool_decide (status final_state = "running") then
    if any_agent_failed final_state
    then set_status "failed" final_state
    else set_status "completed" final_state
  else final_state.

(** Lines 344-357: an exception escaped the traversal.  What is returned
    is the dictionary [initial_state] of [run_workflow] itself: its
    [agents], [results] and [errors] are the objects the nodes mutated,
    while no node ever assigned to its other keys. *)
Definition shared_with (initial_state state : WorkflowState) : WorkflowState :=
  set_agents (agents state)
    (set_results (results state) (set_errors (errors state) initial_state)).

Definition orchestrator_failed (e : string) (initial_state : WorkflowState) (m : Machine)
    : Machine :=
  let m := with_st (λ state, set_status "failed" (shared_with initial_state state)) m in
  let '(now, m) := read_clock m in
  with_st (λ state,
             set_errors (errors state
                         ++ [mkErrorEntry "orchestrator" (VStr "Orchestrator") e now])
                        state) m.

(** [run_dir] is the fresh [str(uuid.uuid4().int)[:20]].  Compiling a graph
    without an entry point raises inside the [try].  The result is the
    returned state, with the counters and the callback calls of the run;
    there is none when the traversal has none. *)
Definition run_workflow (fuel : nat) (url : string) (run_dir : string) : option Machine :=
  let output_dir := os_path_join (self_output_dir self) run_dir in
  let m := mkMachine (initial_state url output_dir) 0 0 [] in
  match entry_point _build_workflow_graph with
  | None => Some (orchestrator_failed "Graph must have an entrypoint" (st m) m)
  | Some entry =>
      match invoke_from fuel _build_workflow_graph entry m with
      | None => None
      | Some (Returned, final) => Some (with_st derive_status final)
      | Some (Raised e, final) => Some (orchestrator_failed e (st m) final)
      end
  end.

End Orchestrator.

(** ** service.py *)

(** The fields of [GenerationResponse]; [result.dict()] has all of them. *)
Record GenerationResponse : Type := mkGenerationResponse {
  r_status : string;
  r_quality_score : value;
  r_message : string;
  r_html : option value;
  r_css : option value;
  r_output_path : option value;
  r_html_path : option string;
  r_css_path : option string;
  r_error : option string;
  r_validation_report : option value
}.

(** An entry of [self.active_tasks]; the key ["result"] is there from the
    start and holds [None] until the run has produced a response, the key
    ["error"] is added when the background task catches an exception. *)
Record Task : Type := mkTask {
  t_url : string;
  t_status : string;
  t_created_at : Q;
  t_result : option GenerationResponse;
  t_error : option string
}.

Section Service.

(** [str(v)] as an f-string formats it, and what the body of
    [generate_website_from_url] raises, if anything, after the workflow
    has returned: writing the two files, joining a path that is not a
    string and validating the fields of the response are the environment. *)
Variable py_str : value → string.
Variable body_raises : WorkflowState → option string.

(** [generate_website_from_url], from the state [run_workflow] returned. *)
Definition generate_website_from_url (workflow_state : WorkflowState)
    : GenerationResponse :=
  match body_raises workflow_state with
  | Some e =>
      mkGenerationResponse "error" (VFloat 0)
        ("Website generation failed: " +:+ e)
        None None None None None (Some e) None
  | None =>
      if bool_decide (status workflow_state = "completed") then
        let component_results : Artifact :=
          default ∅ (results workflow_state !! "component_synthesizer_5") in
        let html := dict_get component_results "html_output" (VStr "") in
        let css := dict_get component_results "css_output" (VStr "") in
        let validation_results : Artifact :=
          default ∅ (results workflow_state !! "validation_6") in
        let validation_report :=
          dict_get validation_results "validation_report" (VDict []) in
        let output_path := output_path workflow_state in
        mkGenerationResponse "success" (quality_score workflow_state)
          "Website generation completed successfully"
          (Some html) (Some css) (Some output_path)
          (match output_path with
           | VStr dir => Some (os_path_join dir "index.html")
           | _ => None
           end)
          (match output_path with
           | VStr dir => Some (os_path_join dir "styles.css")
           | _ => None
           end)
          None (Some validation_report)
      else
        let error_message :=
          match last (errors workflow_state) with
          | Some error =>
              "Error in " +:+ py_str (e_agent_name error) +:+ ": " +:+ e_error error
          | None => "Website generation failed"
          end in
        mkGenerationResponse "error" (quality_score workflow_state)
          error_message None None None None None (Some error_message) None
  end.

(** [clone_website]: the task is stored as pending under its fresh id. *)
Definition clone_website (task_id url : string) (now : Q)
    (active_tasks : gmap string Task) : gmap string Task :=
  <[task_id := mkTask url "pending" now None None]> active_tasks.

(** [_run_generation_task], first statement of its [try]. *)
Definition task_started (task_id : string) (active_tasks : gmap string Task)
    : gmap string Task :=
  alter (λ t, mkTask (t_url t) "running" (t_created_at t) (t_result t) (t_error t))
        task_id active_tasks.

(** [_run_generation_task], after the awaited generation: it returned a
    response, or it raised and the [except] branch records the error. *)
Definition task_finished (task_id : string) (outcome : res GenerationResponse)
    (active_tasks : gmap string Task) : gmap string Task :=
  match outcome with
  | Ok result =>
      alter (λ t, mkTask (t_url t)
                         (if bool_decide (r_status result = "success")
                          then "completed" else "failed")
                         (t_created_at t) (Some result) (t_error t))
            task_id active_tasks
  | Raise e =>
      alter (λ t, mkTask (t_url t) "failed" (t_created_at t) (t_result t) (Some e))
            task_id active_tasks
  end.

(** [get_task_result].  A stored response is a dictionary with ten keys,
    so [not task_data.get("result")] holds exactly when it is [None]. *)
Definition get_task_result (task_id : string) (active_tasks : gmap string Task)
    : option GenerationResponse :=
  match active_tasks !! task_id with
  | None => None
  | Some task_data =>
      if negb (bool_decide (t_status task_data = "completed"))
         || negb (bool_decide (is_Some (t_result task_data)))
      then None
      else t_result task_data
  end.

End Service.

(** ** The dependency table of the specification

    The input of a stage as the specification words it: the url, then the
    artifacts of the declared upstream stages that are in [results], merged
    in the order of the table, then the output path for the two stages that
    persist artifacts. *)
Definition dependencies (agent_id : string) : list string :=
  if decide (agent_id = "semantic_parser_2") then ["scraper_1"]
  else if decide (agent_id = "style_transfer_3") then ["scraper_1"; "semantic_parser_2"]
  else if decide (agent_id = "layout_generator_4") then
    ["semantic_parser_2"; "style_transfer_3"]
  else if decide (agent_id = "component_synthesizer_5") then
    ["scraper_1"; "semantic_parser_2"; "style_transfer_3"; "layout_generator_4"]
  else if decide (agent_id = "validation_6") then ["component_synthesizer_5"]
  else [].

Definition persists_artifacts (agent_id : string) : bool :=
  bool_decide (agent_id = "component_synthesizer_5")
  || bool_decide (agent_id = "validation_6").

Definition merge_artifact (results : gmap string Artifact) (input_data : Artifact)
    (upstream : string) : Artifact :=
  match results !! upstream with
  | Some artifact => dict_update input_data artifact
  | None => input_data
  end.

Definition input_from_dependencies (agent_id : string) (state : WorkflowState) : Artifact :=
  let selected :=
    foldl (merge_artifact (results state)) {[ "url" := VStr (url state) ]}
          (dependencies agent_id) in
  if persists_artifacts agent_id
  then <["output_path" := output_path state]> selected
  else selected.

(** ** Auxiliary notions for the statements *)

(** The retry count recorded for [agent_id] once its handler has been
    entered from [state]. *)
Definition retry_count_on_entry (agent_id : string) (state : WorkflowState) : nat :=
  match agents state !! agent_id with
  | None => 0
  | Some a => S (a_retry_count a)
  end.

(** The ordered dictionary [create_agents_from_config] builds from six
    configurations of the default types, in the default order. *)
Definition service_agents (a1 a2 a3 a4 a5 a6 : BaseAgent) : list (string * BaseAgent) :=
  [ ("scraper_1", a1); ("semantic_parser_2", a2); ("style_transfer_3", a3);
    ("layout_generator_4", a4); ("component_synthesizer_5", a5); ("validation_6", a6) ].

(** The three values the code ever assigns to a status. *)
Definition known_status (s : string) : Prop :=
  s = "running" ∨ s = "completed" ∨ s = "failed".

Definition terminal_status (s : string) : Prop :=
  s = "completed" ∨ s = "failed".

(** Every artifact in [results] is the one recorded in the run state of the
    stage that produced it. *)
Definition results_recorded (state : WorkflowState) : Prop :=
  ∀ agent_id artifact,
    results state !! agent_id = Some artifact →
    ∃ a, agents state !! agent_id = Some a ∧ a_result a = Some artifact.

(** Every key of [results] has a run state whose status is completed. *)
Definition results_completed (state : WorkflowState) : Prop :=
  ∀ agent_id,
    is_Some (results state !! agent_id) →
    ∃ a, agents state !! agent_id = Some a ∧ a_status a = "completed".

(** Every stage that has a run state is completed. *)
Definition all_completed (state : WorkflowState) : Prop :=
  ∀ agent_id a, agents state !! agent_id = Some a → a_status a = "completed".

(** [artifact] is the result recorded in the run state of [agent_id], and
    the status of that run state is [s]. *)
Definition recorded_as (s : string) (state : WorkflowState) (agent_id : string)
    (artifact : Artifact) : Prop :=
  ∃ a, agents state !! agent_id = Some a ∧ a_result a = Some artifact ∧ a_status a = s.

(** The keys of [results] in the state of a callback call: each is
    completed, but for the stage the call is about, which is running when
    its start is announced and failed when its failure is. *)
Definition results_completed_at_call (ev : Emitted) : Prop :=
  ∀ agent_id artifact,
    results (ev_state ev) !! agent_id = Some artifact →
    recorded_as "completed" (ev_state ev) agent_id artifact
    ∨ (ev_agent_id ev = Some agent_id
       ∧ current_agent_id (ev_state ev) = Some agent_id
       ∧ (ev_event ev = "agent_started"
          ∧ recorded_as "running" (ev_state ev) agent_id artifact
          ∨ ev_event ev = "agent_failed"
            ∧ recorded_as "failed" (ev_state ev) agent_id artifact)).

(** The keys of [results] in a returned state: each is completed, but for
    the stage whose exception ended the run, which is failed; its error is
    the first entry of [errors]. *)
Definition results_completed_at_return (state : WorkflowState) : Prop :=
  ∀ agent_id artifact,
    results state !! agent_id = Some artifact →
    recorded_as "completed" state agent_id artifact
    ∨ (recorded_as "failed" state agent_id artifact
       ∧ e_agent_id <$> head (errors state) = Some agent_id).

(** No recorded retry count is above 3. *)
Definition retry_bounded (state : WorkflowState) : Prop :=
  ∀ agent_id a, agents state !! agent_id = Some a → a_retry_count a ≤ 3.

(** Only the stages [ids] have a run state, each from a single visit. *)
Definition only_first_visits (ids : list string) (state : WorkflowState) : Prop :=
  ∀ agent_id a,
    agents state !! agent_id = Some a → agent_id ∈ ids ∧ a_retry_count a = 0.

(** The states handed to the status callback so far. *)
Definition observed (m : Machine) : list WorkflowState := ev_state <$> emitted m.

(** How many times the handler of [agent_id] announced a start. *)
Definition started (agent_id : string) (m : Machine) : nat :=
  length (filter (λ ev, ev_event ev = "agent_started" ∧ ev_agent_id ev = Some agent_id)
                 (emitted m)).

(** ** Configured retry budgets *)

(** [AgentConfig(..., max_retries=n)] *)
Definition set_c_max_retries (n : nat) (cfg : AgentConfig) : AgentConfig :=
  mkAgentConfig (agent_type cfg) (c_name cfg) (c_debug cfg) n (c_timeout cfg) (config cfg).

(** The same agent with another [max_retries] attribute, and the same
    orchestrator with the attribute of every agent chosen by [budget]. *)
Definition with_max_retries (v : value) (a : BaseAgent) : BaseAgent :=
  mkBaseAgent (debug a) (timeout a) v (id a).

Definition override_max_retries (budget : string → value) (self : WorkflowOrchestrator)
    : WorkflowOrchestrator :=
  mkWorkflowOrchestrator
    ((λ kv, (kv.1, with_max_retries (budget kv.1) kv.2)) <$> self_agents self)
    (self_output_dir self) (self_status_callback self).

(** ** Scenarios *)

(** The service as the module creates it, with the synthesis stage
    configured for [n] retries. *)
Definition default_configs : list AgentConfig :=
  create_default_workflow_agents true "generated" "screenshots" "" "" 90 95 90 85.

Definition configs_with_synthesis_budget (n : nat) : list AgentConfig :=
  (λ cfg, if bool_decide (agent_type cfg = "component_synthesizer")
          then set_c_max_retries n cfg else cfg) <$> default_configs.

Definition orchestrator_of (agent_configs : list AgentConfig) : WorkflowOrchestrator :=
  mkWorkflowOrchestrator
    (match create_agents_from_config agent_configs with
     | Ok agents => agents
     | Raise _ => []
     end)
    "generated" true.

(** A clock that advances by one second per reading. *)
Definition ticking (n : nat) : Q := inject_Z (Z.of_nat n).

(** Every stage returns; the gate reports [passed=False] on every attempt. *)
Definition gate_rejects (n : nat) (agent_id : string) (input_data : Artifact) : res Artifact :=
  if bool_decide (agent_id = "validation_6")
  then Ok (<["passed" := VBool false]> (<["quality_score" := VFloat 40]> ∅))
  else if bool_decide (agent_id = "component_synthesizer_5")
  then Ok {[ "html_output" := VStr "<html></html>" ]}
  else Ok ∅.

(** As [gate_rejects], but the synthesis stage raises when it is retried
    (its first call is the fifth stage call of the run). *)
Definition retry_raises (n : nat) (agent_id : string) (input_data : Artifact) : res Artifact :=
  if bool_decide (agent_id = "component_synthesizer_5") && bool_decide (4 < n)
  then Raise "synthesis failed"
  else gate_rejects n agent_id input_data.

(** Every stage returns; the gate reports [passed=True] and a score of 95. *)
Definition gate_accepts (n : nat) (agent_id : string) (input_data : Artifact) : res Artifact :=
  if bool_decide (agent_id = "validation_6")
  then Ok (<["passed" := VBool true]> (<["quality_score" := VFloat 95]> ∅))
  else Ok ∅.

(** [str] of the values that occur as agent names. *)
Definition str_of_name (v : value) : string :=
  match v with
  | VStr s => s
  | _ => "?"
  end.

(** The machine a run starts from. *)
Definition start_of_run (url output_dir : string) : Machine :=
  mkMachine (initial_state url output_dir) 0 0 [].

(** The agent object of the gate, with every attribute at its default. *)
Definition plain_validation_agent : BaseAgent := BaseAgent__init__ "ValidationAgent" ∅.

(** A state in which the gate raised on its second visit. *)
Definition gate_failed_once : WorkflowState :=
  set_agents
    (<["validation_6" :=
         mkAgentState "validation_6" (VStr "ValidationAgent") "failed" (ticking 10)
                      (Some (ticking 11)) None (Some "validation timed out") 1]> ∅)
    (initial_state "https://example.com" "generated/1").

(** The scraper raises; every other stage behaves as under [gate_accepts]. *)
Definition scraper_raises (n : nat) (agent_id : string) (input_data : Artifact) : res Artifact :=
  if bool_decide (agent_id = "scraper_1")
  then Raise "connection refused"
  else gate_accepts n agent_id input_data.

(** The task table after one task whose scraper raised: created, started,
    and finished with the response generated from the state the run
    returned. *)
Definition tasks_after_raising_run : gmap string Task :=
  match run_workflow ticking scraper_raises (orchestrator_of default_configs) 13
                     "https://example.com" "1" with
  | Some m =>
      task_finished "task-1"
        (Ok (generate_website_from_url str_of_name (λ _, None) (st m)))
        (task_started "task-1"
           (clone_website "task-1" "https://example.com" (ticking 0) ∅))
  | None => ∅
  end.


(** Every stage returns; the synthesis stage names a directory of its own
    and the gate accepts. *)
Definition synthesis_relocates (n : nat) (agent_id : string) (input_data : Artifact)
    : res Artifact :=
  if bool_decide (agent_id = "component_synthesizer_5")
  then Ok {[ "output_path" := VStr "sites/example" ]}
  else gate_accepts n agent_id input_data.

(** ** The order of the callback calls *)

(** [e1] announces the start of a stage, and [e2] the completion or the
    failure of that same stage. *)
Definition announces_start (e1 : Emitted) : bool :=
  bool_decide (ev_event e1 = "agent_started") && bool_decide (is_Some (ev_agent_id e1)).

Definition announces_outcome (e1 e2 : Emitted) : bool :=
  (bool_decide (ev_event e2 = "agent_completed") || bool_decide (ev_event e2 = "agent_failed"))
  && bool_decide (ev_agent_id e2 = ev_agent_id e1).

(** The calls come in pairs: a start, then at once its outcome. *)
Fixpoint agent_events_paired (evs : list Emitted) : bool :=
  match evs with
  | [] => true
  | e1 :: e2 :: rest =>
      announces_start e1 && announces_outcome e1 e2 && agent_events_paired rest
  | [_] => false
  end.

(** The call the end node makes on [state]. *)
Definition workflow_event (state : WorkflowState) : Emitted :=
  mkEmitted (if bool_decide (status state = "completed")
             then "workflow_completed" else "workflow_failed") None state.

(** ** The keys the factory gives *)

(** [f"{config.agent_type}_{i+1}"] *)
Definition agent_key (i : nat) (cfg : AgentConfig) : string :=
  agent_type cfg +:+ "_" +:+ pretty (S i).

Definition agent_types : list string :=
  ["scraper"; "semantic_parser"; "style_transfer"; "layout_generator";
   "component_synthesizer"; "validation"].

(** ** service.py: task status, observers and status updates *)

(** What [get_task_status] returns: [{"status": "not_found"}], or the
    status data, whose keys ["result"] and ["error"] are optional. *)
Record StatusData : Type := mkStatusData {
  s_task_id : string;
  s_url : string;
  s_status : string;
  s_created_at : Q;
  s_result : option GenerationResponse;
  s_error : option string
}.

Inductive TaskStatus : Type :=
| NotFound
| Found (status_data : StatusData).

Definition get_task_status (task_id : string) (active_tasks : gmap string Task)
    : TaskStatus :=
  match active_tasks !! task_id with
  | None => NotFound
  | Some task_data =>
      if bool_decide (t_status task_data ∈ ["completed"; "failed"])
      then Found (mkStatusData task_id (t_url task_data) (t_status task_data)
                    (t_created_at task_data) (t_result task_data) (t_error task_data))
      else Found (mkStatusData task_id (t_url task_data) (t_status task_data)
                    (t_created_at task_data) None None)
  end.

(** [get_registered_agents]: type, name and configuration of every
    configured agent, without the key ["api_key"]. *)
Record AgentInfo : Type := mkAgentInfo {
  i_type : string;
  i_name : string;
  i_config : Artifact
}.

Definition get_registered_agents (agent_configs : list AgentConfig) : list AgentInfo :=
  (λ cfg, mkAgentInfo (agent_type cfg) (c_name cfg)
            (filter (λ kv, kv.1 ∉ ["api_key"]) (config cfg))) <$> agent_configs.

(** A connection object, known by its identity. *)
Abbreviation WebSocket := nat (only parsing).

(** [self.websocket_connections[task_id].append(websocket)], on a list
    that is created when the key is new. *)
Definition register_websocket (task_id : string) (websocket : WebSocket)
    (websocket_connections : gmap string (list WebSocket))
    : gmap string (list WebSocket) :=
  <[task_id := default [] (websocket_connections !! task_id) ++ [websocket]]>
    websocket_connections.

(** [l.remove(x)] on a list that holds [x]: the first occurrence goes. *)
Fixpoint remove_first (x : WebSocket) (l : list WebSocket) : list WebSocket :=
  match l with
  | [] => []
  | y :: l' => if bool_decide (y = x) then l' else y :: remove_first x l'
  end.

Definition unregister_websocket (task_id : string) (websocket : WebSocket)
    (websocket_connections : gmap string (list WebSocket))
    : gmap string (list WebSocket) :=
  match websocket_connections !! task_id with
  | Some connections =>
      if bool_decide (websocket ∈ connections)
      then <[task_id := remove_first websocket connections]> websocket_connections
      else websocket_connections
  | None => websocket_connections
  end.

(** [_notify_clients]: the calls [websocket.send_json(message)] it makes, in
    order.  An exception of a call is caught inside the loop, so every
    registered connection is tried. *)
Definition _notify_clients (task_id : string) (message : Artifact)
    (websocket_connections : gmap string (list WebSocket))
    : list (WebSocket * Artifact) :=
  match websocket_connections !! task_id with
  | None => []
  | Some connections => (λ websocket, (websocket, message)) <$> connections
  end.

(** [os.path.basename(p)]: what follows the last slash. *)
Fixpoint contains_slash (p : string) : bool :=
  match p with
  | EmptyString => false
  | String c p' => Ascii.eqb c "/"%char || contains_slash p'
  end.

Fixpoint os_path_basename (p : string) : string :=
  match p with
  | EmptyString => EmptyString
  | String c p' =>
      if contains_slash p' then os_path_basename p'
      else if Ascii.eqb c "/"%char then p'
      else p
  end.

(** [type(v).__name__] *)
Definition type_name (v : value) : string :=
  match v with
  | VNone => "NoneType"
  | VBool _ => "bool"
  | VInt _ => "int"
  | VFloat _ => "float"
  | VStr _ => "str"
  | VList _ => "list"
  | VDict _ => "dict"
  end.

Section StatusUpdates.

(** The difference of two floats. *)
Variable float_sub : Q → Q → Q.

(** The keys [message.update({...})] adds for [event], when it adds any;
    [agent_data] is [state["agents"].get(agent_id, {})].  A run state has
    its keys ["end_time"] and ["error"] only once they were assigned:
    [agent_data.get("end_time")] is [None] before, while
    [agent_data.get("end_time", 0)] is [0]. *)
Definition agent_message (state : WorkflowState) (event agent_id : string) : Artifact :=
  let agent_data := agents state !! agent_id in
  let agent_name := from_option a_name (VStr agent_id) agent_data in
  let named : Artifact :=
    <["agent_id" := VStr agent_id]> (<["agent_name" := agent_name]> ∅) in
  if bool_decide (event = "agent_started") then
    <["start_time" := from_option (λ a, VFloat (a_start_time a)) VNone agent_data]> named
  else if bool_decide (event = "agent_completed") then
    match agent_data with
    | None =>
        <["start_time" := VNone]> (<["end_time" := VNone]> (<["duration" := VInt 0]> named))
    | Some a =>
        <["start_time" := VFloat (a_start_time a)]>
          (<["end_time" := from_option VFloat VNone (a_end_time a)]>
             (<["duration" :=
                  VFloat (float_sub (default 0%Q (a_end_time a)) (a_start_time a))]>
                named))
    end
  else if bool_decide (event = "agent_failed") then
    <["error" := VStr (default "Unknown error" (agent_data ≫= a_error))]> named
  else ∅.

(** [_handle_agent_status_update]: the sends it makes.  The task id is
    taken from the output path of the state. *)
Definition _handle_agent_status_update (state : WorkflowState) (event : string)
    (agent_id : option string) (websocket_connections : gmap string (list WebSocket))
    : res (list (WebSocket * Artifact)) :=
  if negb (truthy (output_path state)) then Ok []
  else
    match output_path state with
    | VStr path =>
        let task_id := os_path_basename path in
        let message : Artifact :=
          <["event" := VStr event]> (<["task_id" := VStr task_id]> ∅) in
        let message :=
          match agent_id with
          | Some agent_id =>
              if negb (String.eqb agent_id "")
              then dict_update message (agent_message state event agent_id)
              else message
          | None => message
          end in
        Ok (_notify_clients task_id message websocket_connections)
    | v => Raise ("expected str, bytes or os.PathLike object, not " +:+ type_name v)
    end.

End StatusUpdates.




(** *** What an observer receives *)




(** ** validation_agent.py

    The four validators look at the HTML and the CSS through regular
    expressions and substring tests.  What these find is the input here;
    what the validators make of it (issues, scores, the report and the
    verdict) is the code. *)

(** An issue.  Beside the four keys every issue has, some carry a count
    under a fifth key, and the report adds the category. *)
Record Issue : Type := mkIssue {
  rule : string;
  impact : string;
  description : string;
  help : string;
  detail : option (string * Z);
  category : option string
}.

(** The result of one validator. *)
Record CategoryResult : Type := mkCategoryResult {
  score : Z;
  passed : bool;
  issues : list Issue;
  threshold : Z
}.

(** [if cond: issues.append(issue); score -= penalty] *)
Definition flag (cond : bool) (issue : Issue) (penalty : Z) (acc : list Issue * Z)
    : list Issue * Z :=
  if cond then (acc.1 ++ [issue], (acc.2 - penalty)%Z) else acc.

(** The checks of a validator, in the order of the code, from no issue and
    a score of 100. *)
Definition run_checks (checks : list (bool * Issue * Z)) : list Issue * Z :=
  foldl (λ acc check, flag check.1.1 check.1.2 check.2 acc) ([], 100%Z) checks.

(** [score = max(0, min(100, score))] and the comparison with the
    threshold. *)
Definition conclude (threshold : Z) (acc : list Issue * Z) : CategoryResult :=
  let score := Z.max 0 (Z.min 100 acc.2) in
  mkCategoryResult score (threshold <=? score)%Z acc.1 threshold.

(** *** _validate_accessibility *)

Record AccessibilityScan : Type := mkAccessibilityScan {
  (** [len(img_tags_without_alt)] *)
  img_tags_without_alt : nat;
  (** [len(input_tags_without_label)] *)
  input_tags_without_label : nat;
  (** [headings and '1' not in headings] *)
  headings_without_h1 : bool;
  (** ['<html' in html_output and 'lang=' not in html_output] *)
  html_without_lang : bool
}.

Definition _validate_accessibility (accessibility_threshold : Z)
    (scan : AccessibilityScan) : CategoryResult :=
  conclude accessibility_threshold (run_checks
    [ (bool_decide (0 < img_tags_without_alt scan),
       mkIssue "images-alt" "critical" "Images must have alternate text"
               "Provide an alt attribute for images"
               (Some ("elements", Z.of_nat (img_tags_without_alt scan))) None,
       (10 * Z.of_nat (img_tags_without_alt scan))%Z);
      (bool_decide (0 < input_tags_without_label scan),
       mkIssue "label" "critical" "Form elements must have labels"
               "Provide labels for form controls"
               (Some ("elements", Z.of_nat (input_tags_without_label scan))) None,
       (10 * Z.of_nat (input_tags_without_label scan))%Z);
      (headings_without_h1 scan,
       mkIssue "heading-order" "moderate" "Page should contain a level-one heading"
               "Ensure page has a descriptive heading structure starting with h1"
               None None,
       5%Z);
      (html_without_lang scan,
       mkIssue "html-has-lang" "serious" "HTML element must have a lang attribute"
               "Specify the language of the page" None None,
       10%Z) ]).

(** *** _validate_seo *)

Record SeoScan : Type := mkSeoScan {
  (** [len(title_match.group(1))], when there is a title *)
  title_length : option nat;
  has_meta_description : bool;
  (** [len(h1_tags)] *)
  h1_tags : nat;
  has_canonical : bool;
  has_structured_data : bool;
  has_viewport : bool
}.

Definition _validate_seo (seo_threshold : Z) (scan : SeoScan) : CategoryResult :=
  conclude seo_threshold (run_checks
    [ (bool_decide (title_length scan = None),
       mkIssue "document-title" "high" "Document must have a title"
               "Provide a title that describes the page content" None None,
       15%Z);
      (match title_length scan with Some n => bool_decide (n < 10) | None => false end,
       mkIssue "document-title-length" "medium" "Title is too short"
               "Provide a descriptive title that is at least 10 characters long"
               None None,
       5%Z);
      (negb (has_meta_description scan),
       mkIssue "meta-description" "medium" "Document does not have a meta description"
               "Provide a meta description that summarizes the page content" None None,
       10%Z);
      (bool_decide (h1_tags scan = 0),
       mkIssue "heading-structure" "medium" "Document does not have an H1 heading"
               "Include an H1 heading that describes the main topic of the page"
               None None,
       10%Z);
      (bool_decide (1 < h1_tags scan),
       mkIssue "multiple-h1" "low" "Document has multiple H1 headings"
               "Use only one H1 heading per page" None None,
       5%Z);
      (negb (has_canonical scan),
       mkIssue "canonical-url" "low" "Document does not have a canonical URL"
               "Include a canonical link to prevent duplicate content issues" None None,
       5%Z);
      (negb (has_structured_data scan),
       mkIssue "structured-data" "medium" "No structured data found"
               "Add schema.org structured data to enhance search results" None None,
       8%Z);
      (negb (has_viewport scan),
       mkIssue "viewport" "high" "Document does not have a viewport meta tag"
               "Include a viewport meta tag for responsive design" None None,
       12%Z) ]).

(** *** _validate_performance *)

#[local] Set Warnings "-abstract-large-number".

Record PerformanceScan : Type := mkPerformanceScan {
  (** some script tag with a source has neither [defer] nor [async] *)
  blocking_script : bool;
  (** [len(css_output)] *)
  css_size : nat;
  (** some image tag has no [loading=] *)
  image_without_loading : bool;
  dom_elements : nat
}.

Definition _validate_performance (performance_threshold : Z) (scan : PerformanceScan)
    : CategoryResult :=
  conclude performance_threshold (run_checks
    [ (blocking_script scan,
       mkIssue "render-blocking-resources" "medium"
               "Script tag without defer or async attribute"
               "Add defer or async attribute to non-critical scripts" None None,
       5%Z);
      (bool_decide (100000 < css_size scan),
       mkIssue "unminified-css" "medium" "Large CSS file detected"
               "Minify CSS and remove unused styles"
               (Some ("size", Z.of_nat (css_size scan))) None,
       10%Z);
      (image_without_loading scan,
       mkIssue "offscreen-images" "medium" "Image without lazy loading"
               "Add loading='lazy' to images below the fold" None None,
       3%Z);
      (bool_decide (1500 < dom_elements scan),
       mkIssue "dom-size" "low" "Excessive DOM size"
               "Reduce the number of DOM elements"
               (Some ("elements", Z.of_nat (dom_elements scan))) None,
       8%Z) ]).

(** *** _validate_best_practices *)

(** The double quote character. *)
Definition double_quote : string := String (Ascii.ascii_of_nat 34) EmptyString.

Record BestPracticesScan : Type := mkBestPracticesScan {
  has_doctype : bool;
  has_charset : bool;
  (** the first of the deprecated tags, in the order of the list, that occurs *)
  deprecated_tag : option string;
  inline_styles : nat;
  console_logs : nat;
  vendor_prefixes : nat;
  important_count : nat
}.

Definition _validate_best_practices (best_practices_threshold : Z)
    (scan : BestPracticesScan) : CategoryResult :=
  conclude best_practices_threshold (run_checks
    [ (negb (has_doctype scan),
       mkIssue "doctype" "medium" "Document does not have a valid doctype declaration"
               "Add <!DOCTYPE html> at the beginning of the HTML document" None None,
       10%Z);
      (negb (has_charset scan),
       mkIssue "charset" "medium"
               "Document does not have a character encoding declaration"
               ("Add <meta charset=" +:+ double_quote +:+ "utf-8" +:+ double_quote
                +:+ "> to the document head") None None,
       10%Z);
      (bool_decide (is_Some (deprecated_tag scan)),
       mkIssue "deprecated-tags" "low"
               ("Use of deprecated HTML tag: " +:+ default "" (deprecated_tag scan))
               ("Replace the deprecated " +:+ default "" (deprecated_tag scan)
                +:+ " tag with modern HTML and CSS") None None,
       5%Z);
      (bool_decide (5 < inline_styles scan),
       mkIssue "inline-styles" "low" "Excessive use of inline styles"
               "Move inline styles to an external stylesheet"
               (Some ("count", Z.of_nat (inline_styles scan))) None,
       5%Z);
      (bool_decide (0 < console_logs scan),
       mkIssue "console-logs" "low" "Console logs detected"
               "Remove console logs from production code"
               (Some ("count", Z.of_nat (console_logs scan))) None,
       3%Z);
      (bool_decide (10 < vendor_prefixes scan),
       mkIssue "vendor-prefixes" "low" "Excessive use of vendor prefixes"
               "Consider using autoprefixer or similar tools"
               (Some ("count", Z.of_nat (vendor_prefixes scan))) None,
       3%Z);
      (bool_decide (5 < important_count scan),
       mkIssue "important-usage" "medium" "Excessive use of !important"
               "Avoid using !important in CSS"
               (Some ("count", Z.of_nat (important_count scan))) None,
       5%Z) ]).

(** *** _generate_validation_report *)

(** [impact_priority.get(x.get("impact", "low"), 3)] *)
Definition impact_priority (impact : string) : nat :=
  if decide (impact = "critical") then 0
  else if decide (impact = "high") then 1
  else if decide (impact = "medium") then 2
  else 3.

(** [sorted(l, key=key)]: the sort is stable. *)
Fixpoint insert_by {A} (key : A → nat) (x : A) (l : list A) : list A :=
  match l with
  | [] => [x]
  | y :: l' => if bool_decide (key x ≤ key y) then x :: l else y :: insert_by key x l'
  end.

Definition sorted {A} (key : A → nat) (l : list A) : list A :=
  foldr (insert_by key) [] l.

(** [{**issue, "category": c}] *)
Definition with_category (c : string) (issue : Issue) : Issue :=
  mkIssue (rule issue) (impact issue) (description issue) (help issue)
          (detail issue) (Some c).

Record Recommendation : Type := mkRecommendation {
  rec_category : option string;
  rec_rule : string;
  recommendation : string
}.

Record Metric : Type := mkMetric {
  m_score : Z;
  m_passed : bool;
  issueCount : nat
}.

Record ValidationReport : Type := mkValidationReport {
  rp_status : string;
  qualityScore : Q;
  metrics : list (string * Metric);
  rp_issues : list Issue;
  recommendationCount : nat;
  recommendations : list Recommendation
}.

Definition all_issues (accessibility_results seo_results performance_results
    best_practices_results : CategoryResult) : list Issue :=
  (with_category "accessibility" <$> issues accessibility_results)
  ++ (with_category "seo" <$> issues seo_results)
  ++ (with_category "performance" <$> issues performance_results)
  ++ (with_category "best-practices" <$> issues best_practices_results).

Definition metric_of (r : CategoryResult) : Metric :=
  mkMetric (score r) (passed r) (length (issues r)).

(** A float is compared as the rational it is. *)
Definition at_least_90 (quality_score : Q) : bool := Qle_bool 90 quality_score.

Definition _generate_validation_report (accessibility_results seo_results
    performance_results best_practices_results : CategoryResult) (quality_score : Q)
    : ValidationReport :=
  let status := if at_least_90 quality_score then "PASS" else "FAIL" in
  let sorted_issues :=
    sorted (λ x, impact_priority (impact x))
           (all_issues accessibility_results seo_results performance_results
                       best_practices_results) in
  let recommendations :=
    (λ issue, mkRecommendation (category issue) (rule issue) (help issue))
    <$> filter (λ issue, impact issue ∈ ["critical"; "high"]) sorted_issues in
  mkValidationReport status quality_score
    [ ("accessibility", metric_of accessibility_results);
      ("seo", metric_of seo_results);
      ("performance", metric_of performance_results);
      ("bestPractices", metric_of best_practices_results) ]
    (take 10 sorted_issues)
    (length recommendations)
    recommendations.

(** *** process *)

Record Scans : Type := mkScans {
  accessibility_scan : AccessibilityScan;
  seo_scan : SeoScan;
  performance_scan : PerformanceScan;
  best_practices_scan : BestPracticesScan
}.

(** The four thresholds [ValidationAgent.__init__] keeps. *)
Record ValidationAgent : Type := mkValidationAgent {
  performance_threshold : Z;
  accessibility_threshold : Z;
  seo_threshold : Z;
  best_practices_threshold : Z
}.

(** What [process] returns, key by key. *)
Record Validation : Type := mkValidation {
  accessibility_results : CategoryResult;
  seo_results : CategoryResult;
  performance_results : CategoryResult;
  best_practices_results : CategoryResult;
  v_quality_score : Q;
  validation_report : ValidationReport;
  v_passed : bool
}.

(** The dictionaries as values. *)
Definition issue_value (issue : Issue) : value :=
  VDict ([ ("rule", VStr (rule issue)); ("impact", VStr (impact issue));
           ("description", VStr (description issue)); ("help", VStr (help issue)) ]
         ++ match detail issue with
            | Some (k, n) => [(k, VInt n)]
            | None => []
            end
         ++ match category issue with
            | Some c => [("category", VStr c)]
            | None => []
            end).

Definition category_value (r : CategoryResult) : value :=
  VDict [ ("score", VInt (score r)); ("passed", VBool (passed r));
          ("issues", VList (issue_value <$> issues r));
          ("threshold", VInt (threshold r)) ].

Definition optional_str (s : option string) : value :=
  match s with
  | Some s => VStr s
  | None => VNone
  end.

Definition report_value (report : ValidationReport) : value :=
  VDict [ ("status", VStr (rp_status report));
          ("qualityScore", VFloat (qualityScore report));
          ("timestamp", VNone);
          ("metrics",
           VDict ((λ km, (km.1, VDict [ ("score", VInt (m_score km.2));
                                        ("passed", VBool (m_passed km.2));
                                        ("issueCount",
                                         VInt (Z.of_nat (issueCount km.2))) ]))
                  <$> metrics report));
          ("issues", VList (issue_value <$> rp_issues report));
          ("recommendationCount", VInt (Z.of_nat (recommendationCount report)));
          ("recommendations",
           VList ((λ r, VDict [ ("category", optional_str (rec_category r));
                                ("rule", VStr (rec_rule r));
                                ("recommendation", VStr (recommendation r)) ])
                  <$> recommendations report)) ].

Definition validation_artifact (v : Validation) : Artifact :=
  <["accessibility_results" := category_value (accessibility_results v)]>
  (<["seo_results" := category_value (seo_results v)]>
  (<["performance_results" := category_value (performance_results v)]>
  (<["best_practices_results" := category_value (best_practices_results v)]>
  (<["quality_score" := VFloat (v_quality_score v)]>
  (<["validation_report" := report_value (validation_report v)]>
  (<["passed" := VBool (v_passed v)]> ∅)))))).

Section ValidationProcess.

(** What the regular expressions and substring tests find in the HTML and
    the CSS, or the exception they raise on values that are no strings;
    and [_calculate_quality_score], a weighted average in floating point
    rounded to one decimal, of the scores for accessibility, SEO,
    performance and best practices in this order. *)
Variable scan : value → value → res Scans.
Variable _calculate_quality_score : Z → Z → Z → Z → Q.

Variable self : ValidationAgent.

Definition validate (input_data : Artifact) : res Validation :=
  let html_output := dict_get input_data "html_output" (VStr "") in
  let css_output := dict_get input_data "css_output" (VStr "") in
  if negb (truthy html_output) || negb (truthy css_output)
  then Raise "HTML and CSS outputs are required"
  else
    match scan html_output css_output with
    | Raise e => Raise e
    | Ok found =>
        let accessibility_results :=
          _validate_accessibility (accessibility_threshold self)
                                  (accessibility_scan found) in
        let seo_results := _validate_seo (seo_threshold self) (seo_scan found) in
        let performance_results :=
          _validate_performance (performance_threshold self) (performance_scan found) in
        let best_practices_results :=
          _validate_best_practices (best_practices_threshold self)
                                   (best_practices_scan found) in
        let quality_score :=
          _calculate_quality_score (score accessibility_results) (score seo_results)
            (score performance_results) (score best_practices_results) in
        let validation_report :=
          _generate_validation_report accessibility_results seo_results
            performance_results best_practices_results quality_score in
        Ok (mkValidation accessibility_results seo_results performance_results
              best_practices_results quality_score validation_report
              (at_least_90 quality_score))
    end.

(** [process], and with it [process_sync], of the validation agent. *)
Definition validation_process (input_data : Artifact) : res Artifact :=
  match validate input_data with
  | Ok v => Ok (validation_artifact v)
  | Raise e => Raise e
  end.

End ValidationProcess.

(** A validator's result is well scored: the score is within bounds, it is
    100 exactly when there is no issue, and the result passes exactly when
    the score reaches the threshold. *)
Definition well_scored (r : CategoryResult) : Prop :=
  (0 ≤ score r ≤ 100)%Z
  ∧ (score r = 100%Z ↔ issues r = [])
  ∧ (passed r = true ↔ (threshold r ≤ score r)%Z).

(** The issues of one priority, in the order they were found. *)
Definition of_priority (k : nat) (l : list Issue) : list Issue :=
  filter (λ issue, impact_priority (impact issue) = k) l.

(** The recommendation made of an issue. *)
Definition recommend (issue : Issue) : Recommendation :=
  mkRecommendation (category issue) (rule issue) (help issue).

(** ** Scenarios with the validation agent as the gate *)

(** The validation agent with the thresholds of the default configuration. *)
Definition default_gate : ValidationAgent := mkValidationAgent 90 95 90 85.

(** Findings with nothing to object to, whatever the documents. *)
Definition spotless (html_output css_output : value) : res Scans :=
  Ok (mkScans (mkAccessibilityScan 0 0 false false)
              (mkSeoScan (Some 20) true 1 true true true)
              (mkPerformanceScan false 0 false 0)
              (mkBestPracticesScan true true None 0 0 0 0)).

(** A quality score in exact arithmetic, for the scenarios only. *)
Definition exact_quality (accessibility seo performance best_practices : Z) : Q :=
  (35 * inject_Z accessibility + 30 * inject_Z performance
   + 20 * inject_Z seo + 15 * inject_Z best_practices) / 100.

(** The synthesizer returns HTML without CSS; the gate is the validation
    agent. *)
Definition synthesis_without_css (n : nat) (agent_id : string) (input_data : Artifact)
    : res Artifact :=
  if bool_decide (agent_id = "validation_6")
  then validation_process spotless exact_quality default_gate input_data
  else if bool_decide (agent_id = "component_synthesizer_5")
  then Ok {[ "html_output" := VStr "<html></html>" ]}
  else Ok ∅.


#[local] Set Warnings "-clear-no-such-hyp".

(** * Facts *)

(** ** The input of a stage *)

Lemma merge_artifact_present (results : gmap string Artifact) input_data upstream artifact :
  results !! upstream = Some artifact →
  merge_artifact results input_data upstream = dict_update input_data (results !!! upstream).
Proof.
  intros H. unfold merge_artifact. rewrite H.
  by rewrite (lookup_total_correct _ _ _ H).
Qed.

Lemma merge_artifact_absent (results : gmap string Artifact) input_data upstream :
  results !! upstream = None → merge_artifact results input_data upstream = input_data.
Proof. intros H. unfold merge_artifact. by rewrite H. Qed.

(** One conditional update of the source is one step of the fold. *)
Lemma guarded_update (results : gmap string Artifact) (input_data : Artifact) upstream :
  (if bool_decide (is_Some (results !! upstream))
   then dict_update input_data (results !!! upstream) else input_data)
  = merge_artifact results input_data upstream.
Proof.
  destruct (results !! upstream) as [artifact|] eqn:H.
  - rewrite bool_decide_eq_true_2 by eauto. by erewrite merge_artifact_present.
  - rewrite bool_decide_eq_false_2 by (intros [? ?]; congruence).
    by rewrite merge_artifact_absent.
Qed.

(** Tests on literal stage ids are settled by computation. *)
Ltac eval_ids :=
  repeat match goal with
  | |- context [bool_decide (?a = ?b)] =>
      let v := eval vm_compute in (bool_decide (a = b)) in
      lazymatch v with true => idtac | false => idtac end;
      change (bool_decide (a = b)) with v
  | |- context [bool_decide (?a ∈ ?l)] =>
      let v := eval vm_compute in (bool_decide (a ∈ l)) in
      lazymatch v with true => idtac | false => idtac end;
      change (bool_decide (a ∈ l)) with v
  end.

Lemma _get_agent_input_unknown agent_id state :
  agent_id ∉ ["semantic_parser_2"; "style_transfer_3"; "layout_generator_4";
              "component_synthesizer_5"; "validation_6"] →
  _get_agent_input agent_id state = {[ "url" := VStr (url state) ]}.
Proof.
  intros Hid. unfold _get_agent_input.
  rewrite !(bool_decide_eq_false_2 (agent_id = _)) by set_solver.
  by rewrite (bool_decide_eq_false_2 (agent_id ∈ _)) by set_solver.
Qed.

Lemma _get_agent_input_refines agent_id state :
  _get_agent_input agent_id state = input_from_dependencies agent_id state.
Proof.
  destruct (decide (agent_id ∈ ["semantic_parser_2"; "style_transfer_3";
              "layout_generator_4"; "component_synthesizer_5"; "validation_6"]))
    as [Hid|Hid].
  - unfold _get_agent_input, input_from_dependencies, dependencies, persists_artifacts.
    repeat (apply elem_of_cons in Hid as [->|Hid]); [..|by apply elem_of_nil in Hid];
      eval_ids; repeat case_decide; try done; simpl;
      by rewrite ?guarded_update.
  - rewrite _get_agent_input_unknown by done.
    unfold input_from_dependencies, dependencies, persists_artifacts.
    rewrite !(bool_decide_eq_false_2 (agent_id = _)) by set_solver.
    repeat case_decide; try done; set_solver.
Qed.

(** ** The node body of an agent *)

Section HandlerFacts.

Variable time_time : nat → Q.
Variable process_sync : nat → string → Artifact → res Artifact.
Variable self : WorkflowOrchestrator.

Lemma st_emit event agent_id m : st (emit self event agent_id m) = st m.
Proof. unfold emit. by destruct (self_status_callback self). Qed.

Lemma calls_emit event agent_id m : calls (emit self event agent_id m) = calls m.
Proof. unfold emit. by destruct (self_status_callback self). Qed.

Lemma clock_emit event agent_id m : clock (emit self event agent_id m) = clock m.
Proof. unfold emit. by destruct (self_status_callback self). Qed.

Ltac machine_simpl :=
  repeat progress
    (rewrite ?calls_emit, ?st_emit, ?clock_emit;
     cbn [read_clock with_st st clock calls emitted]).

(** The state a handler leaves when its stage returns [result]. *)
Lemma handler_returns agent_id agent m result :
  stage_outcome time_time process_sync agent_id agent m = Ok result →
  ∃ m', handler time_time process_sync self agent_id agent m = (Returned, m')
        ∧ st m' = agent_succeeded agent_id result (time_time (S (clock m)))
                    (enter_agent agent_id agent (time_time (clock m)) (st m)).
Proof.
  unfold stage_outcome, stage_input, handler. intros Hout.
  machine_simpl. rewrite Hout.
  eexists. split; [reflexivity|]. by machine_simpl.
Qed.

(** The state a handler leaves when its stage raises [e]. *)
Lemma handler_raises agent_id agent m e :
  stage_outcome time_time process_sync agent_id agent m = Raise e →
  ∃ m', handler time_time process_sync self agent_id agent m = (Raised e, m')
        ∧ st m' = agent_failed agent_id agent e (time_time (S (clock m)))
                    (time_time (S (S (clock m))))
                    (enter_agent agent_id agent (time_time (clock m)) (st m)).
Proof.
  unfold stage_outcome, stage_input, handler. intros Hout.
  machine_simpl. rewrite Hout.
  eexists. split; [reflexivity|]. by machine_simpl.
Qed.

(** What entering, succeeding and failing do to each key of the state. *)
Lemma agents_enter_agent agent_id agent now state :
  agents (enter_agent agent_id agent now state) !! agent_id
  = Some (match agents state !! agent_id with
          | None => mkAgentState agent_id (id agent) "running" now None None None 0
          | Some a => mkAgentState (a_agent_id a) (a_name a) "running" now
                        (a_end_time a) (a_result a) (a_error a) (S (a_retry_count a))
          end).
Proof.
  unfold enter_agent. cbn [set_current_agent_id agents].
  destruct (agents state !! agent_id); cbn [set_agents agents]; by rewrite lookup_insert_eq.
Qed.

Lemma agents_enter_agent_ne agent_id agent now state other :
  other ≠ agent_id →
  agents (enter_agent agent_id agent now state) !! other = agents state !! other.
Proof.
  intros Hne. unfold enter_agent. cbn [set_current_agent_id agents].
  destruct (agents state !! agent_id); cbn [set_agents agents];
    by rewrite lookup_insert_ne.
Qed.

Lemma results_enter_agent agent_id agent now state :
  results (enter_agent agent_id agent now state) = results state.
Proof. unfold enter_agent. by destruct (agents _ !! agent_id). Qed.

Lemma status_enter_agent agent_id agent now state :
  status (enter_agent agent_id agent now state) = status state.
Proof. unfold enter_agent. by destruct (agents _ !! agent_id). Qed.

Lemma errors_enter_agent agent_id agent now state :
  errors (enter_agent agent_id agent now state) = errors state.
Proof. unfold enter_agent. by destruct (agents _ !! agent_id). Qed.

Lemma agents_agent_succeeded agent_id result now state :
  agents (agent_succeeded agent_id result now state)
  = alter (λ a, mkAgentState (a_agent_id a) (a_name a) "completed" (a_start_time a)
                             (Some now) (Some result) (a_error a) (a_retry_count a))
          agent_id (agents state).
Proof. unfold agent_succeeded. by repeat case_match. Qed.

Lemma results_agent_succeeded agent_id result now state :
  results (agent_succeeded agent_id result now state) = <[agent_id := result]> (results state).
Proof. unfold agent_succeeded. by repeat case_match. Qed.

Lemma errors_agent_succeeded agent_id result now state :
  errors (agent_succeeded agent_id result now state) = errors state.
Proof. unfold agent_succeeded. by repeat case_match. Qed.

Lemma status_agent_succeeded agent_id result now state :
  status (agent_succeeded agent_id result now state)
  = if bool_decide (agent_id = "validation_6")
       && truthy (dict_get result "passed" (VBool false))
    then "completed" else status state.
Proof. unfold agent_succeeded. by repeat case_match. Qed.

Lemma quality_score_agent_succeeded agent_id result now state :
  quality_score (agent_succeeded agent_id result now state)
  = if bool_decide (agent_id = "validation_6")
    then dict_get result "quality_score" (VFloat 1) else quality_score state.
Proof. unfold agent_succeeded. by repeat case_match. Qed.

Lemma agents_agent_failed agent_id agent e now now' state :
  agents (agent_failed agent_id agent e now now' state)
  = alter (λ a, mkAgentState (a_agent_id a) (a_name a) "failed" (a_start_time a)
                             (Some now) (a_result a) (Some e) (a_retry_count a))
          agent_id (agents state).
Proof. unfold agent_failed. by case_match. Qed.

Lemma results_agent_failed agent_id agent e now now' state :
  results (agent_failed agent_id agent e now now' state) = results state.
Proof. unfold agent_failed. by case_match. Qed.

Lemma errors_agent_failed agent_id agent e now now' state :
  errors (agent_failed agent_id agent e now now' state)
  = errors state ++ [mkErrorEntry agent_id (id agent) e now'].
Proof. unfold agent_failed. by case_match. Qed.

Lemma status_agent_failed agent_id agent e now now' state :
  status (agent_failed agent_id agent e now now' state)
  = if bool_decide (3 ≤ retry_count_of agent_id state)%nat then "failed" else status state.
Proof.
  unfold agent_failed. case_bool_decide as H1; case_bool_decide as H2; try done;
    exfalso; revert H1 H2; unfold retry_count_of, update_agent; cbn [set_errors set_agents agents];
    rewrite lookup_alter_eq; destruct (agents state !! agent_id); simpl; lia.
Qed.

(** A handler returns exactly when its stage does. *)
Lemma handler_cases agent_id agent m :
  (∃ result m', stage_outcome time_time process_sync agent_id agent m = Ok result
      ∧ handler time_time process_sync self agent_id agent m = (Returned, m')
      ∧ st m' = agent_succeeded agent_id result (time_time (S (clock m)))
                  (enter_agent agent_id agent (time_time (clock m)) (st m)))
  ∨ (∃ e m', stage_outcome time_time process_sync agent_id agent m = Raise e
      ∧ handler time_time process_sync self agent_id agent m = (Raised e, m')
      ∧ st m' = agent_failed agent_id agent e (time_time (S (clock m)))
                  (time_time (S (S (clock m))))
                  (enter_agent agent_id agent (time_time (clock m)) (st m))).
Proof.
  destruct (stage_outcome time_time process_sync agent_id agent m) as [result|e] eqn:Hout.
  - left. destruct (handler_returns _ _ _ _ Hout) as (m' & ? & ?). eauto 6.
  - right. destruct (handler_raises _ _ _ _ Hout) as (m' & ? & ?). eauto 6.
Qed.

(** *** What a completed visit records *)

Lemma succeeded_entry agent_id agent result now now0 state :
  ∃ a, agents (agent_succeeded agent_id result now
                 (enter_agent agent_id agent now0 state)) !! agent_id = Some a
       ∧ a_status a = "completed" ∧ a_result a = Some result
       ∧ a_retry_count a = retry_count_on_entry agent_id state.
Proof.
  rewrite agents_agent_succeeded, lookup_alter_eq, agents_enter_agent.
  unfold retry_count_on_entry. destruct (agents state !! agent_id); eauto.
Qed.

Lemma succeeded_other agent_id agent result now now0 state other :
  other ≠ agent_id →
  agents (agent_succeeded agent_id result now
            (enter_agent agent_id agent now0 state)) !! other
  = agents state !! other.
Proof.
  intros Hne.
  by rewrite agents_agent_succeeded, lookup_alter_ne, agents_enter_agent_ne.
Qed.

Lemma failed_entry agent_id agent e now now' now0 state :
  ∃ a, agents (agent_failed agent_id agent e now now'
                 (enter_agent agent_id agent now0 state)) !! agent_id = Some a
       ∧ a_status a = "failed"
       ∧ a_retry_count a = retry_count_on_entry agent_id state.
Proof.
  rewrite agents_agent_failed, lookup_alter_eq, agents_enter_agent.
  unfold retry_count_on_entry. destruct (agents state !! agent_id); eauto.
Qed.

Lemma failed_other agent_id agent e now now' now0 state other :
  other ≠ agent_id →
  agents (agent_failed agent_id agent e now now'
            (enter_agent agent_id agent now0 state)) !! other
  = agents state !! other.
Proof.
  intros Hne.
  by rewrite agents_agent_failed, lookup_alter_ne, agents_enter_agent_ne.
Qed.

(** Whatever its stage does, a handler records for its own stage the retry
    count of this entry and leaves the run states of the other stages. *)
Lemma handler_agents agent_id agent m sig m' :
  handler time_time process_sync self agent_id agent m = (sig, m') →
  (∃ a, agents (st m') !! agent_id = Some a
        ∧ a_retry_count a = retry_count_on_entry agent_id (st m))
  ∧ ∀ other, other ≠ agent_id → agents (st m') !! other = agents (st m) !! other.
Proof.
  intros Hh.
  destruct (handler_cases agent_id agent m)
    as [(result & m1 & _ & Hh1 & Hst)|(e & m1 & _ & Hh1 & Hst)];
    rewrite Hh1 in Hh; simplify_eq; rewrite Hst; split.
  - destruct (succeeded_entry agent_id agent result (time_time (S (clock m)))
                (time_time (clock m)) (st m)) as (a & ? & _ & _ & ?); eauto.
  - intros other Hne. by apply succeeded_other.
  - destruct (failed_entry agent_id agent e (time_time (S (clock m)))
                (time_time (S (S (clock m)))) (time_time (clock m)) (st m))
      as (a & ? & _ & ?); eauto.
  - intros other Hne. by apply failed_other.
Qed.

Lemma handler_retry_bounded agent_id agent m sig m' :
  retry_bounded (st m) → retry_count_on_entry agent_id (st m) ≤ 3 →
  handler time_time process_sync self agent_id agent m = (sig, m') →
  retry_bounded (st m').
Proof.
  intros Hb Hle Hh other a.
  destruct (handler_agents _ _ _ _ _ Hh) as ((a' & Ha' & Hrc) & Hother).
  destruct (decide (other = agent_id)) as [->|Hne].
  - rewrite Ha'. intros; simplify_eq. lia.
  - rewrite Hother by done. apply Hb.
Qed.

Lemma handler_first_visit ids agent_id agent m sig m' :
  only_first_visits ids (st m) → agent_id ∉ ids →
  handler time_time process_sync self agent_id agent m = (sig, m') →
  only_first_visits (agent_id :: ids) (st m').
Proof.
  intros Hids Hnew Hh other a.
  destruct (handler_agents _ _ _ _ _ Hh) as ((a' & Ha' & Hrc) & Hother).
  destruct (decide (other = agent_id)) as [->|Hne].
  - rewrite Ha'. intros; simplify_eq. split; [by left|].
    rewrite Hrc. unfold retry_count_on_entry.
    destruct (agents (st m) !! agent_id) as [a0|] eqn:Ha0; [|done].
    by destruct (Hids _ _ Ha0).
  - rewrite Hother by done. intros Ha.
    destruct (Hids _ _ Ha). split; [by right|done].
Qed.

(** The callback calls a handler adds show the state right after entry and
    the state it leaves. *)
Lemma handler_observed agent_id agent m sig m' state :
  handler time_time process_sync self agent_id agent m = (sig, m') →
  state ∈ observed m' →
  state ∈ observed m
  ∨ state = enter_agent agent_id agent (time_time (clock m)) (st m)
  ∨ state = st m'.
Proof.
  unfold handler, observed. cbn [read_clock with_st st clock calls emitted].
  destruct (process_sync _ _ _); intros Hh; simplify_eq; rewrite !st_emit;
    unfold emit; destruct (self_status_callback self);
    cbn [with_st st clock calls emitted]; rewrite ?fmap_app, ?elem_of_app;
    cbn [fmap list_fmap ev_state]; rewrite ?list_elem_of_singleton; naive_solver.
Qed.

Lemma end_handler_observed m sig m' state :
  end_handler self m = (sig, m') →
  state ∈ observed m' → state ∈ observed m ∨ state = st m'.
Proof.
  unfold end_handler, observed. intros Hh; simplify_eq. rewrite st_emit.
  unfold emit; destruct (self_status_callback self);
    cbn [emitted]; rewrite ?fmap_app, ?elem_of_app;
    cbn [fmap list_fmap ev_state]; rewrite ?list_elem_of_singleton; naive_solver.
Qed.

(** *** Artifacts and run states *)

Lemma results_recorded_enter agent_id agent now state :
  results_recorded state → results_recorded (enter_agent agent_id agent now state).
Proof.
  intros Hrec other artifact. rewrite results_enter_agent. intros Hres.
  destruct (Hrec _ _ Hres) as (a & Ha & Har).
  destruct (decide (other = agent_id)) as [->|Hne].
  - rewrite agents_enter_agent, Ha. eauto.
  - rewrite agents_enter_agent_ne by done. eauto.
Qed.

Lemma results_recorded_succeeded agent_id result now state :
  is_Some (agents state !! agent_id) →
  results_recorded state → results_recorded (agent_succeeded agent_id result now state).
Proof.
  intros [a0 Ha0] Hrec other artifact.
  rewrite results_agent_succeeded, agents_agent_succeeded.
  destruct (decide (other = agent_id)) as [->|Hne].
  - rewrite lookup_insert_eq, lookup_alter_eq, Ha0. intros; simplify_eq. eauto.
  - rewrite lookup_insert_ne, lookup_alter_ne by done. apply Hrec.
Qed.

Lemma results_recorded_failed agent_id agent e now now' state :
  results_recorded state → results_recorded (agent_failed agent_id agent e now now' state).
Proof.
  intros Hrec other artifact.
  rewrite results_agent_failed, agents_agent_failed. intros Hres.
  destruct (Hrec _ _ Hres) as (a & Ha & Har).
  destruct (decide (other = agent_id)) as [->|Hne].
  - rewrite lookup_alter_eq, Ha. eauto.
  - rewrite lookup_alter_ne by done. eauto.
Qed.

Lemma all_completed_succeeded agent_id agent result now now0 state :
  all_completed state →
  all_completed (agent_succeeded agent_id result now (enter_agent agent_id agent now0 state)).
Proof.
  intros Hall other a.
  destruct (decide (other = agent_id)) as [->|Hne].
  - destruct (succeeded_entry agent_id agent result now now0 state) as (a' & -> & ? & _).
    by intros; simplify_eq.
  - rewrite succeeded_other by done. apply Hall.
Qed.

(** *** Invariants of a traversal

    [P] holds between node visits as long as nothing was raised; [Q] holds
    of the state an exception leaves behind. *)
Lemma invoke_from_invariant (P Q : Machine → Prop) :
  (∀ body m m', P m → run_node time_time process_sync self body m = (Returned, m') → P m') →
  (∀ body m e m', P m → run_node time_time process_sync self body m = (Raised e, m') → Q m') →
  (∀ m, P m → Q m) →
  ∀ fuel g node m sig m',
    P m → invoke_from time_time process_sync self fuel g node m = Some (sig, m') →
    match sig with Returned => P m' | Raised _ => Q m' end.
Proof.
  intros Hret Hraise HPQ fuel.
  induction fuel as [|fuel IH]; intros g node m sig m' HP Hrun; [done|].
  cbn [invoke_from] in Hrun.
  destruct (assoc node (nodes g)) as [body|]; [|done].
  destruct (run_node _ _ _ body m) as [[|e] m1] eqn:Hnode.
  - pose proof (Hret _ _ _ HP Hnode) as HP1.
    destruct (assoc node (conditional_edges g)) as [table|].
    + destruct (_validation_router (st m1)) as [[route|e] state'] eqn:Hr.
      * destruct (assoc route table) as [target|].
        -- destruct (plain_targets g node ++ [target]) as [|t1 [|t2 ts]];
             simplify_eq; [done | by eapply IH].
        -- simplify_eq. by apply HPQ.
      * simplify_eq. by apply HPQ.
    + destruct (plain_targets g node) as [|t1 [|t2 ts]];
        simplify_eq; [done | by eapply IH].
  - simplify_eq. eauto.
Qed.

(** *** The status only ever takes the three known values *)

Lemma run_node_status body m sig m' :
  run_node time_time process_sync self body m = (sig, m') →
  status (st m') = status (st m) ∨ terminal_status (status (st m')).
Proof.
  unfold terminal_status. destruct body as [agent_id agent|]; cbn [run_node].
  - destruct (handler_cases agent_id agent m)
      as [(result & m1 & _ & -> & Hst)|(e & m1 & _ & -> & Hst)];
      intros; simplify_eq; rewrite Hst.
    + rewrite status_agent_succeeded, status_enter_agent. case_match; auto.
    + rewrite status_agent_failed, status_enter_agent. case_match; auto.
  - unfold end_handler. intros; simplify_eq. rewrite st_emit. auto.
Qed.

Lemma invoke_from_known_status fuel g node m sig m' :
  known_status (status (st m)) →
  invoke_from time_time process_sync self fuel g node m = Some (sig, m') →
  known_status (status (st m')).
Proof.
  intros Hm Hrun.
  pose proof (invoke_from_invariant
                (λ m, known_status (status (st m)))
                (λ m, known_status (status (st m)))) as Hinv.
  cut (match sig with
       | Returned => known_status (status (st m'))
       | Raised _ => known_status (status (st m'))
       end); [by destruct sig|].
  eapply Hinv; eauto; unfold known_status, terminal_status in *.
  - intros body m0 m1 H0 Hn. destruct (run_node_status _ _ _ _ Hn) as [->|[->| ->]]; auto.
  - intros body m0 e m1 H0 Hn. destruct (run_node_status _ _ _ _ Hn) as [->|[->| ->]]; auto.
Qed.

Lemma status_orchestrator_failed e initial_state m :
  status (st (orchestrator_failed time_time e initial_state m)) = "failed".
Proof. done. Qed.

Lemma errors_orchestrator_failed e initial_state m :
  errors (st (orchestrator_failed time_time e initial_state m))
  = errors (st m) ++ [mkErrorEntry "orchestrator" (VStr "Orchestrator") e
                                   (time_time (clock m))].
Proof. done. Qed.

Lemma agents_orchestrator_failed e initial_state m :
  agents (st (orchestrator_failed time_time e initial_state m)) = agents (st m).
Proof. done. Qed.

Lemma results_orchestrator_failed e initial_state m :
  results (st (orchestrator_failed time_time e initial_state m)) = results (st m).
Proof. done. Qed.

Lemma top_level_orchestrator_failed e initial_state m :
  url (st (orchestrator_failed time_time e initial_state m)) = url initial_state
  ∧ output_path (st (orchestrator_failed time_time e initial_state m))
    = output_path initial_state
  ∧ current_agent_id (st (orchestrator_failed time_time e initial_state m))
    = current_agent_id initial_state
  ∧ quality_score (st (orchestrator_failed time_time e initial_state m))
    = quality_score initial_state.
Proof. done. Qed.

Lemma run_of_orchestrator_failed e initial_state m :
  clock (orchestrator_failed time_time e initial_state m) = S (clock m)
  ∧ calls (orchestrator_failed time_time e initial_state m) = calls m
  ∧ emitted (orchestrator_failed time_time e initial_state m) = emitted m.
Proof. done. Qed.

Lemma status_derive_status state :
  status (derive_status state)
  = if bool_decide (status state = "running")
    then (if any_agent_failed state then "failed" else "completed")
    else status state.
Proof. unfold derive_status. by repeat case_match. Qed.

(** Whatever the agents and however long the traversal, a state that
    [run_workflow] returns is completed or failed. *)
Lemma run_workflow_terminal fuel url run_dir m :
  run_workflow time_time process_sync self fuel url run_dir = Some m →
  terminal_status (status (st m)).
Proof.
  unfold run_workflow, terminal_status.
  destruct (entry_point _) as [entry|]; [|intros; simplify_eq; by right].
  destruct (invoke_from _ _ _ _ _ _ _) as [[[|e] m1]|] eqn:Hrun; intros; simplify_eq.
  - apply invoke_from_known_status in Hrun; [|by left].
    cbn [with_st st]. rewrite status_derive_status.
    destruct Hrun as [Hs|[Hs|Hs]]; rewrite Hs; eval_ids; cbn [status];
      [destruct (any_agent_failed m1.(st))|..]; auto.
  - by right.
Qed.

(** More fuel does not change a result. *)
Lemma invoke_from_more_fuel fuel k g node m out :
  invoke_from time_time process_sync self fuel g node m = Some out →
  invoke_from time_time process_sync self (fuel + k) g node m = Some out.
Proof.
  revert node m. induction fuel as [|fuel IH]; intros node m Hrun; [done|].
  cbn [invoke_from Nat.add] in *.
  destruct (assoc node (nodes g)) as [body|]; [|done].
  destruct (run_node _ _ _ body m) as [[|e] m1]; [|done].
  destruct (assoc node (conditional_edges g)) as [table|].
  - destruct (_validation_router (st m1)) as [[route|e] state']; [|done].
    destruct (assoc route table) as [target|]; [|done].
    destruct (plain_targets g node ++ [target]) as [|t1 [|t2 ts]]; auto.
  - destruct (plain_targets g node) as [|t1 [|t2 ts]]; auto.
Qed.

(** *** Artifacts and run states along a traversal *)

Lemma run_node_quiescent body m m' :
  all_completed (st m) ∧ errors (st m) = [] →
  run_node time_time process_sync self body m = (Returned, m') →
  all_completed (st m') ∧ errors (st m') = [].
Proof.
  intros [Hall Herr] Hnode. destruct body as [agent_id agent|]; cbn [run_node] in Hnode.
  - destruct (handler_cases agent_id agent m)
      as [(result & m1 & _ & Hh & Hst)|(e & m1 & _ & Hh & Hst)];
      rewrite Hh in Hnode; simplify_eq. rewrite Hst. split.
    + by apply all_completed_succeeded.
    + by rewrite errors_agent_succeeded, errors_enter_agent.
  - unfold end_handler in Hnode; simplify_eq. by rewrite st_emit.
Qed.

(** *** One visit, by the kind of node *)

Lemma invoke_from_plain fuel g node body next m :
  assoc node (nodes g) = Some body →
  assoc node (conditional_edges g) = None →
  plain_targets g node = [next] →
  invoke_from time_time process_sync self (S fuel) g node m
  = match run_node time_time process_sync self body m with
    | (Raised e, m1) => Some (Raised e, m1)
    | (Returned, m1) => invoke_from time_time process_sync self fuel g next m1
    end.
Proof. intros Hn Hc Hp. cbn [invoke_from]. by rewrite Hn, Hc, Hp. Qed.

Lemma invoke_from_sink fuel g node body m :
  assoc node (nodes g) = Some body →
  assoc node (conditional_edges g) = None →
  plain_targets g node = [] →
  invoke_from time_time process_sync self (S fuel) g node m
  = match run_node time_time process_sync self body m with
    | (Raised e, m1) => Some (Raised e, m1)
    | (Returned, m1) => Some (Returned, m1)
    end.
Proof. intros Hn Hc Hp. cbn [invoke_from]. by rewrite Hn, Hc, Hp. Qed.

Lemma invoke_from_gate fuel g node body table m :
  assoc node (nodes g) = Some body →
  assoc node (conditional_edges g) = Some table →
  plain_targets g node = [] →
  invoke_from time_time process_sync self (S fuel) g node m
  = match run_node time_time process_sync self body m with
    | (Raised e, m1) => Some (Raised e, m1)
    | (Returned, m1) =>
        match _validation_router (st m1) with
        | (Raise e, _) => Some (Raised e, m1)
        | (Ok route, _) =>
            match assoc route table with
            | None => Some (Raised route, m1)
            | Some target => invoke_from time_time process_sync self fuel g target m1
            end
        end
    end.
Proof.
  intros Hn Hc Hp. cbn [invoke_from]. rewrite Hn, Hc, Hp.
  destruct (run_node _ _ _ body m) as [[|e] m1]; [|done].
  destruct (_validation_router (st m1)) as [[route|e] state]; [|done].
  by destruct (assoc route table).
Qed.

(** The router after a gate that completed. *)
Lemma _validation_router_completed state v result :
  agents state !! "validation_6" = Some v →
  a_status v = "completed" → a_result v = Some result →
  _validation_router state
  = if truthy (dict_get result "passed" (VBool false))
    then (Ok "success", set_status "completed" state)
    else match agents state !! "component_synthesizer_5" with
         | None => (Raise "'component_synthesizer_5'", state)
         | Some synth =>
             if bool_decide (a_retry_count synth < 3)
             then (Ok "retry", state)
             else (Ok "success", set_status "failed" state)
         end.
Proof.
  intros Hv Hs Hr. unfold _validation_router. rewrite Hv.
  destruct v; cbn in *; subst. by eval_ids.
Qed.

End HandlerFacts.

(** ** The pipeline of the service: six stages, the gate last *)

Section ServicePipeline.

Variable time_time : nat → Q.
Variable process_sync : nat → string → Artifact → res Artifact.
Variables a1 a2 a3 a4 a5 a6 : BaseAgent.
Variable base_dir : string.
Variable callback : bool.

Let self : WorkflowOrchestrator :=
  mkWorkflowOrchestrator (service_agents a1 a2 a3 a4 a5 a6) base_dir callback.
Let g : StateGraph := _build_workflow_graph self.

Local Abbreviation run_from := (invoke_from time_time process_sync self).

Lemma visit_scraper fuel m :
  run_from (S fuel) g "scraper_1" m
  = match handler time_time process_sync self "scraper_1" a1 m with
    | (Raised e, m1) => Some (Raised e, m1)
    | (Returned, m1) => run_from fuel g "semantic_parser_2" m1
    end.
Proof.
  by apply (invoke_from_plain _ _ _ _ _ _ (AgentHandler "scraper_1" a1)).
Qed.

Lemma visit_parser fuel m :
  run_from (S fuel) g "semantic_parser_2" m
  = match handler time_time process_sync self "semantic_parser_2" a2 m with
    | (Raised e, m1) => Some (Raised e, m1)
    | (Returned, m1) => run_from fuel g "style_transfer_3" m1
    end.
Proof.
  by apply (invoke_from_plain _ _ _ _ _ _ (AgentHandler "semantic_parser_2" a2)).
Qed.

Lemma visit_style fuel m :
  run_from (S fuel) g "style_transfer_3" m
  = match handler time_time process_sync self "style_transfer_3" a3 m with
    | (Raised e, m1) => Some (Raised e, m1)
    | (Returned, m1) => run_from fuel g "layout_generator_4" m1
    end.
Proof.
  by apply (invoke_from_plain _ _ _ _ _ _ (AgentHandler "style_transfer_3" a3)).
Qed.

Lemma visit_layout fuel m :
  run_from (S fuel) g "layout_generator_4" m
  = match handler time_time process_sync self "layout_generator_4" a4 m with
    | (Raised e, m1) => Some (Raised e, m1)
    | (Returned, m1) => run_from fuel g "component_synthesizer_5" m1
    end.
Proof.
  by apply (invoke_from_plain _ _ _ _ _ _ (AgentHandler "layout_generator_4" a4)).
Qed.

Lemma visit_synthesizer fuel m :
  run_from (S fuel) g "component_synthesizer_5" m
  = match handler time_time process_sync self "component_synthesizer_5" a5 m with
    | (Raised e, m1) => Some (Raised e, m1)
    | (Returned, m1) => run_from fuel g "validation_6" m1
    end.
Proof.
  by apply (invoke_from_plain _ _ _ _ _ _ (AgentHandler "component_synthesizer_5" a5)).
Qed.

Lemma visit_end fuel m :
  run_from (S fuel) g "end" m = Some (end_handler self m).
Proof. by rewrite (invoke_from_sink _ _ _ _ _ "end" EndHandler). Qed.

Lemma visit_validation fuel m :
  run_from (S fuel) g "validation_6" m
  = match handler time_time process_sync self "validation_6" a6 m with
    | (Raised e, m1) => Some (Raised e, m1)
    | (Returned, m1) =>
        match _validation_router (st m1) with
        | (Raise e, _) => Some (Raised e, m1)
        | (Ok route, _) =>
            if bool_decide (route = "success") then run_from fuel g "end" m1
            else if bool_decide (route = "retry")
            then run_from fuel g "component_synthesizer_5" m1
            else Some (Raised route, m1)
        end
    end.
Proof.
  rewrite (invoke_from_gate _ _ _ _ _ "validation_6" (AgentHandler "validation_6" a6)
             [("success", "end"); ("retry", "component_synthesizer_5")]) by done.
  cbn [run_node]. destruct (handler _ _ _ _ _ m) as [[|e] m1]; [|done].
  destruct (_validation_router (st m1)) as [[route|e] state]; [|done].
  cbn [assoc]. rewrite !(bool_decide_ext (_ = route) (route = _)) by naive_solver.
  by repeat case_bool_decide.
Qed.

(** One round of the loop between the synthesizer and the gate: it ends
    the traversal, or it comes back to the synthesizer with one more retry
    recorded, and then only if fewer than 3 were recorded before. *)
Lemma loop_round fuel m :
  (∀ m', retry_count_on_entry "component_synthesizer_5" (st m')
         = S (retry_count_on_entry "component_synthesizer_5" (st m)) →
         retry_count_on_entry "component_synthesizer_5" (st m) < 3 →
         is_Some (run_from (S fuel) g "component_synthesizer_5" m')) →
  is_Some (run_from (S (S (S fuel))) g "component_synthesizer_5" m).
Proof.
  intros Hback. rewrite visit_synthesizer.
  destruct (handler_cases time_time process_sync self "component_synthesizer_5" a5 m)
    as [(r5 & m1 & _ & -> & Hst1)|(e & m1 & _ & -> & _)]; [|by eauto].
  rewrite visit_validation.
  destruct (handler_cases time_time process_sync self "validation_6" a6 m1)
    as [(r6 & m2 & _ & -> & Hst2)|(e & m2 & _ & -> & _)]; [|by eauto].
  destruct (succeeded_entry "validation_6" a6 r6 (time_time (S (clock m1)))
              (time_time (clock m1)) (st m1)) as (v & Hv & Hvs & Hvr & _).
  rewrite <- Hst2 in Hv.
  rewrite (_validation_router_completed _ _ _ Hv Hvs Hvr).
  destruct (truthy _); [by rewrite visit_end; eauto|].
  destruct (succeeded_entry "component_synthesizer_5" a5 r5
              (time_time (S (clock m))) (time_time (clock m)) (st m))
    as (s & Hs & _ & _ & Hsr).
  rewrite <- Hst1, <- (succeeded_other "validation_6" a6 r6 (time_time (S (clock m1)))
                         (time_time (clock m1))), <- Hst2 in Hs by done.
  rewrite Hs. case_bool_decide as Hlt; eval_ids; cbn [with_st st].
  - apply Hback; [|lia]. cbn [with_st st].
    unfold retry_count_on_entry at 1. rewrite Hs. lia.
  - rewrite visit_end; eauto.
Qed.

(** Entered with the synthesizer about to record retry count [c], the loop
    needs at most [3 - c] further rounds. *)
Lemma loop_returns n : ∀ m,
  3 ≤ retry_count_on_entry "component_synthesizer_5" (st m) + n →
  is_Some (run_from (2 * n + 3) g "component_synthesizer_5" m).
Proof.
  induction n as [|n IH]; intros m Hn.
  - apply (loop_round 0). intros m' _ Hlt. lia.
  - replace (2 * S n + 3) with (S (S (S (S (2 * n + 1))))) by lia.
    apply loop_round. intros m' Hm' _.
    replace (S (S (2 * n + 1))) with (2 * n + 3) by lia. apply IH. lia.
Qed.

(** Thirteen node visits always suffice: four stages, at most four rounds of
    synthesizer and gate, and the end node. *)
Lemma traversal_returns k m :
  ∃ out, run_from (13 + k) g "scraper_1" m = Some out.
Proof.
  cut (is_Some (run_from 13 g "scraper_1" m)).
  { intros [out Hout]. exists out. by apply invoke_from_more_fuel. }
  rewrite visit_scraper.
  destruct (handler _ _ _ "scraper_1" a1 m) as [[|e] m1]; [|by eauto].
  rewrite visit_parser.
  destruct (handler _ _ _ "semantic_parser_2" a2 m1) as [[|e] m2]; [|by eauto].
  rewrite visit_style.
  destruct (handler _ _ _ "style_transfer_3" a3 m2) as [[|e] m3]; [|by eauto].
  rewrite visit_layout.
  destruct (handler _ _ _ "layout_generator_4" a4 m3) as [[|e] m4]; [|by eauto].
  apply (loop_returns 3). lia.
Qed.

(** *** No retry count above 3 *)

(** From the synthesizer on: the gate has been visited no more often than
    the synthesizer, and the router sends the run back only while the
    synthesizer's count is below 3. *)
Lemma loop_retry_bounded fuel : ∀ m out,
  retry_bounded (st m) →
  retry_count_on_entry "validation_6" (st m)
  ≤ retry_count_on_entry "component_synthesizer_5" (st m) →
  retry_count_on_entry "component_synthesizer_5" (st m) ≤ 3 →
  run_from fuel g "component_synthesizer_5" m = Some out →
  retry_bounded (st out.2).
Proof.
  induction fuel as [fuel IH] using lt_wf_ind. intros m out Hb Hvs Hs3 Hrun.
  destruct fuel as [|fuel]; [done|]. rewrite visit_synthesizer in Hrun.
  destruct (handler time_time process_sync self "component_synthesizer_5" a5 m)
    as [sig1 m1] eqn:Hh1.
  pose proof (handler_retry_bounded _ _ _ _ _ _ _ _ Hb Hs3 Hh1) as Hb1.
  destruct (handler_agents _ _ _ _ _ _ _ _ Hh1) as ((s & Hs & Hsrc) & Hother1).
  destruct sig1 as [|e]; [|by simplify_eq].
  destruct fuel as [|fuel]; [done|]. rewrite visit_validation in Hrun.
  assert (retry_count_on_entry "validation_6" (st m1)
          = retry_count_on_entry "validation_6" (st m)) as Hv1
      by (unfold retry_count_on_entry; by rewrite Hother1).
  assert (retry_count_on_entry "validation_6" (st m1) ≤ 3) as Hv3 by lia.
  destruct (handler_cases time_time process_sync self "validation_6" a6 m1)
    as [(r6 & m2 & _ & Hh2 & Hst2)|(e & m2 & _ & Hh2 & _)];
    rewrite Hh2 in Hrun;
    pose proof (handler_retry_bounded _ _ _ _ _ _ _ _ Hb1 Hv3 Hh2) as Hb2;
    destruct (handler_agents _ _ _ _ _ _ _ _ Hh2) as ((v & Hv & Hvrc) & Hother2);
    [|by simplify_eq].
  destruct (succeeded_entry "validation_6" a6 r6 (time_time (S (clock m1)))
              (time_time (clock m1)) (st m1)) as (v' & Hv' & Hvs' & Hvr' & _).
  rewrite <- Hst2 in Hv'.
  rewrite (_validation_router_completed _ _ _ Hv' Hvs' Hvr') in Hrun.
  assert (agents (st m2) !! "component_synthesizer_5" = Some s) as Hs2
      by (by rewrite Hother2).
  rewrite Hs2 in Hrun.
  assert (run_from fuel g "end" m2 = Some out → retry_bounded (st out.2)) as Hend.
  { intros Hout. destruct fuel as [|fuel]; [done|].
    rewrite visit_end in Hout. simplify_eq. unfold end_handler. cbn [snd].
    by rewrite st_emit. }
  revert Hrun. destruct (truthy _); eval_ids; [by apply Hend|].
  case_bool_decide as Hlt; eval_ids; [|by apply Hend].
  intros Hrun. eapply (IH fuel); [lia| | | |exact Hrun].
  - done.
  - unfold retry_count_on_entry at 1 2. rewrite Hv, Hs2. lia.
  - unfold retry_count_on_entry. rewrite Hs2. lia.
Qed.

(** From the entry point: the four stages before the synthesizer are
    visited once each. *)
Lemma traversal_retry_bounded fuel m out :
  only_first_visits [] (st m) →
  run_from fuel g "scraper_1" m = Some out →
  retry_bounded (st out.2).
Proof.
  intros H0 Hrun.
  assert (∀ ids m, only_first_visits ids (st m) → retry_bounded (st m)) as Hbound.
  { intros ids m' Hids agent_id a Ha. destruct (Hids _ _ Ha) as [_ ->]. lia. }
  destruct fuel as [|fuel]; [done|]. rewrite visit_scraper in Hrun.
  destruct (handler _ _ _ "scraper_1" a1 m) as [sig m1] eqn:Hh1.
  assert (only_first_visits _ (st _)) as H1 by (eapply handler_first_visit; [exact H0| |exact Hh1]; set_solver).
  destruct sig; [|simplify_eq; by eapply Hbound].
  destruct fuel as [|fuel]; [done|]. rewrite visit_parser in Hrun.
  destruct (handler _ _ _ "semantic_parser_2" a2 m1) as [sig m2] eqn:Hh2.
  assert (only_first_visits _ (st _)) as H2 by (eapply handler_first_visit; [exact H1| |exact Hh2]; set_solver).
  destruct sig; [|simplify_eq; by eapply Hbound].
  destruct fuel as [|fuel]; [done|]. rewrite visit_style in Hrun.
  destruct (handler _ _ _ "style_transfer_3" a3 m2) as [sig m3] eqn:Hh3.
  assert (only_first_visits _ (st _)) as H3 by (eapply handler_first_visit; [exact H2| |exact Hh3]; set_solver).
  destruct sig; [|simplify_eq; by eapply Hbound].
  destruct fuel as [|fuel]; [done|]. rewrite visit_layout in Hrun.
  destruct (handler _ _ _ "layout_generator_4" a4 m3) as [sig m4] eqn:Hh4.
  assert (only_first_visits _ (st _)) as H4 by (eapply handler_first_visit; [exact H3| |exact Hh4]; set_solver).
  destruct sig; [|simplify_eq; by eapply Hbound].
  assert (∀ agent_id, agent_id ∉ ["layout_generator_4"; "style_transfer_3";
                                   "semantic_parser_2"; "scraper_1"] →
                      retry_count_on_entry agent_id (st m4) = 0) as Habsent.
  { intros agent_id Hnot. unfold retry_count_on_entry.
    destruct (agents (st m4) !! agent_id) as [a|] eqn:Ha; [|done].
    by destruct (H4 _ _ Ha). }
  eapply loop_retry_bounded; [by eapply Hbound| | |exact Hrun].
  - rewrite !Habsent by set_solver. lia.
  - rewrite Habsent by set_solver. lia.
Qed.

(** In every state a run of the service pipeline returns, whatever the
    stages do and whatever budgets are configured, no recorded retry count
    is above 3: no stage is entered more than four times. *)
Lemma retry_counts_at_most_three fuel url run_dir m :
  run_workflow time_time process_sync self fuel url run_dir = Some m →
  retry_bounded (st m).
Proof.
  unfold run_workflow. change (entry_point _) with (Some "scraper_1").
  cbn [self self_output_dir]. fold self. fold g.
  destruct (run_from _ _ _ _) as [[sig m1]|] eqn:Hrun; [|done].
  apply traversal_retry_bounded in Hrun;
    [|intros agent_id a; cbn; by rewrite lookup_empty].
  cbn [snd] in Hrun. destruct sig; intros; simplify_eq.
  - intros agent_id a. cbn [with_st st].
    replace (agents (derive_status (st m1))) with (agents (st m1))
      by (unfold derive_status; by repeat case_match).
    apply Hrun.
  - exact Hrun.
Qed.

(** On the pipeline of the service a run always returns: thirteen node
    visits or more suffice, whatever the stages do. *)
Lemma service_run_returns k url run_dir :
  is_Some (run_workflow time_time process_sync self (13 + k) url run_dir).
Proof.
  destruct (traversal_returns k
              (mkMachine (initial_state url (os_path_join base_dir run_dir)) 0 0 []))
    as [[sig final] Hrun].
  unfold run_workflow. change (entry_point _) with (Some "scraper_1").
  cbn [self self_output_dir]. fold self. fold g. rewrite Hrun.
  destruct sig; eauto.
Qed.

End ServicePipeline.

(** C1.  For every orchestrator, url, clock and sequence of stage outcomes:
    the status of a state [run_workflow] returns is "completed" or "failed",
    never "pending" or "running".  When the traversal ends without an
    exception, the returned status is the one the traversal left, unless
    that is still "running": then it is "failed" if the run state of some
    stage is failed and "completed" otherwise.  When an exception escapes
    the traversal (or the graph has no entry point), the returned status is
    "failed" and one orchestrator-level error with the text of the exception
    is appended to [errors].  On the six-stage pipeline of the service the
    run does return, for every url and every sequence of stage outcomes
    (thirteen node visits or more always suffice).  The derivation itself,
    on any state whose status is "running", gives "failed" exactly when the
    run state of some stage is failed, and "completed" exactly when none
    is; it leaves any other state as it is. *)
Theorem run_workflow_status_terminal (time_time : nat → Q)
    (process_sync : nat → string → Artifact → res Artifact)
    (self : WorkflowOrchestrator) (fuel : nat) (url run_dir : string) :
  (∀ m, run_workflow time_time process_sync self fuel url run_dir = Some m ↔
        ∃ sig final,
          match entry_point (_build_workflow_graph self) with
          | Some entry =>
              invoke_from time_time process_sync self fuel (_build_workflow_graph self)
                          entry (start_of_run url (os_path_join (self_output_dir self) run_dir))
              = Some (sig, final)
          | None =>
              sig = Raised "Graph must have an entrypoint"
              ∧ final = start_of_run url (os_path_join (self_output_dir self) run_dir)
          end
          ∧ terminal_status (status (st m))
          ∧ status (st m) ≠ "pending" ∧ status (st m) ≠ "running"
          ∧ match sig with
            | Returned =>
                m = with_st derive_status final
                ∧ status (st m)
                  = (if bool_decide (status (st final) = "running")
                     then (if any_agent_failed (st final) then "failed" else "completed")
                     else status (st final))
            | Raised e =>
                m = orchestrator_failed time_time e (initial_state url
                      (os_path_join (self_output_dir self) run_dir)) final
                ∧ status (st m) = "failed"
                ∧ errors (st m)
                  = errors (st final)
                    ++ [mkErrorEntry "orchestrator" (VStr "Orchestrator") e
                                     (time_time (clock final))]
            end)
  ∧ (∀ a1 a2 a3 a4 a5 a6 k,
       self_agents self = service_agents a1 a2 a3 a4 a5 a6 →
       is_Some (run_workflow time_time process_sync self (13 + k) url run_dir))
  ∧ (∀ state,
       (status state = "running" →
        (status (derive_status state) = "failed"
         ↔ ∃ agent_id a, agents state !! agent_id = Some a ∧ a_status a = "failed")
        ∧ (status (derive_status state) = "completed"
           ↔ ¬ ∃ agent_id a, agents state !! agent_id = Some a ∧ a_status a = "failed"))
       ∧ (status state ≠ "running" → derive_status state = state)).
Proof.
  split; [|split].
  - intros m. split.
    + intros Hm. pose proof (run_workflow_terminal _ _ _ _ _ _ _ Hm) as Hterm.
      revert Hm. unfold run_workflow, start_of_run.
      destruct (entry_point _) as [entry|].
      * destruct (invoke_from _ _ _ _ _ _ _) as [[[|e] final]|]; intros; simplify_eq.
        -- exists Returned, final. split; [done|]. split; [done|].
           split; [by destruct Hterm as [Hs|Hs]; rewrite Hs|].
           split; [by destruct Hterm as [Hs|Hs]; rewrite Hs|].
           split; [done|]. cbn [with_st st]. apply status_derive_status.
        -- exists (Raised e), final. split; [done|]. split; [done|]. by split_and!.
      * intros; simplify_eq. eexists _, _. split; [done|]. split; [done|]. by split_and!.
    + intros (sig & final & Hrun & _ & _ & _ & Hm). unfold run_workflow.
      fold (start_of_run url (os_path_join (self_output_dir self) run_dir)).
      destruct (entry_point _) as [entry|].
      * rewrite Hrun. destruct sig; by destruct Hm as [-> _].
      * destruct Hrun as [-> ->]. by destruct Hm as [-> _].
  - intros a1 a2 a3 a4 a5 a6 k Hagents. destruct self as [agents dir callback].
    cbn [self_agents] in Hagents. subst agents. apply service_run_returns.
  - intros state. unfold derive_status, any_agent_failed. split.
    + intros Hrunning. rewrite (bool_decide_eq_true_2 _ Hrunning).
      case_bool_decide as Hfailed; cbn [set_status status];
        unfold map_Exists in Hfailed; naive_solver.
    + intros Hother. by rewrite (bool_decide_eq_false_2 _ Hother).
Qed.

(** ** The factory *)

(** The six default configurations give the pipeline of the service, for
    every choice of directories, keys, thresholds and configured budgets. *)
Lemma default_agents_are_service_agents dbg out shots key1 key2 p a s b :
  ∃ a1 a2 a3 a4 a5 a6,
    create_agents_from_config
      (create_default_workflow_agents dbg out shots key1 key2 p a s b)
    = Ok (service_agents a1 a2 a3 a4 a5 a6).
Proof.
  unfold create_agents_from_config, create_default_workflow_agents.
  cbn [create_agents_from].
  repeat match goal with
  | |- context [create_agent ?cfg] =>
      let r := eval vm_compute in (create_agent cfg) in
      change (create_agent cfg) with r; cbn iota beta
  end.
  do 6 eexists. vm_compute. reflexivity.
Qed.

(** The keyword [retry_limit] never reaches [BaseAgent.__init__]'s
    [max_retries]: the created agent is the same whatever budget is
    configured. *)
Lemma explicit_kwargs_free cfg n k :
  explicit_kwargs (set_c_max_retries n cfg) !! k = None ↔ explicit_kwargs cfg !! k = None.
Proof.
  unfold explicit_kwargs. cbn [set_c_max_retries c_name c_debug c_timeout c_max_retries].
  rewrite !lookup_insert, !lookup_empty. by repeat case_decide.
Qed.

Lemma max_retries_not_from_retry_limit cfg n cls :
  max_retries (BaseAgent__init__ cls (config cfg ∪ explicit_kwargs (set_c_max_retries n cfg)))
  = dict_get (config cfg) "max_retries" (VInt 3).
Proof.
  unfold BaseAgent__init__, dict_get. cbn [max_retries].
  rewrite lookup_union. unfold explicit_kwargs.
  rewrite !lookup_insert_ne, lookup_empty by done.
  by destruct (config cfg !! "max_retries").
Qed.

Lemma create_agent_ignores_budget cfg n :
  create_agent (set_c_max_retries n cfg) = create_agent cfg.
Proof.
  unfold create_agent. cbn [set_c_max_retries agent_type config].
  destruct (_agent_classes (agent_type cfg)) as [cls|]; [|done].
  rewrite (bool_decide_ext
             (map_Forall (λ k _, explicit_kwargs (set_c_max_retries n cfg) !! k = None)
                         (config cfg))
             (map_Forall (λ k _, explicit_kwargs cfg !! k = None) (config cfg))).
  2: { unfold map_Forall. split; intros H k v Hk.
       - apply (proj1 (explicit_kwargs_free cfg n k)), (H k v Hk).
       - apply (proj2 (explicit_kwargs_free cfg n k)), (H k v Hk). }
  case_bool_decide; [|done]. f_equal.
  unfold BaseAgent__init__, dict_get. f_equal.
  all: rewrite !lookup_union; unfold explicit_kwargs;
    cbn [set_c_max_retries c_name c_debug c_timeout c_max_retries];
    rewrite ?lookup_insert_eq, ?lookup_insert_ne, ?lookup_empty by done; try done.
Qed.

(** ** The attribute [max_retries] is never read by the orchestrator *)

Section Budgets.

Variable time_time : nat → Q.
Variable process_sync : nat → string → Artifact → res Artifact.
Variable self : WorkflowOrchestrator.
Variable budget : string → value.

Lemma handler_ignores_budget agent_id agent m :
  handler time_time process_sync (override_max_retries budget self) agent_id
          (with_max_retries (budget agent_id) agent) m
  = handler time_time process_sync self agent_id agent m.
Proof. reflexivity. Qed.

Lemma override_keys :
  (self_agents (override_max_retries budget self)).*1 = (self_agents self).*1.
Proof.
  unfold override_max_retries. cbn [self_agents].
  rewrite <- list_fmap_compose. by apply list_fmap_ext.
Qed.

Lemma override_graph_shape :
  edges (_build_workflow_graph (override_max_retries budget self))
  = edges (_build_workflow_graph self)
  ∧ conditional_edges (_build_workflow_graph (override_max_retries budget self))
    = conditional_edges (_build_workflow_graph self)
  ∧ entry_point (_build_workflow_graph (override_max_retries budget self))
    = entry_point (_build_workflow_graph self).
Proof.
  unfold _build_workflow_graph. cbn [edges conditional_edges entry_point].
  by rewrite override_keys.
Qed.

Lemma override_nodes node :
  assoc node (nodes (_build_workflow_graph (override_max_retries budget self)))
  = (λ body, match body with
             | AgentHandler agent_id agent =>
                 AgentHandler agent_id (with_max_retries (budget agent_id) agent)
             | EndHandler => EndHandler
             end)
    <$> assoc node (nodes (_build_workflow_graph self)).
Proof.
  unfold _build_workflow_graph, override_max_retries. cbn [nodes self_agents].
  induction (self_agents self) as [|[k a] l IH]; cbn.
  - by case_bool_decide.
  - case_bool_decide; [done|]. apply IH.
Qed.

Lemma invoke_from_ignores_budget fuel : ∀ node m,
  invoke_from time_time process_sync (override_max_retries budget self) fuel
              (_build_workflow_graph (override_max_retries budget self)) node m
  = invoke_from time_time process_sync self fuel (_build_workflow_graph self) node m.
Proof.
  destruct override_graph_shape as (Hedges & Hcond & _).
  induction fuel as [|fuel IH]; intros node m; [done|].
  cbn [invoke_from]. rewrite override_nodes, Hcond.
  unfold plain_targets. rewrite Hedges.
  destruct (assoc node (nodes (_build_workflow_graph self))) as [[agent_id agent|]|];
    cbn [fmap option_fmap option_map run_node]; [| |done].
  - rewrite handler_ignores_budget.
    destruct (handler _ _ _ agent_id agent m) as [[|e] m1]; [|done].
    repeat case_match; simplify_eq; try done; apply IH.
  - change (end_handler (override_max_retries budget self) m) with (end_handler self m).
    destruct (end_handler self m) as [[|e] m1]; [|done].
    repeat case_match; simplify_eq; try done; apply IH.
Qed.

Lemma run_workflow_ignores_budget fuel url run_dir :
  run_workflow time_time process_sync (override_max_retries budget self) fuel url run_dir
  = run_workflow time_time process_sync self fuel url run_dir.
Proof.
  unfold run_workflow. destruct override_graph_shape as (_ & _ & ->).
  destruct (entry_point _); [|done].
  by rewrite invoke_from_ignores_budget.
Qed.

End Budgets.

Lemma default_agents_budget dbg out shots key1 key2 p a s b cfg n :
  cfg ∈ create_default_workflow_agents dbg out shots key1 key2 p a s b →
  ∃ agent, create_agent (set_c_max_retries n cfg) = Ok agent
           ∧ max_retries agent = VInt 3.
Proof.
  intros Hin. rewrite create_agent_ignores_budget.
  unfold create_default_workflow_agents in Hin.
  repeat (apply elem_of_cons in Hin as [->|Hin]); [..|by apply elem_of_nil in Hin];
    eexists; (split; [vm_compute; reflexivity|reflexivity]).
Qed.

Lemma _validation_router_failed state v :
  agents state !! "validation_6" = Some v → a_status v = "failed" →
  _validation_router state
  = if bool_decide (a_retry_count v < 3)
    then (Ok "retry", state)
    else (Ok "success", set_status "failed" state).
Proof.
  intros Hv Hs. unfold _validation_router. rewrite Hv, Hs. by eval_ids.
Qed.

(** C10.  The cutoff enforced during a run is the constant 3, whatever budget
    is configured: the agent the factory creates does not depend on the
    configured [max_retries] (it travels as [retry_limit], which
    [BaseAgent.__init__] does not read), its [max_retries] attribute is the
    default 3 unless the extra [config] dictionary itself has that key, and
    is 3 for each of the six default configurations; a run is the same
    whatever [max_retries] attributes the agents carry; and the failure
    branch of the handler and both retry tests of the router compare the
    recorded retry count with the literal 3. *)
Theorem retry_cutoff_is_three (time_time : nat → Q)
    (process_sync : nat → string → Artifact → res Artifact)
    (self : WorkflowOrchestrator) (budget : string → value)
    (fuel : nat) (url run_dir : string) (cfg : AgentConfig) (n : nat) :
  create_agent (set_c_max_retries n cfg) = create_agent cfg
  ∧ match create_agent (set_c_max_retries n cfg) with
    | Ok agent => max_retries agent = dict_get (config cfg) "max_retries" (VInt 3)
    | Raise _ => True
    end
  ∧ (∀ dbg out shots key1 key2 p a s b default_cfg,
       default_cfg ∈ create_default_workflow_agents dbg out shots key1 key2 p a s b →
       ∃ agent, create_agent (set_c_max_retries n default_cfg) = Ok agent
                ∧ max_retries agent = VInt 3)
  ∧ run_workflow time_time process_sync (override_max_retries budget self) fuel url run_dir
    = run_workflow time_time process_sync self fuel url run_dir
  ∧ (∀ agent_id agent e now now' state,
       status (agent_failed agent_id agent e now now' state)
       = if bool_decide (3 ≤ retry_count_of agent_id state)
         then "failed" else status state)
  ∧ (∀ state v,
       agents state !! "validation_6" = Some v → a_status v = "failed" →
       (_validation_router state).1
       = if bool_decide (a_retry_count v < 3) then Ok "retry" else Ok "success")
  ∧ (∀ state v result synth,
       agents state !! "validation_6" = Some v → a_status v = "completed" →
       a_result v = Some result →
       truthy (dict_get result "passed" (VBool false)) = false →
       agents state !! "component_synthesizer_5" = Some synth →
       (_validation_router state).1
       = if bool_decide (a_retry_count synth < 3) then Ok "retry" else Ok "success").
Proof.
  split; [apply create_agent_ignores_budget|].
  split.
  { unfold create_agent. cbn [set_c_max_retries agent_type config].
    destruct (_agent_classes (agent_type cfg)) as [cls|]; [|done].
    case_bool_decide; [|done]. apply max_retries_not_from_retry_limit. }
  split; [intros; by eapply default_agents_budget|].
  split; [apply run_workflow_ignores_budget|].
  split; [apply status_agent_failed|].
  split.
  - intros state v Hv Hs. rewrite (_validation_router_failed _ _ Hv Hs).
    by case_bool_decide.
  - intros state v result synth Hv Hs Hr Hp Hsynth.
    rewrite (_validation_router_completed _ _ _ Hv Hs Hr), Hp, Hsynth.
    by case_bool_decide.
Qed.

(** ** The router, the input of a stage and the gate *)

(** C3, as stated, fails: with no recorded run state for the gate the router
    does not answer "retry"; it marks the run failed and answers "success". *)
Lemma router_without_gate_state_stops :
  agents (initial_state "https://example.com" "generated/1") !! "validation_6" = None
  ∧ _validation_router (initial_state "https://example.com" "generated/1")
    = (Ok "success", set_status "failed" (initial_state "https://example.com" "generated/1"))
  ∧ (_validation_router (initial_state "https://example.com" "generated/1")).1
    ≠ Ok "retry".
Proof. by split_and!. Qed.

(** C3, amended.  When the run state of the gate is recorded with status
    "failed" and a retry count below 3, the router answers "retry" and leaves
    the state as it is; when the gate has no recorded run state, the router
    sets the status to "failed" and answers "success". *)
Theorem router_retries_failed_gate state :
  (∀ v, agents state !! "validation_6" = Some v →
        a_status v = "failed" → a_retry_count v < 3 →
        _validation_router state = (Ok "retry", state))
  ∧ (agents state !! "validation_6" = None →
     _validation_router state = (Ok "success", set_status "failed" state)).
Proof.
  split.
  - intros v Hv Hs Hlt. rewrite (_validation_router_failed _ _ Hv Hs).
    by rewrite bool_decide_eq_true_2.
  - intros Hv. unfold _validation_router. by rewrite Hv.
Qed.

Lemma router_retries_failed_gate_witness :
  _validation_router gate_failed_once = (Ok "retry", gate_failed_once).
Proof.
  apply (proj1 (router_retries_failed_gate gate_failed_once)
               (mkAgentState "validation_6" (VStr "ValidationAgent") "failed" (ticking 10)
                             (Some (ticking 11)) None (Some "validation timed out") 1)).
  - reflexivity.
  - reflexivity.
  - cbn. lia.
Defined.

(** C8.  The input of a stage is the url, merged with the artifacts that
    [results] holds for the declared upstream stages of that stage (the
    scraper for the parser; scraper and parser for style; parser and style
    for layout; those four for the synthesizer; the synthesizer for the gate;
    none for any other id), plus [output_path] for the synthesizer and the
    gate only.  Every key of the input comes from one of these, and the rest
    of [results] has no influence on it. *)
Theorem agent_input_selects_dependencies agent_id state :
  _get_agent_input agent_id state = input_from_dependencies agent_id state
  ∧ dependencies "scraper_1" = []
  ∧ dependencies "semantic_parser_2" = ["scraper_1"]
  ∧ dependencies "style_transfer_3" = ["scraper_1"; "semantic_parser_2"]
  ∧ dependencies "layout_generator_4" = ["semantic_parser_2"; "style_transfer_3"]
  ∧ dependencies "component_synthesizer_5"
    = ["scraper_1"; "semantic_parser_2"; "style_transfer_3"; "layout_generator_4"]
  ∧ dependencies "validation_6" = ["component_synthesizer_5"]
  ∧ (persists_artifacts agent_id = true
     ↔ agent_id = "component_synthesizer_5" ∨ agent_id = "validation_6")
  ∧ (∀ k, is_Some (_get_agent_input agent_id state !! k) →
          k = "url"
          ∨ (k = "output_path" ∧ persists_artifacts agent_id = true)
          ∨ ∃ upstream artifact,
              upstream ∈ dependencies agent_id
              ∧ results state !! upstream = Some artifact
              ∧ is_Some (artifact !! k))
  ∧ (∀ state',
       url state' = url state → output_path state' = output_path state →
       (∀ upstream, upstream ∈ dependencies agent_id →
                    results state' !! upstream = results state !! upstream) →
       _get_agent_input agent_id state' = _get_agent_input agent_id state).
Proof.
  split; [apply _get_agent_input_refines|].
  do 6 (split; [reflexivity|]).
  split.
  { unfold persists_artifacts. rewrite orb_true_iff, !bool_decide_eq_true. tauto. }
  split.
  - intros k. rewrite _get_agent_input_refines. unfold input_from_dependencies.
    intros Hk.
    assert (∀ deps (acc : Artifact),
              is_Some (foldl (merge_artifact (results state)) acc deps !! k) →
              is_Some (acc !! k)
              ∨ ∃ upstream artifact, upstream ∈ deps
                  ∧ results state !! upstream = Some artifact ∧ is_Some (artifact !! k))
      as Hfold.
    { induction deps as [|d deps IH]; intros acc Hacc; [by left|].
      cbn [foldl] in Hacc. destruct (IH _ Hacc) as [Hin|(u & art & Hu & Hres & Hart)].
      - unfold merge_artifact in Hin.
        destruct (results state !! d) as [art|] eqn:Hd; [|by left].
        unfold dict_update in Hin. apply lookup_union_is_Some in Hin as [Hin|Hin];
          [right; exists d, art; split_and!; [left|done..] | by left].
      - right. exists u, art. split_and!; [by right|done..]. }
    destruct (persists_artifacts agent_id) eqn:Hp.
    + destruct (decide (k = "output_path")) as [->|Hne]; [by right; left|].
      rewrite lookup_insert_ne in Hk by done.
      destruct (Hfold _ _ Hk) as [Hin|Hin]; [|by right; right].
      left. destruct (decide (k = "url")) as [->|Hne']; [done|].
      rewrite lookup_singleton_ne in Hin by done. by destruct Hin.
    + destruct (Hfold _ _ Hk) as [Hin|Hin]; [|by right; right].
      left. destruct (decide (k = "url")) as [->|Hne']; [done|].
      rewrite lookup_singleton_ne in Hin by done. by destruct Hin.
  - intros state' Hurl Hout Hres. rewrite !_get_agent_input_refines.
    unfold input_from_dependencies. rewrite Hurl, Hout.
    assert (∀ deps (acc : Artifact),
              (∀ upstream, upstream ∈ deps →
                           results state' !! upstream = results state !! upstream) →
              foldl (merge_artifact (results state')) acc deps
              = foldl (merge_artifact (results state)) acc deps) as Hfold.
    { induction deps as [|d deps IH]; intros acc Hdeps; [done|].
      cbn [foldl]. unfold merge_artifact at 2 4. rewrite (Hdeps d) by left.
      apply IH. intros u Hu. apply Hdeps. by right. }
    by rewrite (Hfold _ _ Hres).
Qed.

(** C9.  A run starts with a quality score of 0.  When the gate stage
    returns, its handler returns too and leaves [quality_score] equal to the
    score the result reports (to [result.get("quality_score", 1.0)] in
    general); if the result reports a true [passed], the handler sets the
    status to "completed". *)
Theorem quality_gate_sets_score (time_time : nat → Q)
    (process_sync : nat → string → Artifact → res Artifact)
    (self : WorkflowOrchestrator) (agent : BaseAgent) (m : Machine)
    (url output_dir : string) (result : Artifact) (score : value) :
  stage_outcome time_time process_sync "validation_6" agent m = Ok result →
  result !! "quality_score" = Some score →
  quality_score (initial_state url output_dir) = VFloat 0
  ∧ ∃ m', handler time_time process_sync self "validation_6" agent m = (Returned, m')
          ∧ quality_score (st m') = score
          ∧ quality_score (st m') = dict_get result "quality_score" (VFloat 1)
          ∧ (truthy (dict_get result "passed" (VBool false)) = true →
             status (st m') = "completed").
Proof.
  intros Hout Hscore. split; [done|].
  destruct (handler_returns time_time process_sync self _ _ _ _ Hout) as (m' & Hh & Hst).
  exists m'. split; [done|]. rewrite Hst.
  rewrite quality_score_agent_succeeded, status_agent_succeeded. eval_ids.
  split_and!.
  - unfold dict_get. by rewrite Hscore.
  - done.
  - by intros ->.
Qed.

Lemma quality_gate_sets_score_witness :
  ∃ m', handler ticking gate_accepts (orchestrator_of default_configs) "validation_6"
                plain_validation_agent (start_of_run "https://example.com" "generated/1")
        = (Returned, m')
        ∧ quality_score (st m') = VFloat 95
        ∧ status (st m') = "completed".
Proof.
  destruct (quality_gate_sets_score ticking gate_accepts (orchestrator_of default_configs)
              plain_validation_agent (start_of_run "https://example.com" "generated/1")
              "https://example.com" "generated/1"
              (<["passed" := VBool true]> (<["quality_score" := VFloat 95]> ∅))
              (VFloat 95) eq_refl eq_refl)
    as (_ & m' & Hh & Hq & _ & Hs).
  exists m'. split; [exact Hh|]. split; [exact Hq|]. apply Hs. reflexivity.
Defined.

(** ** Artifacts and run states of a whole run *)

(** The callback calls a handler makes: the start of its stage on the
    state right after entry, then its completion or its failure on the
    state the handler leaves. *)
Lemma handler_calls_made (time_time : nat → Q)
    (process_sync : nat → string → Artifact → res Artifact) (self : WorkflowOrchestrator)
    agent_id agent m sig m' ev :
  handler time_time process_sync self agent_id agent m = (sig, m') →
  ev ∈ emitted m' →
  ev ∈ emitted m
  ∨ ev = mkEmitted "agent_started" (Some agent_id)
                   (enter_agent agent_id agent (time_time (clock m)) (st m))
  ∨ (sig = Returned ∧ ev = mkEmitted "agent_completed" (Some agent_id) (st m'))
  ∨ ((∃ e, sig = Raised e) ∧ ev = mkEmitted "agent_failed" (Some agent_id) (st m')).
Proof.
  unfold handler. cbn [read_clock with_st st clock calls emitted].
  destruct (process_sync _ _ _); intros Hh; simplify_eq; rewrite !st_emit;
    unfold emit; destruct (self_status_callback self);
    cbn [with_st st clock calls emitted]; rewrite ?elem_of_app;
    rewrite ?list_elem_of_singleton; naive_solver.
Qed.

Lemma recorded_as_completed state agent_id artifact :
  results_recorded state → all_completed state →
  results state !! agent_id = Some artifact →
  recorded_as "completed" state agent_id artifact.
Proof.
  intros Hrec Hall Hres. destruct (Hrec _ _ Hres) as (a & Ha & Har).
  exists a. split; [done|]. split; [done|]. by eapply Hall.
Qed.

(** Right after entry every stage but the one entered is completed, and
    that one is running. *)
Lemma results_at_entry agent_id agent now state :
  results_recorded state → all_completed state →
  results_completed_at_call
    (mkEmitted "agent_started" (Some agent_id) (enter_agent agent_id agent now state)).
Proof.
  intros Hrec Hall other artifact. cbn [ev_state ev_event ev_agent_id].
  rewrite results_enter_agent. intros Hres.
  destruct (Hrec _ _ Hres) as (a & Ha & Har).
  destruct (decide (other = agent_id)) as [->|Hne].
  - right. split; [done|]. split; [by unfold enter_agent; destruct (agents _ !! _)|].
    left. split; [done|]. eexists. rewrite agents_enter_agent, Ha. by split_and!.
  - left. exists a. rewrite agents_enter_agent_ne by done. split_and!; [done..|].
    by eapply Hall.
Qed.

(** After a failure every stage but the one that raised is completed, and
    that one is failed. *)
Lemma results_at_failure agent_id agent e now now' now0 state :
  results_recorded state → all_completed state →
  ∀ other artifact,
    results (agent_failed agent_id agent e now now'
               (enter_agent agent_id agent now0 state)) !! other = Some artifact →
    ∃ a, agents (agent_failed agent_id agent e now now'
                   (enter_agent agent_id agent now0 state)) !! other = Some a
         ∧ a_result a = Some artifact
         ∧ (a_status a = "completed" ∨ other = agent_id ∧ a_status a = "failed").
Proof.
  intros Hrec Hall other artifact. rewrite results_agent_failed, results_enter_agent.
  intros Hres. destruct (Hrec _ _ Hres) as (a & Ha & Har).
  destruct (decide (other = agent_id)) as [->|Hne].
  - eexists. rewrite agents_agent_failed, lookup_alter_eq, agents_enter_agent, Ha.
    split; [done|]. split; [done|]. by right.
  - exists a. rewrite failed_other by done. split_and!; [done..|].
    left. by eapply Hall.
Qed.

Lemma current_agent_id_agent_failed agent_id agent e now now' now0 state :
  current_agent_id (agent_failed agent_id agent e now now'
                      (enter_agent agent_id agent now0 state)) = Some agent_id.
Proof.
  unfold agent_failed, enter_agent. case_match; by destruct (agents _ !! _).
Qed.

(** C5, as stated, fails.  The gate rejects the first synthesis and the retry
    of the synthesis stage raises: in the state handed to the callback when
    the retry starts the synthesizer is "running", in the state the run
    returns it is "failed", and in both its first artifact is still in
    [results]. *)
Lemma stale_artifact_after_failed_retry :
  ∃ m during,
    run_workflow ticking retry_raises (orchestrator_of default_configs) 13
                 "https://example.com" "1" = Some m
    ∧ is_Some (results (st m) !! "component_synthesizer_5")
    ∧ a_status <$> agents (st m) !! "component_synthesizer_5" = Some "failed"
    ∧ ¬ results_completed (st m)
    ∧ observed m !! 12 = Some during
    ∧ is_Some (results during !! "component_synthesizer_5")
    ∧ a_status <$> agents during !! "component_synthesizer_5" = Some "running"
    ∧ ¬ results_completed during.
Proof.
  assert ((λ m, (bool_decide (is_Some (results (st m) !! "component_synthesizer_5")),
                 a_status <$> agents (st m) !! "component_synthesizer_5",
                 (λ during,
                    (bool_decide (is_Some (results during !! "component_synthesizer_5")),
                     a_status <$> agents during !! "component_synthesizer_5"))
                 <$> observed m !! 12))
          <$> run_workflow ticking retry_raises (orchestrator_of default_configs) 13
                           "https://example.com" "1"
          = Some (true, Some "failed", Some (true, Some "running"))) as Hrun
      by (vm_compute; reflexivity).
  destruct (run_workflow ticking retry_raises (orchestrator_of default_configs) 13
                         "https://example.com" "1") as [m|]; [|discriminate Hrun].
  cbn [fmap option_fmap option_map] in Hrun.
  injection Hrun as Hres Hfailed Hduring.
  destruct (observed m !! 12) as [during|] eqn:Hobs; [|discriminate Hduring].
  cbn [fmap option_fmap option_map] in Hduring.
  injection Hduring as Hres' Hrunning.
  apply bool_decide_eq_true in Hres, Hres'.
  exists m, during.
  split_and!;
    [reflexivity | exact Hres | exact Hfailed | | exact Hobs | exact Hres' | exact Hrunning | ].
  - intros Hall. destruct (Hall _ Hres) as (a & Ha & Hs).
    rewrite Ha in Hfailed. cbn in Hfailed. congruence.
  - intros Hall. destruct (Hall _ Hres') as (a & Ha & Hs).
    rewrite Ha in Hrunning. cbn in Hrunning. congruence.
Qed.

(** C5, amended.  For every orchestrator, clock and sequence of stage
    outcomes: in the state a run returns and in the state of every callback
    call made during the run, every stage id that is a key of [results] has
    an entry in [agents] whose [result] is that same artifact, and the
    status of that entry is "completed", with these exceptions only.  In the
    state of a callback call the stage the call is about, which is the
    [current_agent_id] of that state, is "running" when the call announces
    its start and "failed" when it announces its failure.  In the returned
    state the stage whose exception ended the run, which is the stage of the
    first entry of [errors], is "failed".  In particular every key of
    [results] is completed in the state returned by a run whose [errors]
    are empty. *)
Theorem results_match_run_states (time_time : nat → Q)
    (process_sync : nat → string → Artifact → res Artifact)
    (self : WorkflowOrchestrator) (fuel : nat) (url run_dir : string) (m : Machine) :
  run_workflow time_time process_sync self fuel url run_dir = Some m →
  results_completed_at_return (st m)
  ∧ Forall results_completed_at_call (emitted m)
  ∧ (errors (st m) = [] → results_completed (st m)).
Proof.
  intros Hm.
  set (P := λ m : Machine,
         errors (st m) = [] ∧ results_recorded (st m) ∧ all_completed (st m)
         ∧ ∀ ev, ev ∈ emitted m → results_completed_at_call ev).
  set (Q := λ m : Machine,
         (∀ ev, ev ∈ emitted m → results_completed_at_call ev)
         ∧ ((errors (st m) = [] ∧ results_recorded (st m) ∧ all_completed (st m))
            ∨ ∃ entry, errors (st m) = [entry]
                ∧ ∀ agent_id artifact,
                    results (st m) !! agent_id = Some artifact →
                    ∃ a, agents (st m) !! agent_id = Some a
                         ∧ a_result a = Some artifact
                         ∧ (a_status a = "completed"
                            ∨ agent_id = e_agent_id entry ∧ a_status a = "failed"))).
  assert (∀ m, P m → Q m) as HPQ by (intros ? (? & ? & ? & ?); split; auto).
  assert (∀ sig final,
            match sig with Returned => P final | Raised _ => Q final end →
            m = match sig with
                | Returned => with_st derive_status final
                | Raised e => orchestrator_failed time_time e
                                (initial_state url (os_path_join (self_output_dir self) run_dir))
                                final
                end →
            results_completed_at_return (st m)
            ∧ Forall results_completed_at_call (emitted m)
            ∧ (errors (st m) = [] → results_completed (st m))) as Hfinish.
  { intros sig final Hinv ->.
    assert (agents (derive_status (st final)) = agents (st final)
            ∧ results (derive_status (st final)) = results (st final)
            ∧ errors (derive_status (st final)) = errors (st final)) as (Ha & Hr & He)
        by (unfold derive_status; by repeat case_match).
    destruct sig as [|e].
    - destruct Hinv as (Herr & Hrec & Hall & Hcalls). cbn [with_st st emitted].
      assert (∀ agent_id artifact,
                results (derive_status (st final)) !! agent_id = Some artifact →
                recorded_as "completed" (derive_status (st final)) agent_id artifact)
        as Hdone.
      { intros agent_id artifact. rewrite Hr. intros Hres.
        destruct (recorded_as_completed _ _ _ Hrec Hall Hres) as (a & ? & ? & ?).
        exists a. by rewrite Ha. }
      split; [intros agent_id artifact Hres; left; by apply Hdone|].
      split; [by apply Forall_forall|].
      intros _ agent_id [artifact Hres].
      destruct (Hdone _ _ Hres) as (a & ? & _ & ?). eauto.
    - destruct Hinv as (Hcalls & Hstate).
      destruct (run_of_orchestrator_failed time_time e
                  (initial_state url (os_path_join (self_output_dir self) run_dir)) final)
        as (_ & _ & Hem).
      rewrite Hem. split; [|split; [by apply Forall_forall|]].
      + intros agent_id artifact.
        rewrite results_orchestrator_failed, errors_orchestrator_failed.
        unfold recorded_as. rewrite agents_orchestrator_failed. intros Hres.
        destruct Hstate as [(Herr & Hrec & Hall)|(entry & Herr & Hkeys)].
        * left. by apply recorded_as_completed.
        * destruct (Hkeys _ _ Hres) as (a & Ha' & Har & [Hs|[-> Hs]]).
          -- left. eauto.
          -- right. rewrite Herr. split; [eauto|done].
      + rewrite errors_orchestrator_failed. intros Hnil.
        by apply app_nil in Hnil as [_ ?]. }
  assert (P (start_of_run url (os_path_join (self_output_dir self) run_dir))) as H0.
  { split; [done|]. split; [|split].
    - intros agent_id artifact. cbn. by rewrite lookup_empty.
    - intros agent_id a. cbn. by rewrite lookup_empty.
    - intros ev Hev. cbn in Hev. by apply elem_of_nil in Hev. }
  revert Hm. unfold run_workflow.
  fold (start_of_run url (os_path_join (self_output_dir self) run_dir)).
  destruct (entry_point _) as [entry|].
  2: { intros; simplify_eq.
       apply (Hfinish (Raised "Graph must have an entrypoint")
                      (start_of_run url (os_path_join (self_output_dir self) run_dir)));
         [by apply HPQ|done]. }
  destruct (invoke_from _ _ _ _ _ _ _) as [[sig final]|] eqn:Hrun; [|done].
  intros Hm. apply (Hfinish sig final); [|by destruct sig; simplify_eq].
  refine (invoke_from_invariant time_time process_sync self P Q _ _ HPQ
            fuel _ entry _ sig final H0 Hrun).
  - intros [agent_id agent|] m0 m1 (Herr & Hrec & Hall & Hcalls) Hnode; cbn [run_node] in Hnode.
    + destruct (handler_cases time_time process_sync self agent_id agent m0)
        as [(result & m2 & _ & Hh & Hst)|(e & m2 & _ & Hh & _)];
        rewrite Hh in Hnode; simplify_eq.
      assert (results_recorded (st m1)) as Hrec1.
      { rewrite Hst. apply results_recorded_succeeded; [rewrite agents_enter_agent; eauto|].
        by apply results_recorded_enter. }
      assert (all_completed (st m1)) as Hall1
          by (rewrite Hst; by apply all_completed_succeeded).
      split; [by rewrite Hst, errors_agent_succeeded, errors_enter_agent|].
      split; [done|]. split; [done|].
      intros ev Hev.
      destruct (handler_calls_made _ _ _ _ _ _ _ _ _ Hh Hev)
        as [Hold|[->|[[_ ->]|[[e ?] _]]]]; [by apply Hcalls| | |done].
      * by apply results_at_entry.
      * intros other artifact Hres. left. by apply recorded_as_completed.
    + unfold end_handler in Hnode. simplify_eq. unfold P. rewrite st_emit.
      split; [done|]. split; [done|]. split; [done|].
      intros ev. unfold emit. destruct (self_status_callback self); [|by apply Hcalls].
      cbn [emitted]. rewrite elem_of_app, list_elem_of_singleton.
      intros [Hold| ->]; [by apply Hcalls|].
      intros other artifact Hres. left. by apply recorded_as_completed.
  - intros [agent_id agent|] m0 e m1 (Herr & Hrec & Hall & Hcalls) Hnode;
      cbn [run_node] in Hnode; [|by unfold end_handler in Hnode].
    destruct (handler_cases time_time process_sync self agent_id agent m0)
      as [(result & m2 & _ & Hh & _)|(e' & m2 & _ & Hh & Hst)];
      rewrite Hh in Hnode; simplify_eq.
    pose proof (results_at_failure agent_id agent e (time_time (S (clock m0)))
                  (time_time (S (S (clock m0)))) (time_time (clock m0)) (st m0) Hrec Hall)
      as Hkeys.
    rewrite <- Hst in Hkeys. split.
    + intros ev Hev.
      destruct (handler_calls_made _ _ _ _ _ _ _ _ _ Hh Hev)
        as [Hold|[->|[[? _]|[_ ->]]]]; [by apply Hcalls| |done|].
      * by apply results_at_entry.
      * intros other artifact Hres. cbn [ev_state ev_event ev_agent_id] in *.
        destruct (Hkeys _ _ Hres) as (a & Ha & Har & [Hs|[-> Hs]]).
        -- left. by exists a.
        -- right. split; [done|].
           split; [rewrite Hst; apply current_agent_id_agent_failed|].
           right. split; [done|]. by exists a.
    + right. eexists. split.
      * rewrite Hst, errors_agent_failed, errors_enter_agent, Herr. reflexivity.
      * exact Hkeys.
Qed.

Lemma results_match_run_states_witness :
  match run_workflow ticking retry_raises (orchestrator_of default_configs) 13
                     "https://example.com" "1" with
  | Some m =>
      results_completed_at_return (st m)
      ∧ Forall results_completed_at_call (emitted m)
      ∧ (errors (st m) = [] → results_completed (st m))
  | None => False
  end.
Proof.
  assert (is_Some (run_workflow ticking retry_raises (orchestrator_of default_configs) 13
                                "https://example.com" "1")) as [m Hrun].
  { assert ((λ _, true)
            <$> run_workflow ticking retry_raises (orchestrator_of default_configs) 13
                             "https://example.com" "1" = Some true) as H
        by (vm_compute; reflexivity).
    destruct (run_workflow _ _ _ _ _ _); [eauto|discriminate H]. }
  rewrite Hrun. exact (results_match_run_states _ _ _ _ _ _ _ Hrun).
Defined.

(** ** Runs against a gate that always rejects *)

(** C2, evaluated.  Whatever number [n] of retries is configured for the
    synthesis stage, a run whose gate reports [passed=False] on every attempt
    returns after exactly four executions of the synthesis stage (twelve
    stage calls in all); with [n = 1] that is four executions where the
    claim expects two.  Nor does the run end with status "failed": what the
    router assigns to the status is not kept, so the end node sees the status
    "running" and announces "workflow_failed", and [run_workflow], finding no
    failed stage and no error, returns the status "completed". *)
Theorem rejecting_gate_four_syntheses (n : nat) :
  c_max_retries <$> configs_with_synthesis_budget n !! 4 = Some n
  ∧ ∃ m, run_workflow ticking gate_rejects
                      (orchestrator_of (configs_with_synthesis_budget n)) 13
                      "https://example.com" "1" = Some m
         ∧ started "component_synthesizer_5" m = 4
         ∧ calls m = 12
         ∧ status (st m) = "completed"
         ∧ errors (st m) = []
         ∧ (λ ev, (ev_event ev, status (ev_state ev))) <$> last (emitted m)
           = Some ("workflow_failed", "running").
Proof.
  split; [reflexivity|].
  assert ((λ m, (started "component_synthesizer_5" m, calls m, status (st m),
                 errors (st m),
                 (λ ev, (ev_event ev, status (ev_state ev))) <$> last (emitted m)))
          <$> run_workflow ticking gate_rejects
                           (orchestrator_of (configs_with_synthesis_budget n)) 13
                           "https://example.com" "1"
          = Some (4, 12, "completed", [], Some ("workflow_failed", "running"))) as Hrun
      by (vm_compute; reflexivity).
  destruct (run_workflow _ _ _ _ _ _) as [m|]; [|discriminate Hrun].
  injection Hrun as Hn Hc Hs He Hl. by exists m.
Qed.

(** C4, evaluated.  In the same run the retry counts recorded for the
    synthesis stage and for the gate both reach 3, whatever number [n] of
    retries is configured for the synthesis stage: 3 exceeds [n + 1] as soon
    as [n] is below 2. *)
Theorem rejecting_gate_retry_counts (n : nat) :
  c_max_retries <$> configs_with_synthesis_budget n !! 4 = Some n
  ∧ ∃ m, run_workflow ticking gate_rejects
                      (orchestrator_of (configs_with_synthesis_budget n)) 13
                      "https://example.com" "1" = Some m
         ∧ retry_count_of "component_synthesizer_5" (st m) = 3
         ∧ retry_count_of "validation_6" (st m) = 3
         ∧ (n < 2 → ¬ retry_count_of "component_synthesizer_5" (st m) ≤ n + 1).
Proof.
  split; [reflexivity|].
  assert ((λ m, (retry_count_of "component_synthesizer_5" (st m),
                 retry_count_of "validation_6" (st m)))
          <$> run_workflow ticking gate_rejects
                           (orchestrator_of (configs_with_synthesis_budget n)) 13
                           "https://example.com" "1"
          = Some (3, 3)) as Hrun by (vm_compute; reflexivity).
  destruct (run_workflow _ _ _ _ _ _) as [m|]; [|discriminate Hrun].
  injection Hrun as Hs Hv. exists m. split_and!; [done..|]. rewrite Hs. lia.
Qed.

(** ** The task table of the service *)

(** C7, as stated, fails.  A task whose run was ended by the exception of
    its first stage is terminal (failed) and its response is stored, yet
    [get_task_result] returns nothing for it. *)
Lemma failed_task_has_no_result :
  ∃ t r, tasks_after_raising_run !! "task-1" = Some t
         ∧ t_status t = "failed"
         ∧ t_result t = Some r
         ∧ r_status r = "error"
         ∧ get_task_result "task-1" tasks_after_raising_run = None.
Proof.
  assert ((λ t, (t_status t, r_status <$> t_result t))
          <$> tasks_after_raising_run !! "task-1" = Some ("failed", Some "error")) as Ht
      by (vm_compute; reflexivity).
  unfold get_task_result.
  destruct (tasks_after_raising_run !! "task-1") as [t|]; [|discriminate Ht].
  injection Ht as Hs Hr. destruct (t_result t) as [r|] eqn:Hres; [|discriminate Hr].
  injection Hr as Hr. exists t, r. split_and!; [done..|].
  rewrite Hs. by eval_ids.
Qed.

(** C7, amended.  [get_task_result] returns nothing for an unknown task id
    and for a known task unless its status is "completed" and a response is
    stored, and then it returns the stored response: it returns nothing for
    a task just created (pending) and for a started one (running), and once
    the run has finished it returns the stored response exactly when the
    response reports success (the task is completed), and nothing when the
    task failed. *)
Theorem get_task_result_when_completed (task_id url : string) (now : Q)
    (active_tasks : gmap string Task) :
  (get_task_result task_id active_tasks = None
   ↔ active_tasks !! task_id = None
     ∨ ∃ t, active_tasks !! task_id = Some t
            ∧ (t_status t ≠ "completed" ∨ t_result t = None))
  ∧ (∀ r, get_task_result task_id active_tasks = Some r ↔
          ∃ t, active_tasks !! task_id = Some t
               ∧ t_status t = "completed" ∧ t_result t = Some r)
  ∧ get_task_result task_id (clone_website task_id url now active_tasks) = None
  ∧ get_task_result task_id
      (task_started task_id (clone_website task_id url now active_tasks)) = None
  ∧ (∀ r, get_task_result task_id
            (task_finished task_id (Ok r)
               (task_started task_id (clone_website task_id url now active_tasks)))
          = if bool_decide (r_status r = "success") then Some r else None)
  ∧ (∀ e, get_task_result task_id
            (task_finished task_id (Raise e)
               (task_started task_id (clone_website task_id url now active_tasks)))
          = None).
Proof.
  assert (∀ t : Task,
            (if negb (bool_decide (t_status t = "completed"))
                || negb (bool_decide (is_Some (t_result t)))
             then None else t_result t)
            = (if bool_decide (t_status t = "completed") then t_result t else None))
    as Hget.
  { intros t. case_bool_decide; cbn; [|done].
    destruct (t_result t); [by rewrite bool_decide_eq_true_2 by eauto|].
    by rewrite bool_decide_eq_false_2 by (by intros [? ?]). }
  split_and!.
  - unfold get_task_result. destruct (active_tasks !! task_id) as [t|]; [|naive_solver].
    rewrite Hget. case_bool_decide; naive_solver.
  - intros r. unfold get_task_result. destruct (active_tasks !! task_id) as [t|];
      [|naive_solver].
    rewrite Hget. case_bool_decide; naive_solver.
  - unfold get_task_result, clone_website. by rewrite lookup_insert_eq.
  - unfold get_task_result, task_started, clone_website.
    by rewrite lookup_alter_eq, lookup_insert_eq.
  - intros r. unfold get_task_result, task_finished, task_started, clone_website.
    rewrite !lookup_alter_eq, lookup_insert_eq.
    cbn [fmap option_fmap option_map]. rewrite Hget. cbn [t_status t_result].
    by destruct (bool_decide (r_status r = "success")); eval_ids.
  - intros e. unfold get_task_result, task_finished, task_started, clone_website.
    rewrite !lookup_alter_eq, lookup_insert_eq.
    cbn [fmap option_fmap option_map]. rewrite Hget. cbn [t_status t_result].
    by eval_ids.
Qed.

(** * Further facts about the orchestrator *)

Section RunFacts.

Variable time_time : nat → Q.
Variable process_sync : nat → string → Artifact → res Artifact.
Variable self : WorkflowOrchestrator.

(** Each visit of an agent node is one stage call and, with the two
    readings of entry and exit, two or three readings of the clock. *)
Lemma handler_calls agent_id agent m sig m' :
  handler time_time process_sync self agent_id agent m = (sig, m') →
  calls m' = S (calls m).
Proof.
  unfold handler. cbn [read_clock with_st st clock calls emitted].
  rewrite calls_emit. cbn [calls].
  destruct (process_sync _ _ _); intros; simplify_eq;
    by rewrite calls_emit.
Qed.

Lemma handler_clock agent_id agent m sig m' :
  handler time_time process_sync self agent_id agent m = (sig, m') →
  clock m' = match sig with Returned => 2 + clock m | Raised _ => 3 + clock m end.
Proof.
  unfold handler. cbn [read_clock with_st st clock calls emitted].
  destruct (process_sync _ _ _); intros; simplify_eq;
    by rewrite !clock_emit.
Qed.

Lemma current_agent_id_enter agent_id agent now state :
  current_agent_id (enter_agent agent_id agent now state) = Some agent_id.
Proof. unfold enter_agent. cbn. by destruct (agents state !! agent_id). Qed.

Lemma current_agent_id_failed agent_id agent e now now' state :
  current_agent_id (agent_failed agent_id agent e now now' state) = current_agent_id state.
Proof. unfold agent_failed. by case_match. Qed.

Lemma current_agent_id_succeeded agent_id result now state :
  current_agent_id (agent_succeeded agent_id result now state) = current_agent_id state.
Proof. unfold agent_succeeded. by repeat case_match. Qed.

Lemma url_enter agent_id agent now state :
  url (enter_agent agent_id agent now state) = url state.
Proof. unfold enter_agent. by destruct (agents _ !! agent_id). Qed.

Lemma url_succeeded agent_id result now state :
  url (agent_succeeded agent_id result now state) = url state.
Proof. unfold agent_succeeded. by repeat case_match. Qed.

Lemma url_failed agent_id agent e now now' state :
  url (agent_failed agent_id agent e now now' state) = url state.
Proof. unfold agent_failed. by case_match. Qed.

Lemma output_path_enter agent_id agent now state :
  output_path (enter_agent agent_id agent now state) = output_path state.
Proof. unfold enter_agent. by destruct (agents _ !! agent_id). Qed.

Lemma output_path_failed agent_id agent e now now' state :
  output_path (agent_failed agent_id agent e now now' state) = output_path state.
Proof. unfold agent_failed. by case_match. Qed.

Lemma output_path_succeeded agent_id result now state :
  output_path (agent_succeeded agent_id result now state)
  = if bool_decide (agent_id = "component_synthesizer_5")
    then dict_get result "output_path" (output_path state)
    else output_path state.
Proof. unfold agent_succeeded. by repeat case_match. Qed.


(** ** What a run leaves in [errors] *)

(** Between visits no error has been recorded; an exception leaves either
    nothing (it came from the router) or the one entry of the stage that
    raised, which is then the current agent and is recorded as failed. *)
Lemma run_node_no_errors body m m' :
  errors (st m) = [] →
  run_node time_time process_sync self body m = (Returned, m') →
  errors (st m') = [].
Proof.
  intros Herr Hnode. destruct body as [agent_id agent|]; cbn [run_node] in Hnode.
  - destruct (handler_cases time_time process_sync self agent_id agent m)
      as [(result & m1 & _ & Hh & Hst)|(e & m1 & _ & Hh & Hst)];
      rewrite Hh in Hnode; simplify_eq.
    by rewrite Hst, errors_agent_succeeded, errors_enter_agent.
  - unfold end_handler in Hnode; simplify_eq. by rewrite st_emit.
Qed.

Lemma run_node_raised_entry body m e m' :
  errors (st m) = [] →
  run_node time_time process_sync self body m = (Raised e, m') →
  ∃ agent_id agent_name t a,
    errors (st m') = [mkErrorEntry agent_id agent_name e t]
    ∧ current_agent_id (st m') = Some agent_id
    ∧ agents (st m') !! agent_id = Some a
    ∧ a_status a = "failed" ∧ a_error a = Some e.
Proof.
  intros Herr Hnode. destruct body as [agent_id agent|]; cbn [run_node] in Hnode;
    [|by unfold end_handler in Hnode].
  destruct (handler_cases time_time process_sync self agent_id agent m)
    as [(result & m1 & _ & Hh & Hst)|(e' & m1 & _ & Hh & Hst)];
    rewrite Hh in Hnode; simplify_eq.
  exists agent_id, (id agent), (time_time (S (S (clock m)))).
  rewrite Hst, errors_agent_failed, errors_enter_agent, Herr,
    current_agent_id_failed, current_agent_id_enter, agents_agent_failed,
    lookup_alter_eq, agents_enter_agent.
  eexists. split_and!; [done..| |]; by destruct (agents (st m) !! agent_id).
Qed.

(** The invariant principle of a traversal, with the exception in view. *)
Lemma invoke_from_invariant_exn (P : Machine → Prop) (Q : string → Machine → Prop) :
  (∀ body m m', P m → run_node time_time process_sync self body m = (Returned, m') → P m') →
  (∀ body m e m',
      P m → run_node time_time process_sync self body m = (Raised e, m') → Q e m') →
  (∀ m e, P m → Q e m) →
  ∀ fuel g node m sig m',
    P m → invoke_from time_time process_sync self fuel g node m = Some (sig, m') →
    match sig with Returned => P m' | Raised e => Q e m' end.
Proof.
  intros Hret Hraise HPQ fuel.
  induction fuel as [|fuel IH]; intros g node m sig m' HP Hrun; [done|].
  cbn [invoke_from] in Hrun.
  destruct (assoc node (nodes g)) as [body|]; [|done].
  destruct (run_node _ _ _ body m) as [[|e] m1] eqn:Hnode.
  - pose proof (Hret _ _ _ HP Hnode) as HP1.
    destruct (assoc node (conditional_edges g)) as [table|].
    + destruct (_validation_router (st m1)) as [[route|e] state'] eqn:Hr.
      * destruct (assoc route table) as [target|].
        -- destruct (plain_targets g node ++ [target]) as [|t1 [|t2 ts]];
             simplify_eq; [done | by eapply IH].
        -- simplify_eq. by apply HPQ.
      * simplify_eq. by apply HPQ.
    + destruct (plain_targets g node) as [|t1 [|t2 ts]];
        simplify_eq; [done | by eapply IH].
  - simplify_eq. eauto.
Qed.

(** A node that returns leaves the status as it was or sets it to
    "completed": only the failure branch of a handler assigns "failed", and
    it raises. *)
Lemma run_node_returned_status body m m' :
  run_node time_time process_sync self body m = (Returned, m') →
  status (st m') = status (st m) ∨ status (st m') = "completed".
Proof.
  destruct body as [agent_id agent|]; cbn [run_node].
  - destruct (handler_cases time_time process_sync self agent_id agent m)
      as [(result & m1 & _ & -> & Hst)|(e & m1 & _ & -> & Hst)];
      intros; simplify_eq. rewrite Hst, status_agent_succeeded, status_enter_agent.
    case_match; auto.
  - unfold end_handler. intros; simplify_eq. rewrite st_emit. auto.
Qed.

Lemma any_agent_failed_completed state :
  all_completed state → any_agent_failed state = false.
Proof.
  intros Hall. unfold any_agent_failed. apply bool_decide_eq_false_2.
  intros (agent_id & a & Ha & Hfailed). by rewrite (Hall _ _ Ha) in Hfailed.
Qed.

(** A traversal that returns has recorded no error and no failed stage, and
    leaves the status "running" or "completed": [run_workflow] then returns
    "completed". *)
Lemma invoke_from_returned fuel g node m m' :
  errors (st m) = [] → all_completed (st m) → status (st m) = "running" →
  invoke_from time_time process_sync self fuel g node m = Some (Returned, m') →
  errors (st m') = [] ∧ all_completed (st m')
  ∧ (status (st m') = "running" ∨ status (st m') = "completed")
  ∧ status (derive_status (st m')) = "completed".
Proof.
  intros Herr Hall Hs Hrun.
  assert (errors (st m') = [] ∧ all_completed (st m')
          ∧ (status (st m') = "running" ∨ status (st m') = "completed"))
    as (Herr' & Hall' & Hs').
  { refine (invoke_from_invariant_exn
              (λ m, errors (st m) = [] ∧ all_completed (st m)
                    ∧ (status (st m) = "running" ∨ status (st m) = "completed"))
              (λ _ _, True) _ _ _ fuel g node m Returned m' _ Hrun); [|done|done|auto].
    intros body m0 m1 (He0 & Ha0 & Hs0) Hnode.
    destruct (run_node_quiescent _ _ _ _ _ _ (conj Ha0 He0) Hnode) as [Ha1 He1].
    split; [done|]. split; [done|].
    destruct (run_node_returned_status _ _ _ Hnode) as [->|Hc]; auto. }
  split; [done|]. split; [done|]. split; [done|].
  rewrite status_derive_status, any_agent_failed_completed by done.
  destruct Hs' as [->| ->]; by eval_ids.
Qed.

(** X1.  A run ends in one of three ways.  No exception escaped the
    traversal: [errors] is empty and the status is "completed".  The
    exception came from compiling or routing: [errors] is the single
    orchestrator entry.  A stage raised: [errors] is the entry of that stage
    followed by the orchestrator entry with the same message, and the stage
    is recorded as failed with that message.  In the last two cases the
    status is "failed" and the returned dictionary is the initial one of the
    run: it has no current agent and the quality score 0. *)
Theorem errors_of_a_run fuel url run_dir m :
  run_workflow time_time process_sync self fuel url run_dir = Some m →
  (errors (st m) = [] ∧ status (st m) = "completed")
  ∨ (status (st m) = "failed"
     ∧ current_agent_id (st m) = None
     ∧ quality_score (st m) = VFloat 0
     ∧ ((∃ e t, errors (st m) = [mkErrorEntry "orchestrator" (VStr "Orchestrator") e t])
        ∨ (∃ agent_id agent_name e t t' a,
              errors (st m) = [mkErrorEntry agent_id agent_name e t;
                               mkErrorEntry "orchestrator" (VStr "Orchestrator") e t']
              ∧ agents (st m) !! agent_id = Some a
              ∧ a_status a = "failed" ∧ a_error a = Some e))).
Proof.
  unfold run_workflow.
  set (m0 := mkMachine (initial_state url (os_path_join (self_output_dir self) run_dir))
                       0 0 []).
  assert (all_completed (st m0)) as Hall0
      by (intros agent_id a; cbn; by rewrite lookup_empty).
  destruct (entry_point _) as [entry|].
  2: { intros; simplify_eq. right. split; [done|]. split; [done|]. split; [done|].
       left. rewrite errors_orchestrator_failed. cbn. eauto. }
  destruct (invoke_from _ _ _ _ _ _ _) as [[[|e] m1]|] eqn:Hrun; [| |done].
  - intros; simplify_eq. left. cbn [with_st st].
    destruct (invoke_from_returned fuel _ entry m0 m1 eq_refl Hall0 eq_refl Hrun)
      as (Herr & _ & _ & Hs).
    split; [|done].
    replace (errors (derive_status (st m1))) with (errors (st m1))
      by (unfold derive_status; by repeat case_match).
    done.
  - assert (errors (st m1) = []
            ∨ ∃ agent_id agent_name t a,
                errors (st m1) = [mkErrorEntry agent_id agent_name e t]
                ∧ agents (st m1) !! agent_id = Some a
                ∧ a_status a = "failed" ∧ a_error a = Some e) as Hraised.
    { refine (invoke_from_invariant_exn
                (λ m, errors (st m) = [])
                (λ e m, errors (st m) = []
                  ∨ ∃ agent_id agent_name t a,
                      errors (st m) = [mkErrorEntry agent_id agent_name e t]
                      ∧ agents (st m) !! agent_id = Some a
                      ∧ a_status a = "failed" ∧ a_error a = Some e)
                _ _ _ fuel _ entry m0 (Raised e) m1 _ Hrun); [| | |done].
      - apply run_node_no_errors.
      - intros body m' e' m'' HP Hnode. right.
        destruct (run_node_raised_entry _ _ _ _ HP Hnode)
          as (agent_id & agent_name & t & a & ? & _ & ?); eauto 10.
      - intros m' e' HP. by left. }
    intros; simplify_eq. right. split; [done|]. split; [done|]. split; [done|].
    rewrite errors_orchestrator_failed, agents_orchestrator_failed.
    destruct Hraised as [->|(agent_id & agent_name & t & a & -> & Ha & Hs & He)].
    + left. cbn. eauto.
    + right. exists agent_id, agent_name, e, t, (time_time (clock m1)), a.
      by split_and!.
Qed.

End RunFacts.

Lemma errors_of_a_run_witness :
  match run_workflow ticking retry_raises (orchestrator_of default_configs) 13
                     "https://example.com" "1" with
  | Some m =>
      length (errors (st m)) = 2
      ∧ ((errors (st m) = [] ∧ status (st m) = "completed")
         ∨ (status (st m) = "failed"
            ∧ current_agent_id (st m) = None
            ∧ quality_score (st m) = VFloat 0
            ∧ ((∃ e t, errors (st m)
                       = [mkErrorEntry "orchestrator" (VStr "Orchestrator") e t])
               ∨ (∃ agent_id agent_name e t t' a,
                     errors (st m)
                     = [mkErrorEntry agent_id agent_name e t;
                        mkErrorEntry "orchestrator" (VStr "Orchestrator") e t']
                     ∧ agents (st m) !! agent_id = Some a
                     ∧ a_status a = "failed" ∧ a_error a = Some e))))
  | None => False
  end.
Proof.
  assert ((λ m, length (errors (st m)))
          <$> run_workflow ticking retry_raises (orchestrator_of default_configs) 13
                           "https://example.com" "1"
          = Some 2) as Hlen by (vm_compute; reflexivity).
  destruct (run_workflow ticking retry_raises (orchestrator_of default_configs) 13
                         "https://example.com" "1") as [m|] eqn:Hrun;
    [|discriminate Hlen].
  injection Hlen as Hlen. split; [exact Hlen|].
  exact (errors_of_a_run _ _ _ _ _ _ _ Hrun).
Defined.

(** * Runs of the service pipeline *)

(** What the gate is handed under a key other than the url and the output
    path is what the synthesizer produced under it. *)
Lemma gate_input_lookup state r5 k :
  results state !! "component_synthesizer_5" = Some r5 →
  k ≠ "url" → k ≠ "output_path" →
  _get_agent_input "validation_6" state !! k = r5 !! k.
Proof.
  intros Hr5 Hurl Hpath. unfold _get_agent_input. eval_ids. cbn [andb].
  rewrite (bool_decide_eq_true_2 (is_Some (results state !! "component_synthesizer_5")))
    by (rewrite Hr5; eauto).
  rewrite lookup_insert_ne by done. unfold dict_update.
  rewrite lookup_union, lookup_total_alt, Hr5. cbn [default from_option Datatypes.id].
  rewrite lookup_singleton_ne by done. by destruct (r5 !! k).
Qed.

Section ServiceRuns.

Variable time_time : nat → Q.
Variable process_sync : nat → string → Artifact → res Artifact.
Variables a1 a2 a3 a4 a5 a6 : BaseAgent.
Variable base_dir : string.
Variable callback : bool.

Let self : WorkflowOrchestrator :=
  mkWorkflowOrchestrator (service_agents a1 a2 a3 a4 a5 a6) base_dir callback.
Let g : StateGraph := _build_workflow_graph self.

Local Abbreviation run_from := (invoke_from time_time process_sync self).
Local Abbreviation visit := (handler time_time process_sync self).

(** The visits of the six stages and of the end node, as in the section on
    the pipeline above. *)
Lemma at_scraper fuel m :
  run_from (S fuel) g "scraper_1" m
  = match visit "scraper_1" a1 m with
    | (Raised e, m1) => Some (Raised e, m1)
    | (Returned, m1) => run_from fuel g "semantic_parser_2" m1
    end.
Proof. apply visit_scraper. Qed.

Lemma at_parser fuel m :
  run_from (S fuel) g "semantic_parser_2" m
  = match visit "semantic_parser_2" a2 m with
    | (Raised e, m1) => Some (Raised e, m1)
    | (Returned, m1) => run_from fuel g "style_transfer_3" m1
    end.
Proof. apply visit_parser. Qed.

Lemma at_style fuel m :
  run_from (S fuel) g "style_transfer_3" m
  = match visit "style_transfer_3" a3 m with
    | (Raised e, m1) => Some (Raised e, m1)
    | (Returned, m1) => run_from fuel g "layout_generator_4" m1
    end.
Proof. apply visit_style. Qed.

Lemma at_layout fuel m :
  run_from (S fuel) g "layout_generator_4" m
  = match visit "layout_generator_4" a4 m with
    | (Raised e, m1) => Some (Raised e, m1)
    | (Returned, m1) => run_from fuel g "component_synthesizer_5" m1
    end.
Proof. apply visit_layout. Qed.

Lemma at_synthesizer fuel m :
  run_from (S fuel) g "component_synthesizer_5" m
  = match visit "component_synthesizer_5" a5 m with
    | (Raised e, m1) => Some (Raised e, m1)
    | (Returned, m1) => run_from fuel g "validation_6" m1
    end.
Proof. apply visit_synthesizer. Qed.


Lemma at_validation fuel m :
  run_from (S fuel) g "validation_6" m
  = match visit "validation_6" a6 m with
    | (Raised e, m1) => Some (Raised e, m1)
    | (Returned, m1) =>
        match _validation_router (st m1) with
        | (Raise e, _) => Some (Raised e, m1)
        | (Ok route, _) =>
            if bool_decide (route = "success") then run_from fuel g "end" m1
            else if bool_decide (route = "retry")
            then run_from fuel g "component_synthesizer_5" m1
            else Some (Raised route, m1)
        end
    end.
Proof. apply visit_validation. Qed.

Lemma run_workflow_unfold fuel url run_dir :
  run_workflow time_time process_sync self fuel url run_dir
  = match run_from fuel g "scraper_1"
            (start_of_run url (os_path_join base_dir run_dir)) with
    | None => None
    | Some (Returned, m) => Some (with_st derive_status m)
    | Some (Raised e, m) =>
        Some (orchestrator_failed time_time e
                (initial_state url (os_path_join base_dir run_dir)) m)
    end.
Proof. reflexivity. Qed.

(** X2.  A stage that raises is not retried.  When the scraper raises on
    its first call, the run makes that one stage call and no other, and
    returns with status "failed", no artifact, the scraper recorded as
    failed with retry count 0, and two errors: the scraper's and the
    orchestrator's. *)
Theorem raising_scraper_ends_the_run fuel url run_dir e :
  process_sync 0 "scraper_1" {[ "url" := VStr url ]} = Raise e →
  ∃ m, run_workflow time_time process_sync self (S fuel) url run_dir = Some m
       ∧ calls m = 1
       ∧ status (st m) = "failed"
       ∧ results (st m) = ∅
       ∧ agents (st m)
         = {[ "scraper_1" := mkAgentState "scraper_1" (id a1) "failed" (time_time 0)
                                          (Some (time_time 1)) None (Some e) 0 ]}
       ∧ errors (st m)
         = [ mkErrorEntry "scraper_1" (id a1) e (time_time 2);
             mkErrorEntry "orchestrator" (VStr "Orchestrator") e (time_time 3) ].
Proof.
  intros Hraise. rewrite run_workflow_unfold, at_scraper.
  set (m0 := start_of_run url (os_path_join base_dir run_dir)).
  assert (stage_outcome time_time process_sync "scraper_1" a1 m0 = Raise e) as Hout.
  { unfold stage_outcome, stage_input.
    rewrite _get_agent_input_unknown by set_solver. by rewrite url_enter. }
  destruct (handler_raises time_time process_sync self _ _ _ _ Hout) as (m1 & Hh & Hst).
  pose proof (handler_calls _ _ _ _ _ _ _ _ Hh) as Hcalls.
  pose proof (handler_clock _ _ _ _ _ _ _ _ Hh) as Hclock. cbn in Hclock.
  rewrite Hh. eexists. split; [reflexivity|].
  unfold orchestrator_failed, shared_with.
  cbn [read_clock with_st st clock calls emitted].
  rewrite Hst, Hclock, Hcalls.
  cbn [set_status set_errors set_agents set_results status results agents errors].
  split_and!; reflexivity.
Qed.

(** *** Runs in which no stage raises *)

Section UpstreamReturns.

(** Every stage before the gate returns. *)
Hypothesis upstream_return : ∀ n agent_id input_data,
  agent_id ≠ "validation_6" → ∃ result, process_sync n agent_id input_data = Ok result.

Lemma visit_returns agent_id agent m :
  (∀ n input_data, ∃ result, process_sync n agent_id input_data = Ok result) →
  ∃ result m',
    visit agent_id agent m = (Returned, m')
    ∧ stage_outcome time_time process_sync agent_id agent m = Ok result
    ∧ st m' = agent_succeeded agent_id result (time_time (S (clock m)))
                (enter_agent agent_id agent (time_time (clock m)) (st m))
    ∧ calls m' = S (calls m).
Proof.
  intros Hreturns.
  destruct (Hreturns (calls m) (stage_input time_time agent_id agent m))
    as [result Hout].
  destruct (handler_returns time_time process_sync self _ _ _ _ Hout) as (m' & Hh & Hst).
  exists result, m'. split_and!; [done..|]. by eapply handler_calls.
Qed.

(** The state after a stage other than the gate has returned. *)
Lemma visit_returns_plain agent_id agent m :
  agent_id ≠ "validation_6" →
  ∃ result m',
    visit agent_id agent m = (Returned, m')
    ∧ calls m' = S (calls m)
    ∧ errors (st m') = errors (st m)
    ∧ status (st m') = status (st m)
    ∧ quality_score (st m') = quality_score (st m)
    ∧ results (st m') = <[agent_id := result]> (results (st m))
    ∧ (all_completed (st m) → all_completed (st m'))
    ∧ (∀ ids, only_first_visits ids (st m) → agent_id ∉ ids →
              only_first_visits (agent_id :: ids) (st m')).
Proof.
  intros Hne.
  destruct (visit_returns agent_id agent m
              (λ n input_data, upstream_return n agent_id input_data Hne))
    as (result & m' & Hh & _ & Hst & Hc).
  exists result, m'. split_and!; [done..| | | | | |].
  - by rewrite Hst, errors_agent_succeeded, errors_enter_agent.
  - rewrite Hst, status_agent_succeeded, status_enter_agent.
    by rewrite (bool_decide_eq_false_2 (agent_id = _)).
  - rewrite Hst, quality_score_agent_succeeded.
    rewrite (bool_decide_eq_false_2 (agent_id = _)) by done.
    unfold enter_agent. by destruct (agents _ !! agent_id).
  - by rewrite Hst, results_agent_succeeded, results_enter_agent.
  - intros Hall. rewrite Hst. by apply all_completed_succeeded.
  - intros ids Hids Hnew. by eapply handler_first_visit.
Qed.

(** The four stages before the synthesizer, from the start of a run. *)
Lemma prefix_returns url output_dir :
  ∃ m4 r1 r2 r3 r4,
    (∀ fuel, run_from (4 + fuel) g "scraper_1" (start_of_run url output_dir)
             = run_from fuel g "component_synthesizer_5" m4)
    ∧ calls m4 = 4
    ∧ errors (st m4) = []
    ∧ status (st m4) = "running"
    ∧ results (st m4)
      = <["layout_generator_4" := r4]> (<["style_transfer_3" := r3]>
          (<["semantic_parser_2" := r2]> (<["scraper_1" := r1]> ∅)))
    ∧ all_completed (st m4)
    ∧ only_first_visits ["layout_generator_4"; "style_transfer_3";
                         "semantic_parser_2"; "scraper_1"] (st m4).
Proof.
  set (m0 := start_of_run url output_dir).
  assert (only_first_visits [] (st m0)) as H0
      by (intros agent_id a; cbn; by rewrite lookup_empty).
  assert (all_completed (st m0)) as Hc0
      by (intros agent_id a; cbn; by rewrite lookup_empty).
  destruct (visit_returns_plain "scraper_1" a1 m0 ltac:(done))
    as (r1 & m1 & Hh1 & Hcalls1 & He1 & Hs1 & _ & Hr1 & Hc1 & Hf1).
  destruct (visit_returns_plain "semantic_parser_2" a2 m1 ltac:(done))
    as (r2 & m2 & Hh2 & Hcalls2 & He2 & Hs2 & _ & Hr2 & Hc2 & Hf2).
  destruct (visit_returns_plain "style_transfer_3" a3 m2 ltac:(done))
    as (r3 & m3 & Hh3 & Hcalls3 & He3 & Hs3 & _ & Hr3 & Hc3 & Hf3).
  destruct (visit_returns_plain "layout_generator_4" a4 m3 ltac:(done))
    as (r4 & m4 & Hh4 & Hcalls4 & He4 & Hs4 & _ & Hr4 & Hc4 & Hf4).
  exists m4, r1, r2, r3, r4. split_and!.
  - intros fuel. cbn [Nat.add].
    by rewrite at_scraper, Hh1, at_parser, Hh2, at_style, Hh3, at_layout, Hh4.
  - by rewrite Hcalls4, Hcalls3, Hcalls2, Hcalls1.
  - by rewrite He4, He3, He2, He1.
  - by rewrite Hs4, Hs3, Hs2, Hs1.
  - by rewrite Hr4, Hr3, Hr2, Hr1.
  - auto.
  - apply Hf4; [|set_solver]. apply Hf3; [|set_solver].
    apply Hf2; [|set_solver]. apply Hf1; [done|set_solver].
Qed.

Section GateReturns.

(** The gate returns as well. *)
Hypothesis gate_returns : ∀ n input_data,
  ∃ result, process_sync n "validation_6" input_data = Ok result.





Section GateRejects.

Hypothesis gate_never_passes : ∀ n input_data result,
  process_sync n "validation_6" input_data = Ok result →
  truthy (dict_get result "passed" (VBool false)) = false.



End GateRejects.

End GateReturns.

(** *** Runs in which the gate is the validation agent *)

Section GateValidates.

Variable scan : value → value → res Scans.
Variable _calculate_quality_score : Z → Z → Z → Z → Q.
Variable gate : ValidationAgent.

(** The stage registered as "validation_6" is the validation agent. *)
Hypothesis gate_validates : ∀ n input_data,
  process_sync n "validation_6" input_data
  = validation_process scan _calculate_quality_score gate input_data.

(** The synthesizer never hands on both HTML and CSS. *)
Hypothesis nothing_to_validate : ∀ n input_data result,
  process_sync n "component_synthesizer_5" input_data = Ok result →
  truthy (dict_get result "html_output" (VStr ""))
  && truthy (dict_get result "css_output" (VStr "")) = false.

(** X20.  The gate takes its HTML and CSS from the artifact of the
    synthesizer.  When that artifact lacks one of them, the validation
    agent raises instead of rejecting, and a gate that raises is not
    retried: the run makes its six stage calls and returns with status
    "failed", the artifacts of the five stages before the gate, and the
    two errors of the gate and of the orchestrator, both saying "HTML and
    CSS outputs are required". *)
Theorem gate_needs_html_and_css fuel url run_dir :
  ∃ m r1 r2 r3 r4 r5 t t',
    run_workflow time_time process_sync self (6 + fuel) url run_dir = Some m
    ∧ status (st m) = "failed"
    ∧ calls m = 6
    ∧ errors (st m)
      = [ mkErrorEntry "validation_6" (id a6) "HTML and CSS outputs are required" t;
          mkErrorEntry "orchestrator" (VStr "Orchestrator")
                       "HTML and CSS outputs are required" t' ]
    ∧ results (st m)
      = <["component_synthesizer_5" := r5]>
          (<["layout_generator_4" := r4]> (<["style_transfer_3" := r3]>
             (<["semantic_parser_2" := r2]> (<["scraper_1" := r1]> ∅))))
    ∧ retry_count_of "validation_6" (st m) = 0.
Proof.
  rewrite run_workflow_unfold.
  destruct (prefix_returns url (os_path_join base_dir run_dir))
    as (m4 & r1 & r2 & r3 & r4 & Hrun & Hcalls4 & He4 & Hs4 & Hr4 & Hc4 & Hf4).
  assert ("component_synthesizer_5" ≠ "validation_6") as Hne by done.
  destruct (visit_returns "component_synthesizer_5" a5 m4
              (λ n input_data, upstream_return n _ input_data Hne))
    as (r5 & m5 & Hh5 & Hout5 & Hst5 & Hcalls5).
  assert (results (st m5) = <["component_synthesizer_5" := r5]> (results (st m4))) as Hr5
      by (by rewrite Hst5, results_agent_succeeded, results_enter_agent).
  assert (errors (st m5) = []) as He5
      by (by rewrite Hst5, errors_agent_succeeded, errors_enter_agent).
  assert (agents (st m5) !! "validation_6" = None) as Hnew.
  { destruct (agents (st m5) !! "validation_6") as [a|] eqn:Ha; [|done].
    assert (only_first_visits ["component_synthesizer_5"; "layout_generator_4";
                               "style_transfer_3"; "semantic_parser_2"; "scraper_1"]
                              (st m5)) as Hf5.
    { eapply handler_first_visit; [exact Hf4| |exact Hh5]. set_solver. }
    destruct (Hf5 _ _ Ha) as [Hin _]. set_solver. }
  assert (stage_outcome time_time process_sync "validation_6" a6 m5
          = Raise "HTML and CSS outputs are required") as Hout6.
  { unfold stage_outcome, stage_input. rewrite gate_validates.
    unfold validation_process, validate, dict_get.
    rewrite !(gate_input_lookup _ r5) by
        (done || by rewrite results_enter_agent, Hr5, lookup_insert_eq).
    unfold stage_outcome in Hout5. apply nothing_to_validate in Hout5.
    unfold dict_get in Hout5.
    destruct (truthy (default (VStr "") (r5 !! "html_output"))),
             (truthy (default (VStr "") (r5 !! "css_output"))); done. }
  destruct (handler_raises time_time process_sync self _ _ _ _ Hout6)
    as (m6 & Hh6 & Hst6).
  pose proof (handler_calls _ _ _ _ _ _ _ _ Hh6) as Hcalls6.
  replace (6 + fuel) with (4 + S (S fuel)) by lia.
  rewrite Hrun, at_synthesizer, Hh5, at_validation, Hh6.
  eexists _, r1, r2, r3, r4, r5, _, _. split; [reflexivity|].
  rewrite errors_orchestrator_failed.
  change (calls (orchestrator_failed time_time _ _ m6)) with (calls m6).
  change (results (st (orchestrator_failed time_time _ _ m6))) with (results (st m6)).
  change (retry_count_of "validation_6" (st (orchestrator_failed time_time _ _ m6)))
    with (retry_count_of "validation_6" (st m6)).
  rewrite Hst6, errors_agent_failed, errors_enter_agent, He5,
    results_agent_failed, results_enter_agent, Hr5, Hr4.
  split_and!; [done| |done|done|].
  - rewrite Hcalls6, Hcalls5, Hcalls4. done.
  - unfold retry_count_of.
    rewrite agents_agent_failed, lookup_alter_eq, agents_enter_agent, Hnew. done.
Qed.

End GateValidates.

End UpstreamReturns.

End ServiceRuns.

Lemma raising_scraper_ends_the_run_witness :
  scraper_raises 0 "scraper_1" {[ "url" := VStr "https://example.com" ]}
  = Raise "connection refused"
  ∧ ∃ m, run_workflow ticking scraper_raises
           (mkWorkflowOrchestrator
              (service_agents plain_validation_agent plain_validation_agent
                 plain_validation_agent plain_validation_agent
                 plain_validation_agent plain_validation_agent) "generated" true)
           1 "https://example.com" "1" = Some m
         ∧ calls m = 1
         ∧ status (st m) = "failed"
         ∧ results (st m) = ∅
         ∧ agents (st m)
           = {[ "scraper_1" :=
                  mkAgentState "scraper_1" (id plain_validation_agent) "failed"
                    (ticking 0) (Some (ticking 1)) None (Some "connection refused") 0 ]}
         ∧ errors (st m)
           = [ mkErrorEntry "scraper_1" (id plain_validation_agent)
                 "connection refused" (ticking 2);
               mkErrorEntry "orchestrator" (VStr "Orchestrator")
                 "connection refused" (ticking 3) ].
Proof.
  split; [reflexivity|].
  apply (raising_scraper_ends_the_run ticking scraper_raises). reflexivity.
Defined.



(** * What a run records for each stage *)

Section RunStates.

Variable time_time : nat → Q.
Variable process_sync : nat → string → Artifact → res Artifact.
Variable self : WorkflowOrchestrator.

(** The clock never runs backwards. *)
Hypothesis clock_monotone : ∀ n, (time_time n <= time_time (S n))%Q.

(** A run state as a returning visit leaves it. *)
Let completed_entry (agent_id : string) (a : AgentState) : Prop :=
  a_agent_id a = agent_id
  ∧ a_status a = "completed" ∧ is_Some (a_result a) ∧ a_error a = None
  ∧ ∃ t, a_end_time a = Some t ∧ (a_start_time a <= t)%Q.

Lemma run_node_completed_entries body m m' :
  (∀ agent_id a, agents (st m) !! agent_id = Some a → completed_entry agent_id a) →
  run_node time_time process_sync self body m = (Returned, m') →
  ∀ agent_id a, agents (st m') !! agent_id = Some a → completed_entry agent_id a.
Proof.
  intros HP Hnode. destruct body as [agent_id agent|]; cbn [run_node] in Hnode.
  - destruct (handler_cases time_time process_sync self agent_id agent m)
      as [(result & m1 & _ & Hh & Hst)|(e & m1 & _ & Hh & Hst)];
      rewrite Hh in Hnode; simplify_eq.
    intros other a. rewrite Hst.
    destruct (decide (other = agent_id)) as [->|Hne].
    + rewrite agents_agent_succeeded, lookup_alter_eq, agents_enter_agent.
      destruct (agents (st m) !! agent_id) as [a0|] eqn:Ha0; intros [= <-].
      * destruct (HP _ _ Ha0) as (Hid & _ & _ & Herr & _).
        unfold completed_entry. cbn. eauto 10.
      * unfold completed_entry. cbn. eauto 10.
    + rewrite succeeded_other by done. apply HP.
  - unfold end_handler in Hnode. simplify_eq. by rewrite st_emit.
Qed.

Lemma run_node_failed_entry body m e m' :
  errors (st m) = [] →
  (∀ agent_id a, agents (st m) !! agent_id = Some a → completed_entry agent_id a) →
  run_node time_time process_sync self body m = (Raised e, m') →
  ∃ failed agent_name t,
    errors (st m') = [mkErrorEntry failed agent_name e t]
    ∧ ∀ agent_id a, agents (st m') !! agent_id = Some a →
        completed_entry agent_id a
        ∨ (agent_id = failed
           ∧ a_agent_id a = agent_id ∧ a_status a = "failed" ∧ a_error a = Some e
           ∧ ∃ t, a_end_time a = Some t ∧ (a_start_time a <= t)%Q).
Proof.
  intros Herr HP Hnode. destruct body as [agent_id agent|]; cbn [run_node] in Hnode;
    [|by unfold end_handler in Hnode].
  destruct (handler_cases time_time process_sync self agent_id agent m)
    as [(result & m1 & _ & Hh & Hst)|(e' & m1 & _ & Hh & Hst)];
    rewrite Hh in Hnode; simplify_eq.
  exists agent_id, (id agent), (time_time (S (S (clock m)))).
  split; [by rewrite Hst, errors_agent_failed, errors_enter_agent, Herr|].
  intros other a. rewrite Hst.
  destruct (decide (other = agent_id)) as [->|Hne].
  - rewrite agents_agent_failed, lookup_alter_eq, agents_enter_agent.
    destruct (agents (st m) !! agent_id) as [a0|] eqn:Ha0; intros [= <-]; right.
    + destruct (HP _ _ Ha0) as (Hid & _). cbn. eauto 10.
    + cbn. eauto 10.
  - rewrite failed_other by done. left. by eapply HP.
Qed.

(** X5.  In a returned state every recorded stage carries its own id and
    an end time that, under a clock that never runs backwards, is not
    before its start time.  It is either completed, with a result and no
    error, or failed with the message of the exception that ended the run:
    then the first entry of [errors] is the one of this stage, the last one
    has the same message, and the returned state has the status "failed" and
    no current agent.  No stage is left running. *)
Theorem run_states_of_a_run fuel url run_dir m agent_id a :
  run_workflow time_time process_sync self fuel url run_dir = Some m →
  agents (st m) !! agent_id = Some a →
  a_agent_id a = agent_id
  ∧ (∃ t, a_end_time a = Some t ∧ (a_start_time a <= t)%Q)
  ∧ ((a_status a = "completed" ∧ is_Some (a_result a) ∧ a_error a = None)
     ∨ (a_status a = "failed"
        ∧ status (st m) = "failed" ∧ current_agent_id (st m) = None
        ∧ ∃ e, a_error a = Some e
               ∧ (λ entry, (e_agent_id entry, e_error entry)) <$> head (errors (st m))
                 = Some (agent_id, e)
               ∧ e_error <$> last (errors (st m)) = Some e)).
Proof.
  unfold run_workflow.
  set (m0 := mkMachine (initial_state url (os_path_join (self_output_dir self) run_dir))
                       0 0 []).
  destruct (entry_point _) as [entry|]; [|by intros; simplify_eq].
  destruct (invoke_from _ _ _ _ _ _ _) as [[sig m1]|] eqn:Hrun; [|done].
  set (P := λ m : Machine,
         errors (st m) = []
         ∧ ∀ agent_id a, agents (st m) !! agent_id = Some a → completed_entry agent_id a).
  set (Q := λ (e : string) (m : Machine),
         P m
         ∨ ∃ failed agent_name t,
             errors (st m) = [mkErrorEntry failed agent_name e t]
             ∧ ∀ agent_id a, agents (st m) !! agent_id = Some a →
                 completed_entry agent_id a
                 ∨ (agent_id = failed
                    ∧ a_agent_id a = agent_id ∧ a_status a = "failed"
                    ∧ a_error a = Some e
                    ∧ ∃ t, a_end_time a = Some t ∧ (a_start_time a <= t)%Q)).
  assert (match sig with Returned => P m1 | Raised e => Q e m1 end) as Hinv.
  { refine (invoke_from_invariant_exn time_time process_sync self P Q _ _ _
              fuel _ entry m0 sig m1 _ Hrun).
    - intros body m' m'' [Herr HP] Hnode. split.
      + by eapply run_node_no_errors.
      + by eapply run_node_completed_entries.
    - intros body m' e m'' [Herr HP] Hnode. right.
      by eapply run_node_failed_entry.
    - intros m' e HP. by left.
    - split; [done|]. intros other a'. cbn. by rewrite lookup_empty. }
  destruct sig as [|e]; intros ? Ha; simplify_eq.
  - cbn [with_st st] in Ha.
    replace (agents (derive_status (st m1))) with (agents (st m1)) in Ha
      by (unfold derive_status; by repeat case_match).
    destruct Hinv as [_ HP]. destruct (HP _ _ Ha) as (? & ? & ? & ? & ?). eauto 10.
  - rewrite errors_orchestrator_failed, last_snoc.
    rewrite agents_orchestrator_failed in Ha.
    destruct Hinv as [[_ HP]|(failed & agent_name & t & Herr & HP)].
    + destruct (HP _ _ Ha) as (? & ? & ? & ? & ?). eauto 10.
    + rewrite Herr.
      destruct (HP _ _ Ha) as [(? & ? & ? & ? & ?)|(-> & ? & ? & ? & ?)]; [eauto 10|].
      split; [done|]. split; [done|]. right. split; [done|]. split; [done|].
      split; [done|]. exists e. by split_and!.
Qed.

End RunStates.

Lemma run_states_of_a_run_witness :
  match run_workflow ticking retry_raises (orchestrator_of default_configs) 13
                     "https://example.com" "1" with
  | Some m =>
      match agents (st m) !! "component_synthesizer_5" with
      | Some a =>
          a_status a = "failed"
          ∧ a_agent_id a = "component_synthesizer_5"
          ∧ (∃ t, a_end_time a = Some t ∧ (a_start_time a <= t)%Q)
          ∧ ((a_status a = "completed" ∧ is_Some (a_result a) ∧ a_error a = None)
             ∨ (a_status a = "failed"
                ∧ status (st m) = "failed" ∧ current_agent_id (st m) = None
                ∧ ∃ e, a_error a = Some e
                       ∧ (λ entry, (e_agent_id entry, e_error entry))
                         <$> head (errors (st m))
                         = Some ("component_synthesizer_5", e)
                       ∧ e_error <$> last (errors (st m)) = Some e))
      | None => False
      end
  | None => False
  end.
Proof.
  assert ((λ m, a_status <$> agents (st m) !! "component_synthesizer_5")
          <$> run_workflow ticking retry_raises (orchestrator_of default_configs) 13
                           "https://example.com" "1"
          = Some (Some "failed")) as Hst by (vm_compute; reflexivity).
  destruct (run_workflow ticking retry_raises (orchestrator_of default_configs) 13
                         "https://example.com" "1") as [m|] eqn:Hrun;
    [|discriminate Hst].
  cbn [fmap option_fmap option_map] in Hst.
  destruct (agents (st m) !! "component_synthesizer_5") as [a|] eqn:Ha;
    [|discriminate Hst].
  split; [by injection Hst|].
  refine (run_states_of_a_run ticking retry_raises _ _ 13 _ _ m _ a Hrun Ha).
  intros n. unfold ticking. rewrite <- Zle_Qle. lia.
Defined.

(** * The url and the output path of a run *)

Section RunPaths.

Variable time_time : nat → Q.
Variable process_sync : nat → string → Artifact → res Artifact.
Variable self : WorkflowOrchestrator.
Variables (site run_dir : string).

(** The url is the one of the request.  The output path is the directory of
    the run as long as the synthesis stage has no artifact.  Once it has
    one, the output path is the value that artifact has under the key
    ["output_path"]; when the artifact lacks the key, the output path stays
    what it was: the directory of the run, or what an earlier artifact of
    the synthesis stage had under that key. *)
Let as_requested (state : WorkflowState) : Prop :=
  url state = site
  ∧ (results state !! "component_synthesizer_5" = None →
     output_path state = VStr (os_path_join (self_output_dir self) run_dir))
  ∧ (∀ artifact v,
       results state !! "component_synthesizer_5" = Some artifact →
       artifact !! "output_path" = Some v → output_path state = v)
  ∧ (output_path state = VStr (os_path_join (self_output_dir self) run_dir)
     ∨ ∃ n input_data result,
         process_sync n "component_synthesizer_5" input_data = Ok result
         ∧ result !! "output_path" = Some (output_path state)).

Let as_requested_throughout (m : Machine) : Prop :=
  as_requested (st m) ∧ ∀ state, state ∈ observed m → as_requested state.

Lemma as_requested_enter agent_id agent now state :
  as_requested state → as_requested (enter_agent agent_id agent now state).
Proof. unfold as_requested. by rewrite url_enter, output_path_enter, results_enter_agent. Qed.

Lemma run_node_as_requested body m sig m' :
  as_requested_throughout m →
  run_node time_time process_sync self body m = (sig, m') →
  as_requested_throughout m'.
Proof.
  intros [Hst Hobs] Hnode. destruct body as [agent_id agent|]; cbn [run_node] in Hnode.
  - assert (as_requested (st m')) as Hst'.
    { destruct Hst as (Hurl & Hnone & Hadopted & Hfrom).
      destruct (handler_cases time_time process_sync self agent_id agent m)
        as [(result & m1 & Hout & Hh & Hm1)|(e & m1 & _ & Hh & Hm1)];
        rewrite Hh in Hnode; simplify_eq; rewrite Hm1; unfold as_requested.
      - rewrite url_succeeded, url_enter, output_path_succeeded, output_path_enter,
          results_agent_succeeded, results_enter_agent.
        split; [done|]. case_bool_decide as Hid.
        + subst agent_id. rewrite lookup_insert_eq. split; [done|]. split.
          * intros artifact v [= <-] Hv. unfold dict_get. by rewrite Hv.
          * unfold dict_get. destruct (result !! "output_path") as [v|] eqn:Hv; [|done].
            right. unfold stage_outcome in Hout. eauto.
        + by rewrite lookup_insert_ne.
      - by rewrite url_failed, url_enter, output_path_failed, output_path_enter,
          results_agent_failed, results_enter_agent. }
    split; [done|]. intros state Hin.
    destruct (handler_observed _ _ _ _ _ _ _ _ _ Hnode Hin) as [?|[->| ->]]; auto.
    by apply as_requested_enter.
  - split.
    + unfold end_handler in Hnode. simplify_eq. by rewrite st_emit.
    + intros state Hin.
      destruct (end_handler_observed _ _ _ _ _ Hnode Hin) as [?| ->]; auto.
      unfold end_handler in Hnode. simplify_eq. by rewrite st_emit.
Qed.

(** Every state of a traversal, the one it ends in and the ones handed to
    the callback, is as requested. *)
Lemma traversal_as_requested fuel node sig m1 :
  invoke_from time_time process_sync self fuel (_build_workflow_graph self) node
              (start_of_run site (os_path_join (self_output_dir self) run_dir))
  = Some (sig, m1) →
  as_requested_throughout m1.
Proof.
  intros Htrav.
  assert (as_requested_throughout
            (start_of_run site (os_path_join (self_output_dir self) run_dir))) as H0.
  { split; [by split_and!; [..|left]|]. intros state'. unfold observed. cbn. set_solver. }
  cut (match sig with
       | Returned => as_requested_throughout m1
       | Raised _ => as_requested_throughout m1
       end); [by destruct sig|].
  refine (invoke_from_invariant_exn time_time process_sync self
            as_requested_throughout (λ _, as_requested_throughout) _ _ _
            fuel _ node _ sig m1 H0 Htrav); [..|done].
  - intros body m' m'' HP Hnode. by eapply run_node_as_requested.
  - intros body m' e m'' HP Hnode. by eapply run_node_as_requested.
Qed.


(** X6.  The url is never reassigned: in the state a run returns and in
    every state it hands to the status callback it is the requested one.
    The output path is reassigned by the synthesis stage only.  In every
    state handed to the callback, and in the state returned by a run that no
    exception ended, it is the directory of the run while the synthesis
    stage has no artifact; it is the value the artifact of the synthesis
    stage has under ["output_path"] when it has one; and in any case it is
    the directory of the run or a value some call of the synthesis stage
    returned under that key.  A run that an exception ended returns the
    directory of the run, whatever the synthesis stage returned. *)
Theorem url_and_output_path_of_a_run fuel m :
  run_workflow time_time process_sync self fuel site run_dir = Some m →
  (∀ state, state = st m ∨ state ∈ observed m → url state = site)
  ∧ (∀ state,
       state = st m ∧ errors (st m) = [] ∨ state ∈ observed m →
       (results state !! "component_synthesizer_5" = None →
        output_path state = VStr (os_path_join (self_output_dir self) run_dir))
       ∧ (∀ artifact v,
            results state !! "component_synthesizer_5" = Some artifact →
            artifact !! "output_path" = Some v → output_path state = v)
       ∧ (output_path state = VStr (os_path_join (self_output_dir self) run_dir)
          ∨ ∃ n input_data result,
              process_sync n "component_synthesizer_5" input_data = Ok result
              ∧ result !! "output_path" = Some (output_path state)))
  ∧ (errors (st m) ≠ [] →
     output_path (st m) = VStr (os_path_join (self_output_dir self) run_dir)).
Proof.
  unfold run_workflow.
  fold (start_of_run site (os_path_join (self_output_dir self) run_dir)).
  set (m0 := start_of_run site (os_path_join (self_output_dir self) run_dir)).
  destruct (entry_point _) as [entry|].
  2: { intros; simplify_eq. split_and!; [|by intros ? [[_ ?]|?]; [|set_solver]|done].
       intros state [->|Hin]; [done|]. cbn in Hin. set_solver. }
  destruct (invoke_from _ _ _ _ _ _ _) as [[sig m1]|] eqn:Htrav; [|done].
  destruct (traversal_as_requested _ _ _ _ Htrav) as [Hst Hobs].
  destruct sig as [|e]; intros; simplify_eq.
  - assert (as_requested (derive_status (st m1))) as Hd
        by (unfold as_requested, derive_status in *; by repeat case_match).
    cbn [with_st st]. unfold observed. cbn [emitted]. split_and!.
    + intros state [->|Hin]; [apply Hd|by apply Hobs].
    + intros state [[-> _]|Hin]; [apply Hd|by apply Hobs].
    + intros Herr. exfalso. apply Herr.
      replace (errors (derive_status (st m1))) with (errors (st m1))
        by (unfold derive_status; by repeat case_match).
      assert (all_completed (st m0)) as Hall0
          by (intros agent_id a; cbn; by rewrite lookup_empty).
      by destruct (invoke_from_returned time_time process_sync self fuel
                     (_build_workflow_graph self) entry m0 m1 eq_refl Hall0 eq_refl Htrav)
        as (? & _).
  - unfold observed.
    destruct (run_of_orchestrator_failed time_time e (st m0) m1) as (_ & _ & ->).
    split_and!.
    + intros state [->|Hin]; [done|by apply Hobs].
    + intros state [[_ Herr]|Hin]; [|by apply Hobs].
      rewrite errors_orchestrator_failed in Herr. by apply app_nil in Herr as [_ ?].
    + done.
Qed.

End RunPaths.

Lemma url_and_output_path_of_a_run_witness :
  match run_workflow ticking synthesis_relocates (orchestrator_of default_configs) 13
                     "https://example.com" "1" with
  | Some m =>
      output_path (st m) = VStr "sites/example"
      ∧ (∀ state, state = st m ∨ state ∈ observed m → url state = "https://example.com")
      ∧ (∀ state,
           state = st m ∧ errors (st m) = [] ∨ state ∈ observed m →
           (results state !! "component_synthesizer_5" = None →
            output_path state = VStr (os_path_join "generated" "1"))
           ∧ (∀ artifact v,
                results state !! "component_synthesizer_5" = Some artifact →
                artifact !! "output_path" = Some v → output_path state = v)
           ∧ (output_path state = VStr (os_path_join "generated" "1")
              ∨ ∃ n input_data result,
                  synthesis_relocates n "component_synthesizer_5" input_data = Ok result
                  ∧ result !! "output_path" = Some (output_path state)))
      ∧ (errors (st m) ≠ [] → output_path (st m) = VStr (os_path_join "generated" "1"))
  | None => False
  end.
Proof.
  assert ((λ m, output_path (st m))
          <$> run_workflow ticking synthesis_relocates (orchestrator_of default_configs) 13
                           "https://example.com" "1"
          = Some (VStr "sites/example")) as Hpath by (vm_compute; reflexivity).
  destruct (run_workflow ticking synthesis_relocates (orchestrator_of default_configs) 13
                         "https://example.com" "1") as [m|] eqn:Hrun;
    [|discriminate Hpath].
  injection Hpath as Hpath. split; [exact Hpath|].
  exact (url_and_output_path_of_a_run ticking synthesis_relocates
           (orchestrator_of default_configs) "https://example.com" "1" 13 m Hrun).
Defined.

(** * The calls of the status callback *)

Lemma agent_events_paired_app evs evs' :
  agent_events_paired evs = true →
  agent_events_paired (evs ++ evs') = agent_events_paired evs'.
Proof.
  revert evs. fix IH 1. intros [|e1 [|e2 rest]]; cbn; try done.
  intros H. apply andb_true_iff in H as [-> H]. cbn. by apply IH.
Qed.

Lemma consecutive_sources workflow_nodes from_node to_node :
  (from_node, to_node) ∈ consecutive workflow_nodes → from_node ∈ workflow_nodes.
Proof.
  induction workflow_nodes as [|k [|k' rest] IH]; cbn; [set_solver..|].
  rewrite elem_of_cons. intros [[= -> ->]|Hin]; [set_solver|].
  apply elem_of_cons. right. by apply IH.
Qed.

Section RunEvents.

Variable time_time : nat → Q.
Variable process_sync : nat → string → Artifact → res Artifact.
Variable self : WorkflowOrchestrator.

(** The end node has no way out: a stage registered as "end" would hide
    it, and no edge leaves a node that is not a stage. *)
Lemma assoc_nodes_end node :
  assoc node (nodes (_build_workflow_graph self)) = Some EndHandler →
  node = "end" ∧ node ∉ (self_agents self).*1.
Proof.
  unfold _build_workflow_graph. cbn [nodes].
  induction (self_agents self) as [|[k a] agents IH]; cbn.
  - case_bool_decide; [|done]. intros _. split; [done|set_solver].
  - case_bool_decide as Hk; [done|]. intros H. destruct (IH H) as [-> Hnot].
    split; [done|]. set_solver.
Qed.

Lemma end_is_a_sink node :
  assoc node (nodes (_build_workflow_graph self)) = Some EndHandler →
  plain_targets (_build_workflow_graph self) node = []
  ∧ assoc node (conditional_edges (_build_workflow_graph self)) = None.
Proof.
  intros H. destruct (assoc_nodes_end _ H) as [-> Hnot]. split.
  - unfold plain_targets, _build_workflow_graph. cbn [edges].
    assert (∀ from_node to_node,
              (from_node, to_node) ∈ consecutive (self_agents self).*1 →
              from_node ≠ "end") as Hsources.
    { intros from_node to_node Hin ->. apply Hnot. by eapply consecutive_sources. }
    induction (consecutive (self_agents self).*1) as [|[from_node to_node] rest IH];
      [done|].
    rewrite filter_cons_False by (cbn; eapply Hsources; by left).
    apply IH. intros ? ? ?. eapply Hsources. by right.
  - unfold _build_workflow_graph. cbn [conditional_edges].
    case_match; [|done]. cbn. by rewrite bool_decide_eq_false_2.
Qed.

Lemma handler_emitted agent_id agent m sig m' :
  handler time_time process_sync self agent_id agent m = (sig, m') →
  emitted m'
  = emitted m
    ++ (if self_status_callback self
        then [mkEmitted "agent_started" (Some agent_id)
                (enter_agent agent_id agent (time_time (clock m)) (st m));
              mkEmitted (match sig with
                         | Returned => "agent_completed"
                         | Raised _ => "agent_failed"
                         end) (Some agent_id) (st m')]
        else []).
Proof.
  unfold handler. cbn [read_clock with_st st clock calls emitted].
  destruct (process_sync _ _ _); intros Hh; simplify_eq; rewrite !st_emit;
    unfold emit; destruct (self_status_callback self);
    cbn [with_st st clock calls emitted]; by rewrite <- ?app_assoc, ?app_nil_r.
Qed.

(** Between visits: nothing in [errors], and the callback calls made so
    far are the two of each stage call. *)
Let in_step (m : Machine) : Prop :=
  errors (st m) = []
  ∧ agent_events_paired (emitted m) = true
  ∧ length (emitted m) = (if self_status_callback self then 2 * calls m else 0).

Lemma handler_in_step agent_id agent m sig m' :
  in_step m →
  handler time_time process_sync self agent_id agent m = (sig, m') →
  agent_events_paired (emitted m') = true
  ∧ length (emitted m') = (if self_status_callback self then 2 * calls m' else 0).
Proof.
  intros (_ & Hp & Hl) Hh.
  rewrite (handler_emitted _ _ _ _ _ Hh), (handler_calls _ _ _ _ _ _ _ _ Hh).
  rewrite agent_events_paired_app, length_app, Hl by done.
  destruct (self_status_callback self); [|done]. split; [|cbn; lia].
  cbn. unfold announces_start, announces_outcome. cbn.
  rewrite (bool_decide_eq_true_2 (Some agent_id = Some agent_id)) by done.
  by destruct sig.
Qed.

Lemma invoke_from_events fuel : ∀ node m sig m',
  in_step m →
  invoke_from time_time process_sync self fuel (_build_workflow_graph self) node m
  = Some (sig, m') →
  ∃ tail,
    emitted m' = take (if self_status_callback self then 2 * calls m' else 0) (emitted m')
                 ++ tail
    ∧ agent_events_paired
        (take (if self_status_callback self then 2 * calls m' else 0) (emitted m')) = true
    ∧ length (emitted m')
      = (if self_status_callback self then 2 * calls m' else 0) + length tail
    ∧ match sig with
      | Raised _ => tail = []
      | Returned =>
          errors (st m') = []
          ∧ (tail = [] ∨ (self_status_callback self = true
                           ∧ tail = [workflow_event (st m')]))
      end.
Proof.
  induction fuel as [|fuel IH]; intros node m sig m' HP Hrun; [done|].
  cbn [invoke_from] in Hrun.
  destruct (assoc node (nodes _)) as [[agent_id agent|]|] eqn:Hnode; [| |done];
    cbn [run_node] in Hrun.
  - destruct (handler _ _ _ agent_id agent m) as [[|e] m1] eqn:Hh.
    + destruct (handler_in_step _ _ _ _ _ HP Hh) as [Hp1 Hl1].
      assert (errors (st m1) = []) as He1.
      { eapply (run_node_no_errors time_time process_sync self (AgentHandler agent_id agent));
          [apply HP|exact Hh]. }
      destruct (assoc node (conditional_edges _)) as [table|].
      * destruct (_validation_router (st m1)) as [[route|e] state'] eqn:Hr.
        -- destruct (assoc route table) as [target|].
           ++ destruct (plain_targets _ node ++ [target]) as [|t1 [|t2 ts]];
                simplify_eq; [|eapply IH; [|done]; by split_and!].
              exists []. rewrite app_nil_r, <- Hl1, firstn_all.
              (split; [done|]; split; [done|]; split; [cbn; lia|]). eauto.
           ++ simplify_eq. exists []. rewrite app_nil_r, <- Hl1, firstn_all.
              (split; [done|]; split; [done|]; split; [cbn; lia|]). done.
        -- simplify_eq. exists []. rewrite app_nil_r, <- Hl1, firstn_all.
           (split; [done|]; split; [done|]; split; [cbn; lia|]). done.
      * destruct (plain_targets _ node) as [|t1 [|t2 ts]]; simplify_eq.
        -- exists []. rewrite app_nil_r, <- Hl1, firstn_all.
           (split; [done|]; split; [done|]; split; [cbn; lia|]). eauto.
        -- eapply IH; [|done]. by split_and!.
    + simplify_eq. destruct (handler_in_step _ _ _ _ _ HP Hh) as [Hp1 Hl1].
      exists []. rewrite app_nil_r, <- Hl1, firstn_all. (split; [done|]; split; [done|]; split; [cbn; lia|]). done.
  - destruct (end_is_a_sink _ Hnode) as [Hplain Hcond].
    rewrite Hcond, Hplain in Hrun. unfold end_handler in Hrun. simplify_eq.
    destruct HP as (Herr & Hp & Hl). rewrite st_emit, calls_emit.
    unfold emit. destruct (self_status_callback self) eqn:Hcb; cbn [emitted].
    + exists [workflow_event (st m)].
      rewrite <- Hl, take_app_length, length_app. (split; [done|]; split; [done|]; split; [done|]). eauto.
    + exists []. cbn [take]. rewrite Hl. (split; [by destruct (emitted m)|]; split; [done|]; split; [done|]). eauto.
Qed.

(** X7.  The status callback is called twice per stage call, first with
    "agent_started" and at once after it with "agent_completed" or
    "agent_failed" for the same stage; after these calls comes at most one
    more, the one of the end node, made on the state the traversal returns
    and named after its status.  A run in which an exception escapes the
    traversal makes no such call: its failure is never announced as
    "workflow_failed".  Without a callback nothing is called. *)
Theorem callback_calls_of_a_run fuel url run_dir m :
  run_workflow time_time process_sync self fuel url run_dir = Some m →
  ∃ evs tail,
    emitted m = evs ++ tail
    ∧ agent_events_paired evs = true
    ∧ length evs = (if self_status_callback self then 2 * calls m else 0)
    ∧ (tail = []
       ∨ (errors (st m) = [] ∧ self_status_callback self = true
          ∧ ∃ state, tail = [workflow_event state] ∧ st m = derive_status state)).
Proof.
  unfold run_workflow.
  set (m0 := mkMachine (initial_state url (os_path_join (self_output_dir self) run_dir))
                       0 0 []).
  assert (in_step m0) as H0.
  { split_and!; [done..|]. cbn. by destruct (self_status_callback self). }
  destruct (entry_point _) as [entry|].
  2: { intros; simplify_eq. exists [], []. split_and!; [done..| |by left].
       cbn. by destruct (self_status_callback self). }
  destruct (invoke_from _ _ _ _ _ _ _) as [[sig m1]|] eqn:Hrun; [|done].
  destruct (invoke_from_events _ _ _ _ _ H0 Hrun) as (tail & Hsplit & Hp & Hl & Hsig).
  intros Hm.
  assert (emitted m = emitted m1 ∧ calls m = calls m1) as [Hem Hcalls]
      by (destruct sig; by simplify_eq).
  rewrite Hem, Hcalls.
  eexists _, tail. split; [exact Hsplit|]. split; [exact Hp|]. split.
  - rewrite length_take. lia.
  - destruct sig as [|e]; simplify_eq; [|by left].
    destruct Hsig as [Herr [->|[Hcb ->]]]; [by left|]. right.
    cbn [with_st st]. split_and!; [|done|by eexists].
    unfold derive_status. by repeat case_match.
Qed.

End RunEvents.

Lemma callback_calls_of_a_run_witness :
  match run_workflow ticking gate_accepts (orchestrator_of default_configs) 7
                     "https://example.com" "1" with
  | Some m =>
      length (emitted m) = 13
      ∧ ∃ evs tail,
          emitted m = evs ++ tail
          ∧ agent_events_paired evs = true
          ∧ length evs
            = (if self_status_callback (orchestrator_of default_configs)
               then 2 * calls m else 0)
          ∧ (tail = []
             ∨ (errors (st m) = []
                ∧ self_status_callback (orchestrator_of default_configs) = true
                ∧ ∃ state, tail = [workflow_event state] ∧ st m = derive_status state))
  | None => False
  end.
Proof.
  assert ((λ m, length (emitted m))
          <$> run_workflow ticking gate_accepts (orchestrator_of default_configs) 7
                           "https://example.com" "1"
          = Some 13) as Hlen by (vm_compute; reflexivity).
  destruct (run_workflow ticking gate_accepts (orchestrator_of default_configs) 7
                         "https://example.com" "1") as [m|] eqn:Hrun;
    [|discriminate Hlen].
  injection Hlen as Hlen. split; [exact Hlen|].
  exact (callback_calls_of_a_run _ _ _ _ _ _ _ Hrun).
Defined.

Lemma gate_needs_html_and_css_witness :
  ∃ m r1 r2 r3 r4 r5 t t',
    run_workflow ticking synthesis_without_css
      (mkWorkflowOrchestrator
         (service_agents plain_validation_agent plain_validation_agent
            plain_validation_agent plain_validation_agent
            plain_validation_agent plain_validation_agent) "generated" true)
      (6 + 0) "https://example.com" "1" = Some m
    ∧ status (st m) = "failed"
    ∧ calls m = 6
    ∧ errors (st m)
      = [ mkErrorEntry "validation_6" (id plain_validation_agent)
                       "HTML and CSS outputs are required" t;
          mkErrorEntry "orchestrator" (VStr "Orchestrator")
                       "HTML and CSS outputs are required" t' ]
    ∧ results (st m)
      = <["component_synthesizer_5" := r5]>
          (<["layout_generator_4" := r4]> (<["style_transfer_3" := r3]>
             (<["semantic_parser_2" := r2]> (<["scraper_1" := r1]> ∅))))
    ∧ retry_count_of "validation_6" (st m) = 0.
Proof.
  apply (gate_needs_html_and_css ticking synthesis_without_css _ _ _ _ _ _ _ _
           (λ n agent_id input_data (Hne : agent_id ≠ "validation_6"),
              ltac:(unfold synthesis_without_css;
                    rewrite (bool_decide_eq_false_2 _ Hne);
                    case_bool_decide; eauto))
           spotless exact_quality default_gate).
  - intros n input_data. unfold synthesis_without_css.
    by rewrite (bool_decide_eq_true_2 ("validation_6" = "validation_6")).
  - intros n input_data result. unfold synthesis_without_css.
    rewrite (bool_decide_eq_false_2 ("component_synthesizer_5" = "validation_6")) by done.
    rewrite (bool_decide_eq_true_2 ("component_synthesizer_5" = "component_synthesizer_5"))
      by done.
    intros [= <-]. reflexivity.
Defined.

(** * The factory *)

Lemma _agent_classes_known ty cls :
  _agent_classes ty = Some cls →
  ty ∈ agent_types.
Proof. unfold _agent_classes, agent_types. repeat case_decide; intros; simplify_eq; set_solver. Qed.

(** The key of the [i]-th agent names its type and its position. *)
Lemma agent_key_inj ty ty' (i j : nat) :
  ty ∈ agent_types → ty' ∈ agent_types →
  ty +:+ "_" +:+ pretty i = ty' +:+ "_" +:+ pretty j →
  ty = ty' ∧ i = j.
Proof.
  unfold agent_types. rewrite !elem_of_cons, !elem_of_nil.
  intros [->|[->|[->|[->|[->|[->|[]]]]]]] [->|[->|[->|[->|[->|[->|[]]]]]]];
    intros Hkey; try discriminate Hkey;
    (split; [done|]); by do 2 apply (inj (String.app _)) in Hkey; apply (inj pretty).
Qed.

Lemma create_agent_known cfg agent :
  create_agent cfg = Ok agent → agent_type cfg ∈ agent_types.
Proof.
  unfold create_agent. destruct (_agent_classes (agent_type cfg)) eqn:Hcls; [|done].
  intros _. by eapply _agent_classes_known.
Qed.

(** Every key is new when it is set, so the dictionary grows by one entry
    per configuration. *)
Lemma create_agents_from_spec agent_configs : ∀ start acc agents,
  (∀ k, k ∈ acc.*1 → ∃ ty j, ty ∈ agent_types ∧ j ≤ start ∧ k = ty +:+ "_" +:+ pretty j) →
  create_agents_from start agent_configs acc = Ok agents →
  ∃ new, agents = acc ++ new
         ∧ Forall2 (λ cfg kv, create_agent cfg = Ok kv.2) agent_configs new
         ∧ new.*1 = imap (λ i, agent_key (start + i)) agent_configs.
Proof.
  induction agent_configs as [|cfg rest IH]; intros start acc agents Hacc; cbn.
  - intros [= <-]. exists []. by rewrite app_nil_r.
  - destruct (create_agent cfg) as [agent|e] eqn:Hcreate; [|done].
    pose proof (create_agent_known _ _ Hcreate) as Hty.
    assert (dict_set (agent_type cfg +:+ "_" +:+ pretty (S start)) agent acc
            = acc ++ [(agent_key start cfg, agent)]) as ->.
    { unfold dict_set. rewrite bool_decide_eq_false_2; [done|].
      intros (ty & j & Hty' & Hj & Hk)%Hacc.
      apply agent_key_inj in Hk as [_ Hk]; [lia|done..]. }
    intros Hrun. apply IH in Hrun as (new & -> & Hnew & Hkeys).
    + exists ((agent_key start cfg, agent) :: new). split_and!.
      * by rewrite <- app_assoc.
      * by constructor.
      * cbn. rewrite Hkeys. f_equal; [by rewrite Nat.add_0_r|].
        apply imap_ext. intros i cfg' _. cbn. f_equal. lia.
    + intros k. rewrite fmap_app, elem_of_app. cbn. rewrite list_elem_of_singleton.
      intros [(ty & j & ? & ? & ?)%Hacc| ->].
      * exists ty, j. split_and!; [done|lia|done].
      * exists (agent_type cfg), (S start). by split_and!.
Qed.

Lemma agent_keys_known agent_configs (agents : list (string * BaseAgent)) i cfg :
  Forall2 (λ cfg kv, create_agent cfg = Ok kv.2) agent_configs agents →
  agent_configs !! i = Some cfg → agent_type cfg ∈ agent_types.
Proof.
  intros Hall Hi. destruct (Forall2_lookup_l _ _ _ _ _ Hall Hi) as (kv & _ & Hcreate).
  by eapply create_agent_known.
Qed.

Lemma create_agents_from_config_spec agent_configs agents :
  create_agents_from_config agent_configs = Ok agents →
  agents.*1 = imap agent_key agent_configs
  ∧ Forall2 (λ cfg kv, create_agent cfg = Ok kv.2) agent_configs agents.
Proof.
  unfold create_agents_from_config. intros Hrun.
  apply create_agents_from_spec in Hrun as (new & -> & Hnew & Hkeys); [|set_solver].
  by cbn [app].
Qed.

(** X8.  When [create_agents_from_config] returns, the dictionary has one
    entry per configuration, in the order of the list; the key of the
    [i]-th one (counted from 0) is its type, an underscore and [i + 1], its
    value is the agent [create_agent] makes of it, and no two keys are
    equal. *)
Theorem create_agents_from_config_keys agent_configs agents :
  create_agents_from_config agent_configs = Ok agents →
  agents.*1 = imap agent_key agent_configs
  ∧ Forall2 (λ cfg kv, create_agent cfg = Ok kv.2) agent_configs agents
  ∧ NoDup agents.*1.
Proof.
  intros [Hkeys Hall]%create_agents_from_config_spec. split_and!; [done..|].
  rewrite Hkeys. apply NoDup_alt. intros i j k.
  rewrite !list_lookup_imap. cbn.
  destruct (agent_configs !! i) as [cfg|] eqn:Hi; [|done].
  destruct (agent_configs !! j) as [cfg'|] eqn:Hj; [|done].
  cbn. intros [= <-] [= Hk].
  apply agent_key_inj in Hk as [_ Hk]; [lia|by eapply agent_keys_known..].
Qed.

Lemma create_agents_from_config_keys_witness :
  match create_agents_from_config default_configs with
  | Ok agents =>
      agents.*1 = imap agent_key default_configs
      ∧ Forall2 (λ cfg kv, create_agent cfg = Ok kv.2) default_configs agents
      ∧ NoDup agents.*1
  | Raise _ => False
  end.
Proof.
  destruct (default_agents_are_service_agents true "generated" "screenshots" "" ""
              90 95 90 85) as (a1 & a2 & a3 & a4 & a5 & a6 & Hrun).
  fold default_configs in Hrun. rewrite Hrun.
  exact (create_agents_from_config_keys _ _ Hrun).
Defined.

Lemma agent_key_elem_of agent_configs (agents : list (string * BaseAgent)) ty i :
  Forall2 (λ cfg kv, create_agent cfg = Ok kv.2) agent_configs agents →
  ty ∈ agent_types →
  ty +:+ "_" +:+ pretty (S i) ∈ imap agent_key agent_configs
  ↔ agent_type <$> agent_configs !! i = Some ty.
Proof.
  intros Hall Hty. rewrite list_elem_of_lookup. split.
  - intros (j & Hj). rewrite list_lookup_imap in Hj.
    destruct (agent_configs !! j) as [cfg|] eqn:Hcfg; [|done].
    injection Hj as Hj. unfold agent_key in Hj.
    apply agent_key_inj in Hj as [Hj1 Hj2]; [|by eapply agent_keys_known|done].
    assert (j = i) as -> by lia. by rewrite Hcfg, <- Hj1.
  - intros Hi. exists i. rewrite list_lookup_imap.
    destruct (agent_configs !! i) as [cfg|]; [|done].
    injection Hi as <-. done.
Qed.

(** X9.  The retry edge of the graph depends on the positions of the
    configurations: the conditional edge out of "validation_6" is there
    exactly when the fifth configuration is a component synthesizer and the
    sixth a validation; a gate or a synthesizer configured at any other
    position gets plain edges only. *)
Theorem retry_edge_wiring agent_configs agents output_dir callback :
  create_agents_from_config agent_configs = Ok agents →
  conditional_edges
    (_build_workflow_graph (mkWorkflowOrchestrator agents output_dir callback))
  = if bool_decide (agent_type <$> agent_configs !! 4 = Some "component_synthesizer")
       && bool_decide (agent_type <$> agent_configs !! 5 = Some "validation")
    then [("validation_6", [("success", "end"); ("retry", "component_synthesizer_5")])]
    else [].
Proof.
  intros [Hkeys Hall]%create_agents_from_config_spec.
  unfold _build_workflow_graph. cbn [conditional_edges self_agents]. rewrite Hkeys.
  assert (bool_decide ("validation_6" ∈ imap agent_key agent_configs)
          = bool_decide (agent_type <$> agent_configs !! 5 = Some "validation")) as ->.
  { apply bool_decide_ext.
    apply (agent_key_elem_of agent_configs agents "validation" 5 Hall).
    unfold agent_types. set_solver. }
  assert (bool_decide ("component_synthesizer_5" ∈ imap agent_key agent_configs)
          = bool_decide (agent_type <$> agent_configs !! 4 = Some "component_synthesizer"))
    as ->.
  { apply bool_decide_ext.
    apply (agent_key_elem_of agent_configs agents "component_synthesizer" 4 Hall).
    unfold agent_types. set_solver. }
  by rewrite andb_comm.
Qed.

Lemma retry_edge_wiring_witness :
  ∃ agents,
    create_agents_from_config (drop 4 default_configs) = Ok agents
    ∧ agents.*1 = ["component_synthesizer_1"; "validation_2"]
    ∧ conditional_edges
        (_build_workflow_graph (mkWorkflowOrchestrator agents "generated" true))
      = if bool_decide (agent_type <$> drop 4 default_configs !! 4
                        = Some "component_synthesizer")
           && bool_decide (agent_type <$> drop 4 default_configs !! 5 = Some "validation")
        then [("validation_6", [("success", "end"); ("retry", "component_synthesizer_5")])]
        else [].
Proof.
  assert (∃ agents, create_agents_from_config (drop 4 default_configs) = Ok agents
                    ∧ agents.*1 = ["component_synthesizer_1"; "validation_2"])
    as (agents & Hrun & Hkeys)
      by (eexists; split; [vm_compute; reflexivity|reflexivity]).
  exists agents. split; [exact Hrun|]. split; [exact Hkeys|].
  exact (retry_edge_wiring (drop 4 default_configs) agents "generated" true Hrun).
Defined.

(** X10.  Of the four keywords [create_agent] writes out, [debug] and
    [timeout] reach the agent; [name] and the retry budget do not: the id
    of the agent is the name of its class and its [max_retries] is 3,
    unless the extra configuration itself sets them. *)
Theorem create_agent_attributes cfg agent :
  create_agent cfg = Ok agent →
  ∃ cls, _agent_classes (agent_type cfg) = Some cls
         ∧ debug agent = VBool (c_debug cfg)
         ∧ timeout agent = VInt (Z.of_nat (c_timeout cfg))
         ∧ max_retries agent = dict_get (config cfg) "max_retries" (VInt 3)
         ∧ id agent = dict_get (config cfg) "id" (VStr cls).
Proof.
  unfold create_agent. destruct (_agent_classes (agent_type cfg)) as [cls|]; [|done].
  case_bool_decide as Hfree; [|done]. intros [= <-]. exists cls.
  assert (∀ k, is_Some (explicit_kwargs cfg !! k) → config cfg !! k = None) as Hclash.
  { intros k [v Hv]. destruct (config cfg !! k) as [w|] eqn:Hw; [|done].
    specialize (Hfree _ _ Hw). cbn in Hfree. congruence. }
  unfold BaseAgent__init__, dict_get. cbn [debug timeout max_retries id].
  assert (explicit_kwargs cfg !! "debug" = Some (VBool (c_debug cfg))) as Hdebug.
  { unfold explicit_kwargs. by rewrite lookup_insert_ne, lookup_insert_eq by done. }
  assert (explicit_kwargs cfg !! "timeout" = Some (VInt (Z.of_nat (c_timeout cfg))))
    as Htimeout.
  { unfold explicit_kwargs. by rewrite !lookup_insert_ne, lookup_insert_eq by done. }
  split_and!; [done|..].
  - by rewrite lookup_union_r, Hdebug by (apply Hclash; by rewrite Hdebug).
  - by rewrite lookup_union_r, Htimeout by (apply Hclash; by rewrite Htimeout).
  - rewrite lookup_union. unfold explicit_kwargs.
    rewrite !lookup_insert_ne, lookup_empty by done.
    by destruct (config cfg !! "max_retries").
  - rewrite lookup_union. unfold explicit_kwargs.
    rewrite !lookup_insert_ne, lookup_empty by done.
    by destruct (config cfg !! "id").
Qed.

Lemma create_agent_attributes_witness :
  ∃ cls, _agent_classes "validation" = Some cls
         ∧ debug plain_validation_agent = VBool false
         ∧ timeout plain_validation_agent = VInt (Z.of_nat 60)
         ∧ max_retries plain_validation_agent = dict_get ∅ "max_retries" (VInt 3)
         ∧ id plain_validation_agent = dict_get ∅ "id" (VStr cls).
Proof.
  apply (create_agent_attributes (mkAgentConfig "validation" "ValidateWebsite" false 1 60 ∅)).
  vm_compute. reflexivity.
Defined.

(** * The service *)

(** ** Tasks *)

(** X11.  [get_task_result] gives a response exactly when
    [get_task_status] reports the task as completed with that response. *)
Theorem get_task_result_iff_completed_status task_id active_tasks response :
  get_task_result task_id active_tasks = Some response
  ↔ ∃ status_data,
      get_task_status task_id active_tasks = Found status_data
      ∧ s_status status_data = "completed"
      ∧ s_result status_data = Some response.
Proof.
  unfold get_task_result, get_task_status.
  destruct (active_tasks !! task_id) as [task_data|]; [|naive_solver].
  destruct task_data as [u s t r e]. cbn.
  destruct (decide (s = "completed")) as [->|Hs].
  - rewrite (bool_decide_eq_true_2 ("completed" = "completed")) by done.
    rewrite (bool_decide_eq_true_2 ("completed" ∈ ["completed"; "failed"]))
      by (apply elem_of_cons; by left).
    cbn. destruct r as [r|]; cbn; naive_solver.
  - rewrite (bool_decide_eq_false_2 (s = "completed")) by done. cbn.
    split; [done|]. intros (d & Hd & Hst & _).
    case_bool_decide; simplify_eq; cbn in *; done.
Qed.

(** X12.  The life of a task.  Once created it is reported as pending,
    once started as running, in both cases without result or error; after
    its generation returned a response it is reported as completed when the
    response says "success" and as failed otherwise, with the response in
    either case, while [get_task_result] hands the response out only in
    the first; after its generation raised it is reported as failed with
    the message and without result.  No other task is touched. *)
Theorem life_of_a_task task_id url now response e active_tasks :
  let created := clone_website task_id url now active_tasks in
  let running := task_started task_id created in
  let ended := if bool_decide (r_status response = "success")
               then "completed" else "failed" in
  get_task_status task_id created
  = Found (mkStatusData task_id url "pending" now None None)
  ∧ get_task_status task_id running
    = Found (mkStatusData task_id url "running" now None None)
  ∧ get_task_status task_id (task_finished task_id (Ok response) running)
    = Found (mkStatusData task_id url ended now (Some response) None)
  ∧ get_task_result task_id (task_finished task_id (Ok response) running)
    = (if bool_decide (r_status response = "success") then Some response else None)
  ∧ get_task_status task_id (task_finished task_id (Raise e) running)
    = Found (mkStatusData task_id url "failed" now None (Some e))
  ∧ get_task_result task_id (task_finished task_id (Raise e) running) = None
  ∧ ∀ other outcome,
      other ≠ task_id →
      task_finished task_id outcome running !! other = active_tasks !! other.
Proof.
  cbn zeta. unfold get_task_status, get_task_result, task_finished, task_started,
    clone_website.
  rewrite !lookup_alter_eq, !lookup_insert_eq. cbn.
  split_and!; try done.
  - destruct (bool_decide (r_status response = "success")); by vm_compute.
  - destruct (bool_decide (r_status response = "success")); by vm_compute.
  - intros other [r|e'] Hne; by rewrite !lookup_alter_ne, lookup_insert_ne.
Qed.

(** ** The response to a run *)

Section Responses.

Variable time_time : nat → Q.
Variable process_sync : nat → string → Artifact → res Artifact.
Variable self : WorkflowOrchestrator.
Variable py_str : value → string.
Variable body_raises : WorkflowState → option string.

(** [str] of a string is the string. *)
Hypothesis py_str_of_str : ∀ s, py_str (VStr s) = s.

(** A completed run has no error, and every other run is failed, its last
    error being the one of the orchestrator. *)
Lemma last_error_of_a_run fuel url run_dir m :
  run_workflow time_time process_sync self fuel url run_dir = Some m →
  (errors (st m) = [] ∧ status (st m) = "completed")
  ∨ (status (st m) = "failed"
     ∧ ∃ e t, last (errors (st m))
              = Some (mkErrorEntry "orchestrator" (VStr "Orchestrator") e t)).
Proof.
  unfold run_workflow.
  destruct (entry_point _) as [entry|].
  2: { intros; simplify_eq. right. split; [done|].
       rewrite errors_orchestrator_failed, last_snoc. eauto. }
  destruct (invoke_from _ _ _ _ _ _ _) as [[[|e] m1]|] eqn:Hrun; intros; simplify_eq.
  - left. cbn [with_st st].
    assert (all_completed (initial_state url (os_path_join (self_output_dir self) run_dir)))
      as Hall0 by (intros agent_id a; cbn; by rewrite lookup_empty).
    destruct (invoke_from_returned time_time process_sync self fuel
                (_build_workflow_graph self) entry
                (start_of_run url (os_path_join (self_output_dir self) run_dir)) m1
                eq_refl Hall0 eq_refl Hrun)
      as (Herr & _ & _ & Hs).
    split; [|done]. unfold derive_status. by repeat case_match.
  - right. split; [done|]. rewrite errors_orchestrator_failed, last_snoc. eauto.
Qed.

(** X13.  What the service answers after a run.  The response says
    "success" exactly when the run is completed and writing the files did
    not raise, and "error" otherwise.  A run that is not completed was ended
    by an exception, and the message names the orchestrator, never the stage
    that raised: "Error in Orchestrator: " followed by the text of the
    exception.  The message "Website generation failed" alone is for a run
    that is not completed and has no error, and there is no such run. *)
Theorem response_of_a_run fuel url run_dir m :
  run_workflow time_time process_sync self fuel url run_dir = Some m →
  let response := generate_website_from_url py_str body_raises (st m) in
  (r_status response = "success"
   ↔ status (st m) = "completed" ∧ body_raises (st m) = None)
  ∧ (r_status response ≠ "success" → r_status response = "error")
  ∧ (r_status response = "success" →
     errors (st m) = [] ∧ r_quality_score response = quality_score (st m)
     ∧ r_error response = None)
  ∧ (body_raises (st m) = None → status (st m) ≠ "completed" →
     r_error response = Some (r_message response)
     ∧ r_html response = None
     ∧ r_message response
       = match last (errors (st m)) with
         | None => "Website generation failed"
         | Some error => "Error in Orchestrator: " +:+ e_error error
         end)
  ∧ (status (st m) ≠ "completed" →
     ∃ e t, last (errors (st m))
            = Some (mkErrorEntry "orchestrator" (VStr "Orchestrator") e t)).
Proof.
  intros Hrun. pose proof (run_workflow_terminal _ _ _ _ _ _ _ Hrun) as Hterm.
  pose proof (last_error_of_a_run _ _ _ _ Hrun) as Herr.
  assert (status (st m) ≠ "completed" →
          ∃ e t, last (errors (st m))
                 = Some (mkErrorEntry "orchestrator" (VStr "Orchestrator") e t)) as Hlast
      by (destruct Herr as [[_ ?]|[_ ?]]; done).
  unfold generate_website_from_url. cbn zeta.
  destruct (body_raises (st m)) as [e|]; cbn.
  - split_and!; [naive_solver|done..].
  - case_bool_decide as Hst; cbn.
    + split_and!; [naive_solver|done| |done|done].
      intros _. split_and!; [|done..].
      destruct Herr as [[? _]|[Hf _]]; [done|]. congruence.
    + split_and!; [naive_solver|done|done| |done].
      intros _ _. split_and!; [done..|].
      destruct (Hlast Hst) as (e & t & ->).
      cbn. by rewrite py_str_of_str.
Qed.

End Responses.

Lemma response_of_a_run_witness :
  match run_workflow ticking retry_raises (orchestrator_of default_configs) 13
                     "https://example.com" "1" with
  | Some m =>
      r_message (generate_website_from_url str_of_name (λ _, None) (st m))
      = "Error in Orchestrator: synthesis failed"
      ∧ let response := generate_website_from_url str_of_name (λ _, None) (st m) in
        (r_status response = "success"
         ↔ status (st m) = "completed" ∧ (λ _ : WorkflowState, @None string) (st m) = None)
        ∧ (r_status response ≠ "success" → r_status response = "error")
        ∧ (r_status response = "success" →
           errors (st m) = [] ∧ r_quality_score response = quality_score (st m)
           ∧ r_error response = None)
        ∧ ((λ _ : WorkflowState, @None string) (st m) = None →
           status (st m) ≠ "completed" →
           r_error response = Some (r_message response)
           ∧ r_html response = None
           ∧ r_message response
             = match last (errors (st m)) with
               | None => "Website generation failed"
               | Some error => "Error in Orchestrator: " +:+ e_error error
               end)
        ∧ (status (st m) ≠ "completed" →
           ∃ e t, last (errors (st m))
                  = Some (mkErrorEntry "orchestrator" (VStr "Orchestrator") e t))
  | None => False
  end.
Proof.
  assert ((λ m, r_message (generate_website_from_url str_of_name (λ _, None) (st m)))
          <$> run_workflow ticking retry_raises (orchestrator_of default_configs) 13
                           "https://example.com" "1"
          = Some "Error in Orchestrator: synthesis failed") as Hmsg
      by (vm_compute; reflexivity).
  destruct (run_workflow ticking retry_raises (orchestrator_of default_configs) 13
                         "https://example.com" "1") as [m|] eqn:Hrun;
    [|discriminate Hmsg].
  injection Hmsg as Hmsg. split; [exact Hmsg|].
  exact (response_of_a_run ticking retry_raises (orchestrator_of default_configs)
           str_of_name (λ _, None) (λ s, eq_refl) 13 _ _ m Hrun).
Defined.

(** ** Observers *)

Lemma remove_first_absent x l : x ∉ l → remove_first x l = l.
Proof.
  induction l as [|y l IH]; [done|]. rewrite not_elem_of_cons. intros [Hne Hl].
  cbn. rewrite bool_decide_eq_false_2 by done. by rewrite IH.
Qed.

Lemma remove_first_app x l1 l2 :
  x ∉ l1 → remove_first x (l1 ++ x :: l2) = l1 ++ l2.
Proof.
  induction l1 as [|y l1 IH]; cbn.
  - intros _. by rewrite bool_decide_eq_true_2.
  - rewrite not_elem_of_cons. intros [Hne Hl].
    rewrite bool_decide_eq_false_2 by done. by rewrite IH.
Qed.

(** X14.  Registering a connection and unregistering it again leaves the
    task with the connections it had, up to their order: the list is the
    same when the connection was new, and when it was registered before it
    is the earlier registration that goes, the list ending with the later
    one.  The key of the task stays in the table, with an empty list when
    the task had no connection. *)
Theorem unregister_after_register task_id websocket websocket_connections :
  let before := default [] (websocket_connections !! task_id) in
  ∃ after,
    unregister_websocket task_id websocket
      (register_websocket task_id websocket websocket_connections)
    = <[task_id := after]> websocket_connections
    ∧ after ≡ₚ before
    ∧ (websocket ∉ before → after = before)
    ∧ (∀ l1 l2, before = l1 ++ websocket :: l2 → websocket ∉ l1 →
                after = l1 ++ l2 ++ [websocket]).
Proof.
  cbn zeta. set (before := default [] (websocket_connections !! task_id)).
  unfold unregister_websocket, register_websocket.
  rewrite lookup_insert_eq. rewrite bool_decide_eq_true_2 by set_solver.
  rewrite insert_insert_eq.
  exists (remove_first websocket (before ++ [websocket])). split; [done|].
  destruct (decide (websocket ∈ before)) as [Hin|Hnot].
  - apply list_elem_of_split_l in Hin as (l1 & l2 & Hsplit & Hl1).
    rewrite Hsplit, <- app_assoc. cbn [app].
    rewrite remove_first_app by done. split_and!.
    + rewrite app_assoc, (Permutation_app_comm (l1 ++ l2)). cbn.
      by rewrite Permutation_middle.
    + set_solver.
    + intros l1' l2' Heq Hl1'.
      assert (l1' = l1 ∧ l2' = l2) as [-> ->]; [|done].
      clear -Heq Hl1 Hl1'. revert l1' Heq Hl1'.
      induction l1 as [|y l1 IH]; intros [|y' l1'] Heq Hl1'.
      * by simplify_eq.
      * simplify_eq. set_solver.
      * simplify_eq. set_solver.
      * cbn in Heq. injection Heq as -> Heq.
        destruct (IH ltac:(set_solver) l1' Heq ltac:(set_solver)) as [-> ->]. done.
  - rewrite <- (app_nil_r (before ++ [websocket])), <- app_assoc. cbn [app].
    rewrite remove_first_app, app_nil_r by done. split_and!; [done|done|].
    intros l1 l2 Heq _. rewrite Heq in Hnot. set_solver.
Qed.

(** ** Status updates *)

Lemma os_path_basename_plain p : contains_slash p = false → os_path_basename p = p.
Proof.
  destruct p as [|c p]; [done|]. cbn. intros [Hc ->]%orb_false_iff. by rewrite Hc.
Qed.

Lemma contains_slash_app a b :
  contains_slash (a +:+ b) = contains_slash a || contains_slash b.
Proof.
  induction a as [|c a IH]; [done|].
  change (String c a +:+ b) with (String c (a +:+ b)). cbn [contains_slash].
  by rewrite IH, orb_assoc.
Qed.

Lemma os_path_basename_app a b :
  contains_slash b = false → os_path_basename (a +:+ "/" +:+ b) = b.
Proof.
  intros Hb. induction a as [|c a IH].
  - change ("" +:+ "/" +:+ b) with (String "/" b). cbn. by rewrite Hb.
  - change (String c a +:+ "/" +:+ b) with (String c (a +:+ "/" +:+ b)).
    cbn [os_path_basename]. rewrite contains_slash_app.
    change (contains_slash ("/" +:+ b)) with true. by rewrite orb_true_r.
Qed.

Lemma ends_with_slash_contains a : ends_with_slash a = true → contains_slash a = true.
Proof.
  induction a as [|c a IH]; [done|]. cbn [ends_with_slash contains_slash].
  destruct a as [|c' a]; [by intros ->|].
  intros H. by rewrite (IH H), orb_true_r.
Qed.

Lemma os_path_basename_dir a b :
  ends_with_slash a = true → contains_slash b = false → os_path_basename (a +:+ b) = b.
Proof.
  intros Ha Hb. induction a as [|c a IH]; [done|].
  change (String c a +:+ b) with (String c (a +:+ b)). cbn [os_path_basename].
  destruct a as [|c' a].
  - change ("" +:+ b) with b. rewrite Hb. cbn in Ha. by rewrite Ha.
  - rewrite contains_slash_app, (ends_with_slash_contains (String c' a)) by done.
    cbn [orb]. by apply IH.
Qed.

Lemma os_path_basename_join a b :
  contains_slash b = false → os_path_basename (os_path_join a b) = b.
Proof.
  intros Hb. unfold os_path_join. case_bool_decide; [by apply os_path_basename_plain|].
  destruct (ends_with_slash a) eqn:Hend; [by apply os_path_basename_dir|].
  by apply os_path_basename_app.
Qed.

(** *** What reaches a connection *)



Section StatusUpdateFacts.

Variable float_sub : Q → Q → Q.

Lemma agent_message_keys state event agent_id :
  agent_message float_sub state event agent_id !! "event" = None
  ∧ agent_message float_sub state event agent_id !! "task_id" = None.
Proof.
  unfold agent_message.
  repeat case_bool_decide; try destruct (agents state !! agent_id);
    by rewrite ?lookup_insert_ne, ?lookup_empty by done.
Qed.

(** On a state whose output path is the directory of a run, a status
    update is one notification addressed to the name of that directory. *)
Lemma status_update_sends state event agent_id websocket_connections base_dir run_dir :
  output_path state = VStr (os_path_join base_dir run_dir) →
  contains_slash run_dir = false →
  run_dir ≠ "" →
  ∃ message : Artifact,
    _handle_agent_status_update float_sub state event agent_id websocket_connections
    = Ok (_notify_clients run_dir message websocket_connections)
    ∧ message !! "task_id" = Some (VStr run_dir)
    ∧ message !! "event" = Some (VStr event)
    ∧ ∀ id k, agent_id = Some id → id ≠ "" → k ≠ "task_id" → k ≠ "event" →
              message !! k = agent_message float_sub state event id !! k.
Proof.
  intros Hpath Hplain Hne. unfold _handle_agent_status_update. rewrite Hpath.
  assert (os_path_join base_dir run_dir ≠ "") as Hjoin.
  { unfold os_path_join. case_bool_decide; [done|].
    destruct base_dir; [done|]. by destruct (ends_with_slash _). }
  cbn [truthy]. rewrite (proj2 (String.eqb_neq _ _) Hjoin). cbn [negb].
  rewrite os_path_basename_join by done.
  eexists. split; [reflexivity|].
  destruct agent_id as [id|].
  2: { split; [done|]. split; [done|]. by intros. }
  destruct (String.eqb id "") eqn:Hid; cbn [negb].
  { apply String.eqb_eq in Hid as ->. split; [done|]. split; [done|]. by intros ? ? [= <-]. }
  destruct (agent_message_keys state event id) as [Hevent Htask].
  unfold dict_update. split_and!.
  - by rewrite lookup_union_r.
  - by rewrite lookup_union_r.
  - intros ? k [= <-] _ Hk1 Hk2. rewrite lookup_union.
    rewrite !lookup_insert_ne, lookup_empty by done.
    by destruct (agent_message float_sub state event id !! k).
Qed.

(** X15.  A status update is addressed by the output path, not by the id
    of a task: on a state whose output path is the directory of a run below
    any base directory, the update never raises, every send goes to a
    connection registered under the name of that directory, in the order of
    registration, and carries the event and that name as its task id;
    connections registered under any other key get nothing.  For a stage
    that has a run state, "agent_completed" carries the end time of the
    stage, or [None] when it has none, and as duration the difference of the
    end time, or of 0 when there is none, and the start time;
    "agent_failed" carries the error of the stage, or "Unknown error" when
    it has none. *)
Theorem status_update_addressing state event agent_id websocket_connections
    base_dir run_dir :
  output_path state = VStr (os_path_join base_dir run_dir) →
  contains_slash run_dir = false →
  run_dir ≠ "" →
  ∃ sends,
    _handle_agent_status_update float_sub state event agent_id websocket_connections
    = Ok sends
    ∧ sends.*1 = default [] (websocket_connections !! run_dir)
    ∧ ∀ websocket message,
        (websocket, message) ∈ sends →
        message !! "task_id" = Some (VStr run_dir)
        ∧ message !! "event" = Some (VStr event)
        ∧ ∀ id a,
            agent_id = Some id → id ≠ "" → agents state !! id = Some a →
            (event = "agent_completed" →
             message !! "end_time" = Some (from_option VFloat VNone (a_end_time a))
             ∧ message !! "duration"
               = Some (VFloat (float_sub (default 0%Q (a_end_time a)) (a_start_time a))))
            ∧ (event = "agent_failed" →
               message !! "error" = Some (VStr (default "Unknown error" (a_error a)))).
Proof.
  intros Hpath Hplain Hne.
  destruct (status_update_sends state event agent_id websocket_connections
              base_dir run_dir Hpath Hplain Hne)
    as (message & -> & Htask & Hevent & Hkeys).
  eexists. split; [reflexivity|]. unfold _notify_clients.
  destruct (websocket_connections !! run_dir) as [connections|]; cbn [default];
    [|split; [done|]; intros ? ? Hin; by apply elem_of_nil in Hin].
  split; [rewrite <- list_fmap_compose; apply list_fmap_id|].
  intros websocket m' (ws & [= -> ->] & _)%list_elem_of_fmap.
  split; [done|]. split; [done|].
  intros id a Hid Hnonempty Ha. split.
  - intros ->. rewrite !(Hkeys id) by done. unfold agent_message. rewrite Ha.
    rewrite (bool_decide_eq_false_2 ("agent_completed" = "agent_started")) by done.
    rewrite (bool_decide_eq_true_2 ("agent_completed" = "agent_completed")) by done.
    by rewrite !lookup_insert_ne, !lookup_insert_eq by done.
  - intros ->. rewrite (Hkeys id) by done. unfold agent_message. rewrite Ha.
    rewrite (bool_decide_eq_false_2 ("agent_failed" = "agent_started")) by done.
    rewrite (bool_decide_eq_false_2 ("agent_failed" = "agent_completed")) by done.
    rewrite (bool_decide_eq_true_2 ("agent_failed" = "agent_failed")) by done.
    by rewrite lookup_insert_eq.
Qed.

End StatusUpdateFacts.

Lemma status_update_addressing_witness :
  let state :=
    enter_agent "scraper_1" plain_validation_agent (ticking 5)
      (initial_state "https://example.com" (os_path_join "generated" "1")) in
  let websocket_connections : gmap string (list WebSocket) :=
    <["task-1" := [7]]> (<["1" := [8; 9]]> ∅) in
  ∃ sends,
    _handle_agent_status_update Qminus state "agent_completed" (Some "scraper_1")
      websocket_connections = Ok sends
    ∧ sends.*1 = [8; 9]
    ∧ ∀ websocket message,
        (websocket, message) ∈ sends →
        message !! "task_id" = Some (VStr "1")
        ∧ message !! "event" = Some (VStr "agent_completed")
        ∧ message !! "end_time" = Some VNone
        ∧ message !! "duration" = Some (VFloat (Qminus 0 (ticking 5))).
Proof.
  intros state websocket_connections.
  destruct (status_update_addressing Qminus state "agent_completed" (Some "scraper_1")
              websocket_connections "generated" "1")
    as (sends & Hsends & Hto & Hmessage); [reflexivity|reflexivity|discriminate|].
  exists sends. split; [exact Hsends|]. split; [exact Hto|].
  intros websocket message Hin.
  destruct (Hmessage websocket message Hin) as (Htask & Hevent & Hkeys).
  split; [exact Htask|]. split; [exact Hevent|].
  destruct (Hkeys "scraper_1"
              (mkAgentState "scraper_1" (id plain_validation_agent) "running" (ticking 5)
                            None None None 0)
              eq_refl ltac:(discriminate) eq_refl) as [Hcompleted _].
  exact (Hcompleted eq_refl).
Defined.

(** ** The events of a task *)




(** ** The registered agents *)

(** X16.  The list of registered agents does not depend on the two API
    keys the default configurations are created with. *)
Theorem registered_agents_hide_api_keys dbg out shots key1 key2 key1' key2' p a s b :
  get_registered_agents (create_default_workflow_agents dbg out shots key1 key2 p a s b)
  = get_registered_agents (create_default_workflow_agents dbg out shots key1' key2' p a s b).
Proof.
  unfold get_registered_agents, create_default_workflow_agents.
  cbn [fmap list_fmap agent_type c_name config].
  assert (∀ (v : value) (rest : Artifact),
            filter (λ kv : string * value, kv.1 ∉ ["api_key"]) (<["api_key" := v]> rest)
            = filter (λ kv : string * value, kv.1 ∉ ["api_key"]) (delete "api_key" rest))
    as Hdrop.
  { intros v rest. apply map_filter_insert_False. cbn. set_solver. }
  by rewrite !Hdrop.
Qed.

(** * The validation agent *)

(** ** The validators *)

Lemma foldl_flag checks : ∀ found total,
  foldl (λ acc check, flag check.1.1 check.1.2 check.2 acc) (found, total) checks
  = (found ++ (filter (λ check, check.1.1 = true) checks).*1.*2,
     (total - foldr Z.add 0 (filter (λ check, check.1.1 = true) checks).*2)%Z).
Proof.
  induction checks as [|[[cond issue] penalty] checks IH]; intros found total.
  - cbn. rewrite app_nil_r. f_equal. lia.
  - cbn [foldl]. destruct cond; unfold flag at 2; cbn [fst snd].
    + rewrite filter_cons_True by done. rewrite IH. cbn [fmap list_fmap fst snd foldr].
      rewrite <- app_assoc. f_equal. lia.
    + rewrite filter_cons_False by done. by rewrite IH.
Qed.

(** The issues are those of the checks that fire, and every one of them
    costs its penalty. *)
Lemma run_checks_fired checks :
  run_checks checks
  = ((filter (λ check, check.1.1 = true) checks).*1.*2,
     (100 - foldr Z.add 0 (filter (λ check, check.1.1 = true) checks).*2)%Z).
Proof. unfold run_checks. by rewrite foldl_flag. Qed.

Lemma penalties_nonneg (penalties : list Z) :
  Forall (λ p, 0 < p)%Z penalties → (0 ≤ foldr Z.add 0 penalties)%Z.
Proof. induction 1; cbn; lia. Qed.

Lemma conclude_well_scored t checks :
  Forall (λ check, check.1.1 = true → (0 < check.2)%Z) checks →
  well_scored (conclude t (run_checks checks)).
Proof.
  intros Hpos. rewrite run_checks_fired. unfold well_scored, conclude.
  cbn [score issues passed threshold fst snd].
  assert (Forall (λ p, 0 < p)%Z (filter (λ check, check.1.1 = true) checks).*2) as Hfired.
  { apply Forall_fmap. apply Forall_forall. intros check [Hc Hin]%list_elem_of_filter.
    rewrite Forall_forall in Hpos. by apply Hpos. }
  destruct (filter (λ check, check.1.1 = true) checks) as [|check fired].
  - cbn. split_and!; [lia|lia|done|]. apply Z.leb_le.
  - rewrite !fmap_cons in *. apply Forall_cons in Hfired as [Hp Hrest].
    apply penalties_nonneg in Hrest. cbn [foldr].
    split_and!; [lia|lia| |apply Z.leb_le].
    split; [lia|done].
Qed.

Ltac fired_positive :=
  repeat first [apply Forall_nil_2 | apply Forall_cons_2];
  cbn [fst snd]; intros; try done;
  repeat match goal with
  | H : bool_decide _ = true |- _ => apply bool_decide_eq_true in H
  end; lia.

(** The score of a validator on given findings, by cases on the findings. *)
Ltac score_by_cases :=
  repeat case_bool_decide; try (exfalso; (done || lia));
  repeat match goal with b : bool |- _ => destruct b end;
  match goal with
  | |- context [score ?r] =>
      let v := eval vm_compute in (score r) in change (score r) with v
  end; lia.

Lemma _validate_seo_floor t scan : (40 ≤ score (_validate_seo t scan))%Z.
Proof.
  destruct scan as [title meta h1 canonical data viewport]. unfold _validate_seo.
  cbn [title_length has_meta_description h1_tags has_canonical has_structured_data
       has_viewport].
  destruct title as [n|]; score_by_cases.
Qed.

Lemma _validate_performance_floor t scan : (74 ≤ score (_validate_performance t scan))%Z.
Proof.
  destruct scan as [script css image dom]. unfold _validate_performance.
  cbn [blocking_script css_size image_without_loading dom_elements].
  score_by_cases.
Qed.

Lemma _validate_best_practices_floor t scan :
  (59 ≤ score (_validate_best_practices t scan))%Z.
Proof.
  destruct scan as [doctype charset tag inline logs prefixes important].
  unfold _validate_best_practices.
  cbn [has_doctype has_charset deprecated_tag inline_styles console_logs
       vendor_prefixes important_count].
  destruct tag as [tag|]; score_by_cases.
Qed.

Lemma _validate_accessibility_score t scan :
  score (_validate_accessibility t scan)
  = Z.max 0 (100 - 10 * Z.of_nat (img_tags_without_alt scan)
                 - 10 * Z.of_nat (input_tags_without_label scan)
                 - (if headings_without_h1 scan then 5 else 0)
                 - (if html_without_lang scan then 10 else 0))%Z.
Proof.
  destruct scan as [imgs inputs headings lang].
  unfold _validate_accessibility. rewrite run_checks_fired. unfold conclude.
  cbn [score fst snd img_tags_without_alt input_tags_without_label headings_without_h1
       html_without_lang].
  repeat case_bool_decide; destruct headings, lang;
    cbn -[Z.mul Z.sub Z.add Z.max Z.min Z.of_nat];
    repeat case_decide; try done;
    cbn -[Z.mul Z.sub Z.add Z.max Z.min Z.of_nat]; lia.
Qed.

(** X17.  Every validator gives a score between 0 and 100 that is 100
    exactly when it reports no issue, and passes exactly when the score
    reaches its threshold.  The penalties for SEO, performance and best
    practices are bounded, so these scores never fall below 40, 74 and 59;
    only accessibility, which charges 10 for every image without alternate
    text and every input without label, can reach 0. *)
Theorem validators_are_well_scored (self : ValidationAgent) (found : Scans) :
  let a := _validate_accessibility (accessibility_threshold self)
                                   (accessibility_scan found) in
  let s := _validate_seo (seo_threshold self) (seo_scan found) in
  let p := _validate_performance (performance_threshold self) (performance_scan found) in
  let b := _validate_best_practices (best_practices_threshold self)
                                    (best_practices_scan found) in
  well_scored a ∧ well_scored s ∧ well_scored p ∧ well_scored b
  ∧ (40 ≤ score s)%Z ∧ (74 ≤ score p)%Z ∧ (59 ≤ score b)%Z
  ∧ score a
    = Z.max 0 (100 - 10 * Z.of_nat (img_tags_without_alt (accessibility_scan found))
                   - 10 * Z.of_nat (input_tags_without_label (accessibility_scan found))
                   - (if headings_without_h1 (accessibility_scan found) then 5 else 0)
                   - (if html_without_lang (accessibility_scan found) then 10 else 0))%Z.
Proof.
  cbn zeta. split_and!.
  - apply conclude_well_scored. fired_positive.
  - apply conclude_well_scored. fired_positive.
  - apply conclude_well_scored. fired_positive.
  - apply conclude_well_scored. fired_positive.
  - apply _validate_seo_floor.
  - apply _validate_performance_floor.
  - apply _validate_best_practices_floor.
  - apply _validate_accessibility_score.
Qed.

(** ** The report *)

(** The sort is stable: it keeps, for every key, the elements of that key
    in their order. *)
Lemma filter_insert_by {A} (key : A → nat) k x l :
  filter (λ y, key y = k) (insert_by key x l)
  = if decide (key x = k) then x :: filter (λ y, key y = k) l
    else filter (λ y, key y = k) l.
Proof.
  induction l as [|y l IH]; cbn [insert_by].
  - rewrite filter_cons, filter_nil. by destruct (decide (key x = k)).
  - case_bool_decide as Hle.
    + rewrite (filter_cons _ x). by destruct (decide (key x = k)).
    + rewrite !(filter_cons _ y), IH.
      destruct (decide (key x = k)) as [Hx|Hx], (decide (key y = k)) as [Hy|Hy];
        try done. lia.
Qed.

Lemma filter_sorted {A} (key : A → nat) k l :
  filter (λ y, key y = k) (sorted key l) = filter (λ y, key y = k) l.
Proof.
  induction l as [|x l IH]; [done|]. cbn [sorted foldr].
  rewrite filter_insert_by, filter_cons. fold (sorted key l). rewrite IH.
  by destruct (decide (key x = k)).
Qed.

Lemma insert_by_ascending {A} (key : A → nat) x l :
  StronglySorted (λ y z, key y ≤ key z) l →
  StronglySorted (λ y z, key y ≤ key z) (insert_by key x l).
Proof.
  induction 1 as [|y l Hl IH Hy]; cbn [insert_by].
  - repeat constructor.
  - case_bool_decide as Hle.
    + constructor; [by constructor|]. constructor; [done|].
      eapply Forall_impl; [exact Hy|]. cbn. intros; lia.
    + constructor; [done|].
      assert (∀ l', Forall (λ z, key y ≤ key z) l' →
                    Forall (λ z, key y ≤ key z) (insert_by key x l')) as Hins.
      { induction 1; cbn [insert_by]; [repeat constructor; lia|].
        case_bool_decide; repeat constructor; try done; lia. }
      by apply Hins.
Qed.

Lemma sorted_ascending {A} (key : A → nat) l :
  StronglySorted (λ y z, key y ≤ key z) (sorted key l).
Proof.
  induction l as [|x l IH]; [constructor|]. by apply insert_by_ascending.
Qed.

Lemma filter_below {A} (key : A → nat) n k l :
  Forall (λ z, n ≤ key z) l → k < n → filter (λ y, key y = k) l = [].
Proof.
  induction 1 as [|y l Hy Hl IH]; intros Hlt; [done|].
  rewrite filter_cons_False by lia. by apply IH.
Qed.

(** A list in ascending order of four keys is its four classes in a row. *)
Lemma ascending_classes {A} (key : A → nat) l :
  StronglySorted (λ y z, key y ≤ key z) l →
  (∀ x, x ∈ l → key x < 4) →
  l = filter (λ y, key y = 0) l ++ filter (λ y, key y = 1) l
      ++ filter (λ y, key y = 2) l ++ filter (λ y, key y = 3) l.
Proof.
  induction 1 as [|x l Hl IH Hx]; intros Hkeys; [done|].
  rewrite IH at 1 by (intros; apply Hkeys; by right).
  assert (key x < 4) as Hk by (apply Hkeys; by left).
  assert (∀ k, k < key x → filter (λ y, key y = k) l = []) as Hbelow
      by (intros; by eapply filter_below).
  rewrite !(filter_cons _ x).
  destruct (key x) as [|[|[|[|?]]]] eqn:Hkx; [| | | |lia];
    repeat (destruct (decide _) as [?|?]; [try lia|try lia]);
    rewrite ?Hbelow by lia; done.
Qed.

Lemma impact_priority_bound impact : impact_priority impact < 4.
Proof. unfold impact_priority. repeat case_decide; lia. Qed.

Lemma recommended_priority issue :
  impact issue ∈ ["critical"; "high"] ↔ impact_priority (impact issue) < 2.
Proof.
  unfold impact_priority. rewrite !elem_of_cons, elem_of_nil.
  repeat case_decide; naive_solver lia.
Qed.

Lemma filter_recommended l :
  filter (λ issue, impact issue ∈ ["critical"; "high"])
         (of_priority 0 l ++ of_priority 1 l ++ of_priority 2 l ++ of_priority 3 l)
  = of_priority 0 l ++ of_priority 1 l.
Proof.
  rewrite !filter_app. unfold of_priority.
  assert (∀ k, filter (λ issue, impact issue ∈ ["critical"; "high"])
                      (filter (λ issue, impact_priority (impact issue) = k) l)
               = if decide (k < 2) then filter (λ issue, impact_priority (impact issue) = k) l
                 else []) as Hk.
  { intros k. induction l as [|issue l IH]; [by case_decide|].
    rewrite (filter_cons (λ issue, impact_priority _ = k)).
    destruct (decide (impact_priority (impact issue) = k)) as [Hi|Hi]; [|done].
    rewrite filter_cons, IH.
    destruct (decide (impact issue ∈ _)) as [Hr|Hr];
      apply recommended_priority in Hr || rewrite recommended_priority in Hr;
      case_decide; try done; lia. }
  rewrite !Hk. cbn. by rewrite !app_nil_r.
Qed.

Lemma sorted_by_impact (l : list Issue) :
  sorted (λ x, impact_priority (impact x)) l
  = of_priority 0 l ++ of_priority 1 l ++ of_priority 2 l ++ of_priority 3 l.
Proof.
  rewrite (ascending_classes (λ x, impact_priority (impact x)) (sorted _ l)).
  - unfold of_priority. by rewrite !filter_sorted.
  - apply sorted_ascending.
  - intros; apply impact_priority_bound.
Qed.

(** X18.  The report lists the issues of the four validators by impact:
    first the critical ones, then the high, the medium, and last everything
    else (low, and the impacts "serious" and "moderate" that the table of
    priorities does not know), each class in the order accessibility, SEO,
    performance, best practices and, within a category, in the order of
    its checks.  Of this list the report keeps the first ten.  The
    recommendations are made of all critical and high issues, however
    many, and no others; the status is "PASS" exactly when the quality
    score is at least 90. *)
Theorem report_orders_issues_by_impact a s p b q :
  let every := all_issues a s p b in
  let report := _generate_validation_report a s p b q in
  rp_issues report
  = take 10 (of_priority 0 every ++ of_priority 1 every
             ++ of_priority 2 every ++ of_priority 3 every)
  ∧ recommendations report = recommend <$> (of_priority 0 every ++ of_priority 1 every)
  ∧ recommendationCount report
    = length (of_priority 0 every) + length (of_priority 1 every)
  ∧ (rp_status report = "PASS" ↔ (90 <= q)%Q)
  ∧ (rp_status report = "PASS" ∨ rp_status report = "FAIL").
Proof.
  cbn zeta. unfold _generate_validation_report.
  cbn [rp_issues recommendations recommendationCount rp_status].
  set (every := all_issues a s p b).
  rewrite sorted_by_impact, filter_recommended. split_and!; [done|done| | |].
  - by rewrite length_fmap, length_app.
  - unfold at_least_90. rewrite <- Qle_bool_iff.
    destruct (Qle_bool 90 q); naive_solver.
  - destruct (at_least_90 q); auto.
Qed.

(** The issues a validator reports are among those of its checks, in
    their order. *)
Lemma issues_of_checks t checks :
  issues (conclude t (run_checks checks)) `sublist_of` checks.*1.*2.
Proof.
  rewrite run_checks_fired. cbn [conclude issues fst].
  do 2 apply fmap_sublist. apply sublist_filter.
Qed.

Lemma filter_sublist_mono {A} (P : A → Prop) `{∀ x, Decision (P x)} (l1 l2 : list A) :
  l1 `sublist_of` l2 → filter P l1 `sublist_of` filter P l2.
Proof.
  induction 1 as [|x l1 l2 Hl IH|x l1 l2 Hl IH]; [done|..].
  - rewrite !filter_cons. destruct (decide (P x)); [by constructor|done].
  - rewrite filter_cons. destruct (decide (P x)); [by constructor|done].
Qed.

(** X19.  Whatever the validators find, a report recommends at most four
    things: alternate texts for images and labels for inputs (the two
    critical issues of accessibility), a title and a viewport (the two high
    issues of SEO).  A missing language attribute, of impact "serious", is
    never recommended, nor is any issue of performance or best practices. *)
Theorem recommendations_of_a_report (self : ValidationAgent) (found : Scans) q :
  let report :=
    _generate_validation_report
      (_validate_accessibility (accessibility_threshold self) (accessibility_scan found))
      (_validate_seo (seo_threshold self) (seo_scan found))
      (_validate_performance (performance_threshold self) (performance_scan found))
      (_validate_best_practices (best_practices_threshold self)
                                (best_practices_scan found)) q in
  recommendationCount report ≤ 4
  ∧ ∀ r, r ∈ recommendations report →
         (rec_category r = Some "accessibility" ∧ rec_rule r ∈ ["images-alt"; "label"])
         ∨ (rec_category r = Some "seo" ∧ rec_rule r ∈ ["document-title"; "viewport"]).
Proof.
  cbn zeta. unfold _generate_validation_report.
  cbn [recommendations recommendationCount].
  rewrite sorted_by_impact, filter_recommended, length_fmap.
  match goal with
  | |- context [of_priority 0 ?l] => set (every := l)
  end.
  assert (∃ candidates,
            every `sublist_of` candidates
            ∧ length (of_priority 0 candidates ++ of_priority 1 candidates) = 4
            ∧ ∀ issue, issue ∈ of_priority 0 candidates ++ of_priority 1 candidates →
                (category issue = Some "accessibility"
                 ∧ rule issue ∈ ["images-alt"; "label"])
                ∨ (category issue = Some "seo"
                   ∧ rule issue ∈ ["document-title"; "viewport"]))
    as (candidates & Hsub & Hlen & Hrules).
  { eexists. split.
    - unfold every, all_issues.
      repeat apply sublist_app; apply fmap_sublist; apply issues_of_checks.
    - split; [by vm_compute|].
      intros issue Hin. vm_compute in Hin.
      repeat (apply elem_of_cons in Hin as [->|Hin]; [cbn; set_solver|]).
      by apply elem_of_nil in Hin. }
  assert (of_priority 0 every ++ of_priority 1 every
          `sublist_of` of_priority 0 candidates ++ of_priority 1 candidates) as Hclasses
      by (apply sublist_app; by apply filter_sublist_mono).
  split.
  - rewrite <- Hlen. by apply sublist_length.
  - intros r (issue & -> & Hin)%list_elem_of_fmap. cbn [recommend rec_category rec_rule].
    apply Hrules. by eapply elem_of_sublist.
Qed.

(** ** The verdict *)

(** The thresholds do not enter the scores. *)
Lemma score_conclude t t' found : score (conclude t found) = score (conclude t' found).
Proof. reflexivity. Qed.

Lemma validation_artifact_quality_score v :
  validation_artifact v !! "quality_score" = Some (VFloat (v_quality_score v)).
Proof.
  unfold validation_artifact. by rewrite !lookup_insert_ne, lookup_insert_eq by done.
Qed.

Lemma validation_artifact_passed v :
  validation_artifact v !! "passed" = Some (VBool (v_passed v)).
Proof.
  unfold validation_artifact. by rewrite !lookup_insert_ne, lookup_insert_eq by done.
Qed.

Lemma validation_artifact_report v :
  validation_artifact v !! "validation_report"
  = Some (report_value (validation_report v)).
Proof.
  unfold validation_artifact. by rewrite !lookup_insert_ne, lookup_insert_eq by done.
Qed.

Section Verdict.

Variable scan : value → value → res Scans.
Variable _calculate_quality_score : Z → Z → Z → Z → Q.

(** [validate] on documents the scans accept. *)
Lemma validate_scanned self input_data found :
  truthy (dict_get input_data "html_output" (VStr "")) = true →
  truthy (dict_get input_data "css_output" (VStr "")) = true →
  scan (dict_get input_data "html_output" (VStr ""))
       (dict_get input_data "css_output" (VStr "")) = Ok found →
  ∃ v, validate scan _calculate_quality_score self input_data = Ok v
       ∧ v_quality_score v
         = _calculate_quality_score
             (score (_validate_accessibility 0 (accessibility_scan found)))
             (score (_validate_seo 0 (seo_scan found)))
             (score (_validate_performance 0 (performance_scan found)))
             (score (_validate_best_practices 0 (best_practices_scan found)))
       ∧ v_passed v = at_least_90 (v_quality_score v)
       ∧ rp_status (validation_report v)
         = (if at_least_90 (v_quality_score v) then "PASS" else "FAIL").
Proof.
  intros Hhtml Hcss Hscan. unfold validate. rewrite Hhtml, Hcss, Hscan.
  cbn [negb orb]. eexists. split; [reflexivity|].
  cbn [v_quality_score v_passed validation_report].
  unfold _generate_validation_report. cbn [rp_status].
  unfold _validate_accessibility, _validate_seo, _validate_performance,
    _validate_best_practices.
  rewrite (score_conclude (accessibility_threshold self) 0),
    (score_conclude (seo_threshold self) 0),
    (score_conclude (performance_threshold self) 0),
    (score_conclude (best_practices_threshold self) 0).
  split_and!; reflexivity.
Qed.

(** X21.  The validation agent raises "HTML and CSS outputs are required"
    exactly when the HTML or the CSS it is handed is missing or empty, and
    otherwise returns or raises as the scans do.  A result carries the
    quality score computed from the four scores, and its verdict [passed]
    is the comparison of that score with 90, which is also what the status
    of the report says.  The four thresholds of the agent decide neither:
    an agent with other thresholds returns the same score and verdict. *)
Theorem validation_verdict self input_data :
  let html_output := dict_get input_data "html_output" (VStr "") in
  let css_output := dict_get input_data "css_output" (VStr "") in
  match validation_process scan _calculate_quality_score self input_data with
  | Raise e =>
      (truthy html_output && truthy css_output = false
       ∧ e = "HTML and CSS outputs are required")
      ∨ (truthy html_output && truthy css_output = true
         ∧ scan html_output css_output = Raise e)
  | Ok result =>
      truthy html_output && truthy css_output = true
      ∧ ∃ found v,
          scan html_output css_output = Ok found
          ∧ validate scan _calculate_quality_score self input_data = Ok v
          ∧ v_quality_score v
            = _calculate_quality_score
                (score (_validate_accessibility 0 (accessibility_scan found)))
                (score (_validate_seo 0 (seo_scan found)))
                (score (_validate_performance 0 (performance_scan found)))
                (score (_validate_best_practices 0 (best_practices_scan found)))
          ∧ dict_get result "quality_score" (VFloat 1) = VFloat (v_quality_score v)
          ∧ truthy (dict_get result "passed" (VBool false))
            = at_least_90 (v_quality_score v)
          ∧ (rp_status (validation_report v) = "PASS"
             ↔ at_least_90 (v_quality_score v) = true)
          ∧ result !! "validation_report" = Some (report_value (validation_report v))
          ∧ ∀ self',
              ∃ result',
                validation_process scan _calculate_quality_score self' input_data
                = Ok result'
                ∧ result' !! "quality_score" = result !! "quality_score"
                ∧ result' !! "passed" = result !! "passed"
  end.
Proof.
  cbn zeta.
  destruct (truthy (dict_get input_data "html_output" (VStr ""))) eqn:Hhtml.
  2: { unfold validation_process, validate. rewrite Hhtml. by left. }
  destruct (truthy (dict_get input_data "css_output" (VStr ""))) eqn:Hcss.
  2: { unfold validation_process, validate. rewrite Hhtml, Hcss. by left. }
  destruct (scan (dict_get input_data "html_output" (VStr ""))
                 (dict_get input_data "css_output" (VStr ""))) as [found|e] eqn:Hscan.
  2: { unfold validation_process, validate. rewrite Hhtml, Hcss, Hscan. by right. }
  destruct (validate_scanned self input_data found Hhtml Hcss Hscan)
    as (v & Hv & Hq & Hp & Hs).
  unfold validation_process at 1. rewrite Hv.
  split; [done|]. exists found, v. unfold dict_get.
  rewrite validation_artifact_quality_score, validation_artifact_passed,
    validation_artifact_report. cbn [default truthy].
  split_and!; [done|done|done|done|done| |done|].
  - rewrite Hs. destruct (at_least_90 _); split; intros; congruence.
  - intros self'.
    destruct (validate_scanned self' input_data found Hhtml Hcss Hscan)
      as (v' & Hv' & Hq' & Hp' & _).
    unfold validation_process. rewrite Hv'. eexists. split; [reflexivity|].
    rewrite !validation_artifact_quality_score, !validation_artifact_passed.
    by rewrite Hp', Hp, Hq', Hq.
Qed.

End Verdict.
